(** * The interactive terminal session bridge of containerlab_server_backend.js

    The WebSocket handler [wss.on('connection', ...)] of
    [server/containerlab_server_backend.js] is embedded as a state machine:
    the three closure variables [sshClient], [sshStream] and [dockerProcess]
    are the fields of a [Session] record, every registered callback is a
    handler in a small state/exception/output monad, and everything the
    handlers do to the outside world (ws.send, ws.close, pty.spawn,
    sshClient.connect, ...) is recorded, in program order, as a list of
    [Effect]s.

    What the JavaScript runtime provides ([Buffer.prototype.toString],
    [JSON.parse], the text of a TypeError) and what the libraries do with
    the arguments of [pty.spawn] and of [connect] (return, throw, or end the
    process) is a Section variable of the handlers; reference
    implementations ([Utf8.decode], [Json.parse], [Node.pty_spawn],
    [Node.ssh_connect]) are used to run the handlers on concrete inputs. *)

From Stdlib Require Import String Ascii NArith ZArith Bool Lia Arith List.
From Stdlib Require Import Permutation.
From Stdlib.Strings Require Import Byte.
Import ListNotations.

Set Warnings "-register-all".

(* ===================================================================== *)
(** ** JavaScript values *)
(* ===================================================================== *)

Module Js.

(** A JavaScript string, as the sequence of its code points. *)
Definition JsString := list N.

(** A string literal of the source (all of them are ASCII). *)
Definition lit (s : string) : JsString :=
  map N_of_ascii (list_ascii_of_string s).

Fixpoint str_eqb (a b : JsString) : bool :=
  match a, b with
  | [], [] => true
  | x :: a', y :: b' => N.eqb x y && str_eqb a' b'
  | _, _ => false
  end.

(** The values [JSON.parse] can return, and [undefined].  Numbers are the
    integral ones. *)
Inductive JsVal :=
| JUndefined
| JNull
| JBool (b : bool)
| JNum (z : Z)
| JStr (s : JsString)
| JArr (items : list JsVal)
| JObj (fields : list (JsString * JsVal)).

(** Own property of an object literal; the first binding of [fields] is
    the property ([Json.parse] keeps one binding per key). *)
Fixpoint lookup (k : JsString) (fields : list (JsString * JsVal)) : JsVal :=
  match fields with
  | [] => JUndefined
  | (k', v) :: rest => if str_eqb k k' then v else lookup k rest
  end.

(** [data.k] for the property names the handler reads (nodeName, nodeIp,
    username, nodeKind, cols, rows): [None] is the TypeError of reading a
    property of null or undefined; primitives and arrays have no such
    property. *)
Definition get (data : JsVal) (k : JsString) : option JsVal :=
  match data with
  | JUndefined | JNull => None
  | JObj fields => Some (lookup k fields)
  | _ => Some JUndefined
  end.

(** ToBoolean. *)
Definition truthy (v : JsVal) : bool :=
  match v with
  | JUndefined | JNull => false
  | JBool b => b
  | JNum z => negb (Z.eqb z 0)
  | JStr s => match s with [] => false | _ => true end
  | JArr _ | JObj _ => true
  end.

(** [a || b]. *)
Definition or_else (a b : JsVal) : JsVal := if truthy a then a else b.

(** [v === 'literal']. *)
Definition is_str (v : JsVal) (s : JsString) : bool :=
  match v with
  | JStr s' => str_eqb s' s
  | _ => false
  end.

End Js.
Import Js.

(* ===================================================================== *)
(** ** UTF-8: the reference [Buffer.prototype.toString()] *)
(* ===================================================================== *)

Module Utf8.

Local Open Scope N_scope.

Definition Buffer := list byte.

Definition replacement : N := 65533.  (* U+FFFD *)

Definition between (lo hi n : N) : bool := N.leb lo n && N.leb n hi.

(** What the decoder does with a byte when no sequence is open. *)
Inductive Start :=
| Emit (cp : N)
| Begin (cp : N) (more : nat) (lo hi : N)
| Invalid.

(** The lead-byte table of the WHATWG UTF-8 decoder; [n mod 2^k] is the
    [n & (2^k - 1)] of the standard. *)
Definition start (n : N) : Start :=
  if N.leb n 127 then Emit n
  else if between 194 223 n then Begin (n mod 32) 1 128 191
  else if between 224 239 n then
    Begin (n mod 16) 2 (if N.eqb n 224 then 160 else 128)
                       (if N.eqb n 237 then 159 else 191)
  else if between 240 244 n then
    Begin (n mod 8) 3 (if N.eqb n 240 then 144 else 128)
                      (if N.eqb n 244 then 143 else 191)
  else Invalid.

(** [go cp more lo hi bs]: [more] continuation bytes are still expected
    within [lo..hi]; an ill-formed sequence yields U+FFFD and the
    offending byte is read again as a lead byte. *)
Fixpoint go (cp : N) (more : nat) (lo hi : N) (bs : list N) : JsString :=
  match bs with
  | [] => match more with O => [] | S _ => [replacement] end
  | n :: rest =>
      let fresh (st : Start) :=
        match st with
        | Emit c => c :: go 0 0 128 191 rest
        | Begin c m l h => go c m l h rest
        | Invalid => replacement :: go 0 0 128 191 rest
        end in
      match more with
      | O => fresh (start n)
      | S k =>
          if between lo hi n then
            let cp' := (cp * 64 + n mod 64)%N in
            match k with
            | O => cp' :: go 0 0 128 191 rest
            | S _ => go cp' k 128 191 rest
            end
          else replacement :: fresh (start n)
      end
  end.

Definition bytes (bs : Buffer) : list N := map Byte.to_N bs.

Definition decode (bs : Buffer) : JsString := go 0 0 128 191 (bytes bs).




End Utf8.

(* ===================================================================== *)
(** ** JSON: the reference [JSON.parse] *)
(* ===================================================================== *)

Module Json.

Local Open Scope N_scope.

Definition is_ws (c : N) : bool :=
  N.eqb c 32 || N.eqb c 9 || N.eqb c 10 || N.eqb c 13.

Fixpoint skip_ws (s : JsString) : JsString :=
  match s with
  | c :: r => if is_ws c then skip_ws r else s
  | [] => []
  end.

(** [eat p s]: [s] without its prefix [p]. *)
Fixpoint eat (p s : JsString) : option JsString :=
  match p, s with
  | [], _ => Some s
  | x :: p', y :: s' => if N.eqb x y then eat p' s' else None
  | _ :: _, [] => None
  end.

Definition is_digit (c : N) : bool := Utf8.between 48 57 c.

Fixpoint digits (acc : Z) (s : JsString) : Z * JsString :=
  match s with
  | c :: r =>
      if is_digit c then digits (acc * 10 + Z.of_N (c - 48))%Z r else (acc, s)
  | [] => (acc, [])
  end.

(** An integer literal without its sign: [0], or digits with no leading
    zero; a fraction or an exponent is outside the integral numbers. *)
Definition natural (s : JsString) : option (Z * JsString) :=
  match s with
  | c :: r =>
      if negb (is_digit c) then None
      else
        let '(z, r') := if N.eqb c 48 then (0%Z, r) else digits 0 s in
        match r' with
        | d :: _ =>
            if is_digit d || N.eqb d 46 || N.eqb d 101 || N.eqb d 69
            then None else Some (z, r')
        | [] => Some (z, r')
        end
  | [] => None
  end.

Definition hex (c : N) : option N :=
  if is_digit c then Some (c - 48)
  else if Utf8.between 97 102 c then Some (c - 87)
  else if Utf8.between 65 70 c then Some (c - 55)
  else None.

Definition hex4 (a b c d : N) : option N :=
  match hex a, hex b, hex c, hex d with
  | Some a, Some b, Some c, Some d =>
      let u := ((a * 16 + b) * 16 + c) * 16 + d in
      if Utf8.between 55296 57343 u then None else Some u
  | _, _, _, _ => None
  end.

Definition escape (e : N) : option N :=
  if N.eqb e 34 || N.eqb e 92 || N.eqb e 47 then Some e
  else if N.eqb e 98 then Some 8
  else if N.eqb e 102 then Some 12
  else if N.eqb e 110 then Some 10
  else if N.eqb e 114 then Some 13
  else if N.eqb e 116 then Some 9
  else None.

(** The characters of a string literal after its opening quote. *)
Fixpoint str_body (s acc : JsString) : option (JsString * JsString) :=
  match s with
  | [] => None
  | c :: r =>
      if N.eqb c 34 then Some (rev acc, r)
      else if N.ltb c 32 then None
      else if N.eqb c 92 then
        match r with
        | 117 :: a :: b :: c' :: d :: r' =>
            match hex4 a b c' d with
            | Some u => str_body r' (u :: acc)
            | None => None
            end
        | e :: r' =>
            match escape e with
            | Some x => str_body r' (x :: acc)
            | None => None
            end
        | [] => None
        end
      else str_body r (c :: acc)
  end.

(** A repeated key keeps its place and takes the last value. *)
Fixpoint set (k : JsString) (v : JsVal) (fields : list (JsString * JsVal))
  : list (JsString * JsVal) :=
  match fields with
  | [] => [(k, v)]
  | (k', v') :: rest =>
      if str_eqb k k' then (k', v) :: rest else (k', v') :: set k v rest
  end.

Fixpoint value (fuel : nat) (s : JsString) : option (JsVal * JsString) :=
  match fuel with
  | O => None
  | S fuel' =>
      match skip_ws s with
      | [] => None
      | c :: r =>
          if N.eqb c 34 then
            match str_body r [] with
            | Some (x, r') => Some (JStr x, r')
            | None => None
            end
          else if N.eqb c 91 then
            match skip_ws r with
            | 93 :: r' => Some (JArr [], r')
            | _ => elements fuel' r []
            end
          else if N.eqb c 123 then
            match skip_ws r with
            | 125 :: r' => Some (JObj [], r')
            | _ => members fuel' r []
            end
          else if N.eqb c 45 then
            match natural r with
            | Some (z, r') => Some (JNum (- z), r')
            | None => None
            end
          else if is_digit c then
            match natural (c :: r) with
            | Some (z, r') => Some (JNum z, r')
            | None => None
            end
          else
            match eat (lit "null") (c :: r), eat (lit "true") (c :: r),
                  eat (lit "false") (c :: r) with
            | Some r', _, _ => Some (JNull, r')
            | _, Some r', _ => Some (JBool true, r')
            | _, _, Some r' => Some (JBool false, r')
            | _, _, _ => None
            end
      end
  end
with elements (fuel : nat) (s : JsString) (acc : list JsVal)
  : option (JsVal * JsString) :=
  match fuel with
  | O => None
  | S fuel' =>
      match value fuel' s with
      | Some (v, r) =>
          match skip_ws r with
          | 44 :: r' => elements fuel' r' (v :: acc)
          | 93 :: r' => Some (JArr (rev (v :: acc)), r')
          | _ => None
          end
      | None => None
      end
  end
with members (fuel : nat) (s : JsString) (acc : list (JsString * JsVal))
  : option (JsVal * JsString) :=
  match fuel with
  | O => None
  | S fuel' =>
      match skip_ws s with
      | 34 :: r =>
          match str_body r [] with
          | Some (k, r1) =>
              match skip_ws r1 with
              | 58 :: r2 =>
                  match value fuel' r2 with
                  | Some (v, r3) =>
                      match skip_ws r3 with
                      | 44 :: r4 => members fuel' r4 (set k v acc)
                      | 125 :: r4 => Some (JObj (set k v acc), r4)
                      | _ => None
                      end
                  | None => None
                  end
              | _ => None
              end
          | None => None
          end
      | _ => None
      end
  end.

Definition syntax_error : JsString := lit "Unexpected token in JSON".

(** [inl message] is a thrown SyntaxError. *)
Definition parse (s : JsString) : JsString + JsVal :=
  match value (2 * List.length s + 2) s with
  | Some (v, r) =>
      match skip_ws r with
      | [] => inr v
      | _ => inl syntax_error
      end
  | None => inl syntax_error
  end.

End Json.

(** Test inputs are written with ['] for the JSON quote. *)
Definition quoted (s : string) : list N :=
  map (fun c => if N.eqb c 39 then 34%N else c) (lit s).

Definition text (s : string) : Utf8.Buffer :=
  map (fun b => if Byte.eqb b x27 then x22 else b) (list_byte_of_string s).

(* ===================================================================== *)
(** ** The session bridge: [wss.on('connection', (ws, req) => ...)] *)
(* ===================================================================== *)

Module Bridge.

(** Runtime objects (ssh2 clients, shell channels, pseudo-terminals,
    timers) are named by the order of their creation. *)
Definition Id := nat.

(** One prompt of a keyboard-interactive request. *)
Record Prompt := { prompt : JsString; echo : bool }.

(** An argument of [pty.spawn]: a literal, a value of the handshake, or
    ['admin@' + nodeName]. *)
Inductive Arg :=
| ALit (s : JsString)
| AVal (v : JsVal)
| AConcat (s : JsString) (v : JsVal).

(** The options of [pty.spawn]; cwd and env are the server's own. *)
Record PtyOptions := { pty_name : JsString; pty_cols : JsVal; pty_rows : JsVal }.

Record ConnectConfig :=
  { host : JsVal; username : JsString; tryKeyboard : bool; readyTimeout : Z }.

(** The pseudo-terminal options of [sshClient.shell]: [None] is a field
    the caller leaves out. *)
Record ShellOptions :=
  { term : JsString; shell_cols : option JsVal; shell_rows : option JsVal }.

(** What a handler does to the client connection and to the drivers. *)
Inductive Effect :=
| WsSend (data : JsString)
| WsClose
| PtySpawn (p : Id) (file : JsString) (args : list Arg) (opts : PtyOptions)
| PtyWrite (p : Id) (data : JsString)
| PtyKill (p : Id)
| SshConnect (c : Id) (cfg : ConnectConfig)   (* sshClient.connect(cfg) is called *)
| SshFinish (c : Id) (responses : list JsString)
| SshShell (c : Id) (opts : ShellOptions)
| SshEnd (c : Id)
| StreamWrite (st : Id) (data : JsString)
| SetTimeout (t : Id) (ms : Z)
| ClearTimeout (t : Id).

(** What the runtime delivers to the registered callbacks. *)
Inductive Event :=
| WsMessage (message : Utf8.Buffer)
| WsClosed
| WsError (error : JsString)
| PtyData (p : Id) (data : JsString)
| PtyExit (p : Id) (exitCode signal : Z)
| PtyError (p : Id) (message : JsString)
| KeyboardInteractive (c : Id) (prompts : list Prompt)
| AuthenticationRequired (c : Id) (authMethods : option (list JsString))
| SshError (c : Id) (message : JsString)
| SshReady (c : Id)
| ShellCallback (err : option JsString)
| StreamData (st : Id) (data : Utf8.Buffer)
| StreamClose (st : Id)
| Timeout (t : Id) (sock : bool).

(** The closure variables of one connection, and the objects of the
    connection that have callbacks attached. *)
Record Session := {
  sshClient : option Id;
  sshStream : option Id;
  dockerProcess : option Id;
  clients : list Id;
  ptys : list Id;
  streams : list Id;
  timers : list Id;       (* connectionTimeout timers still pending *)
  shellReqs : nat;        (* sshClient.shell calls awaiting their callback *)
  nextId : Id
}.

Definition init : Session :=
  {| sshClient := None; sshStream := None; dockerProcess := None;
     clients := []; ptys := []; streams := []; timers := [];
     shellReqs := 0; nextId := 0 |}.

Definition set_sshClient v s :=
  {| sshClient := v; sshStream := sshStream s;
     dockerProcess := dockerProcess s; clients := clients s;
     ptys := ptys s; streams := streams s; timers := timers s;
     shellReqs := shellReqs s; nextId := nextId s |}.
Definition set_sshStream v s :=
  {| sshClient := sshClient s; sshStream := v;
     dockerProcess := dockerProcess s; clients := clients s;
     ptys := ptys s; streams := streams s; timers := timers s;
     shellReqs := shellReqs s; nextId := nextId s |}.
Definition set_dockerProcess v s :=
  {| sshClient := sshClient s; sshStream := sshStream s;
     dockerProcess := v; clients := clients s;
     ptys := ptys s; streams := streams s; timers := timers s;
     shellReqs := shellReqs s; nextId := nextId s |}.
Definition set_clients v s :=
  {| sshClient := sshClient s; sshStream := sshStream s;
     dockerProcess := dockerProcess s; clients := v;
     ptys := ptys s; streams := streams s; timers := timers s;
     shellReqs := shellReqs s; nextId := nextId s |}.
Definition set_ptys v s :=
  {| sshClient := sshClient s; sshStream := sshStream s;
     dockerProcess := dockerProcess s; clients := clients s;
     ptys := v; streams := streams s; timers := timers s;
     shellReqs := shellReqs s; nextId := nextId s |}.
Definition set_streams v s :=
  {| sshClient := sshClient s; sshStream := sshStream s;
     dockerProcess := dockerProcess s; clients := clients s;
     ptys := ptys s; streams := v; timers := timers s;
     shellReqs := shellReqs s; nextId := nextId s |}.
Definition set_timers v s :=
  {| sshClient := sshClient s; sshStream := sshStream s;
     dockerProcess := dockerProcess s; clients := clients s;
     ptys := ptys s; streams := streams s; timers := v;
     shellReqs := shellReqs s; nextId := nextId s |}.
Definition set_shellReqs v s :=
  {| sshClient := sshClient s; sshStream := sshStream s;
     dockerProcess := dockerProcess s; clients := clients s;
     ptys := ptys s; streams := streams s; timers := timers s;
     shellReqs := v; nextId := nextId s |}.
Definition set_nextId v s :=
  {| sshClient := sshClient s; sshStream := sshStream s;
     dockerProcess := dockerProcess s; clients := clients s;
     ptys := ptys s; streams := streams s; timers := timers s;
     shellReqs := shellReqs s; nextId := v |}.

Definition mem (x : Id) (l : list Id) : bool := existsb (Nat.eqb x) l.

Definition remove (x : Id) (l : list Id) : list Id :=
  filter (fun y => negb (Nat.eqb x y)) l.

(** *** Handlers: state, a failure, and the effects so far *)

(** How a callback fails: by an exception, with its message, or by the end
    of the server process inside a native call. *)
Inductive Failure :=
| Thrown (message : JsString)
| Aborted.

(** What a call into a library does with the arguments it is given: it
    returns, it throws an Error, or it takes the process down. *)
Inductive Attempt :=
| Returns
| Throws (message : JsString)
| Aborts.

Definition M (A : Type) : Type :=
  Session -> (Failure + A) * Session * list Effect.

Definition ret {A} (a : A) : M A := fun s => (inr a, s, []).

Definition bind {A B} (m : M A) (k : A -> M B) : M B :=
  fun s =>
    match m s with
    | (inl e, s1, o1) => (inl e, s1, o1)
    | (inr a, s1, o1) => let '(r, s2, o2) := k a s1 in (r, s2, o1 ++ o2)
    end.

Definition throw {A} (e : JsString) : M A :=
  fun s => (inl (Thrown e), s, []).

Definition abort {A} : M A := fun s => (inl Aborted, s, []).

(** [try { m } catch (error) { h error.message }]. *)
Definition try_catch (m : M unit) (h : JsString -> M unit) : M unit :=
  fun s =>
    match m s with
    | (inl (Thrown e), s1, o1) =>
        let '(r, s2, o2) := h e s1 in (r, s2, o1 ++ o2)
    | (inl Aborted, s1, o1) => (inl Aborted, s1, o1)
    | (inr a, s1, o1) => (inr a, s1, o1)
    end.

(** The outcome of a library call. *)
Definition attempt (a : Attempt) : M unit :=
  match a with
  | Returns => ret tt
  | Throws e => throw e
  | Aborts => abort
  end.

Definition emit (e : Effect) : M unit := fun s => (inr tt, s, [e]).
Definition read : M Session := fun s => (inr s, s, []).
Definition update (f : Session -> Session) : M unit :=
  fun s => (inr tt, f s, []).
Definition new_id : M Id :=
  fun s => (inr (nextId s), set_nextId (S (nextId s)) s, []).
Definition when (b : bool) (m : M unit) : M unit :=
  if b then m else ret tt.

Declare Scope handler_scope.
Delimit Scope handler_scope with handler.
Notation "x <- m ;; k" := (bind m (fun x => k))
  (at level 61, m at next level, right associativity) : handler_scope.
Notation "m ;; k" := (bind m (fun _ => k))
  (at level 61, right associativity) : handler_scope.
Local Open Scope handler_scope.

(** *** The diagnostics sent to the client *)

Definition esc : JsString := [27%N].
Definition crlf : JsString := [13%N; 10%N].

(** [`\r\n\x1b[31mError: ${message}\x1b[0m`] *)
Definition error_notice (message : JsString) : JsString :=
  crlf ++ esc ++ lit "[31mError: " ++ message ++ esc ++ lit "[0m".

(** ['\r\n\x1b[31mConnection closed\x1b[0m'] *)
Definition closed_notice : JsString :=
  crlf ++ esc ++ lit "[31mConnection closed" ++ esc ++ lit "[0m".

(** ['\r\n\x1b[31mError: Connection timeout\x1b[0m'] *)
Definition timeout_notice : JsString :=
  crlf ++ esc ++ lit "[31mError: Connection timeout" ++ esc ++ lit "[0m".

(** ['\r\n\x1b[31mError: Failed to create shell\x1b[0m'] *)
Definition shell_failed_notice : JsString :=
  crlf ++ esc ++ lit "[31mError: Failed to create shell" ++ esc ++ lit "[0m".

Definition admin : JsString := lit "admin".
Definition xterm : JsString := lit "xterm-256color".

Section Handlers.

(** The runtime: [Buffer.prototype.toString], [JSON.parse] ([inl] is
    the message of the SyntaxError it throws), the message of the
    TypeError of reading through null and the one of calling a method that
    an object does not have. *)
Variable toString : Utf8.Buffer -> JsString.
Variable JSON_parse : JsString -> JsString + JsVal.
Variable TypeError_message : JsString.
Variable NotAFunction_message : JsString.

(** The libraries: what [pty.spawn] of node-pty and [connect] of an ssh2
    client do with the arguments they are given. *)
Variable pty_spawn : JsString -> list Arg -> PtyOptions -> Attempt.
Variable ssh_connect : ConnectConfig -> Attempt.

(** [data.k], also as read by the destructuring of [data]. *)
Definition prop (data : JsVal) (k : string) : M JsVal :=
  match Js.get data (lit k) with
  | Some v => ret v
  | None => throw TypeError_message
  end.

(** [dockerProcess = pty.spawn(file, args, { name, cols: data.cols || 80,
    rows: data.rows || 24, cwd, env })], then onData, onExit and
    on('error') are attached.  When [pty.spawn] throws, the variable is
    not assigned and no callback is attached. *)
Definition spawn (file : JsString) (args : list Arg) (data : JsVal)
  : M unit :=
  cols <- prop data "cols";;
  rows <- prop data "rows";;
  let opts := {| pty_name := xterm;
                 pty_cols := or_else cols (JNum 80);
                 pty_rows := or_else rows (JNum 24) |} in
  attempt (pty_spawn file args opts);;
  p <- new_id;;
  emit (PtySpawn p file args opts);;
  update (set_dockerProcess (Some p));;
  update (fun s => set_ptys (p :: ptys s) s).

(** The else branch: a new ssh2 client, connect, the five client
    callbacks, and the connection timer.  [connect] is called on the client
    that [sshClient] already holds: when it throws, the variable keeps the
    client, and neither the callbacks nor the timer are set. *)
Definition connect_device (nodeIp : JsVal) : M unit :=
  c <- new_id;;
  update (set_sshClient (Some c));;
  let cfg := {| host := nodeIp; username := admin;
                tryKeyboard := true; readyTimeout := 10000 |} in
  emit (SshConnect c cfg);;
  attempt (ssh_connect cfg);;
  update (fun s => set_clients (c :: clients s) s);;
  emit (SetTimeout c 10000);;
  update (fun s => set_timers (c :: timers s) s).

(** [JSON.parse(message)] *)
Definition parse (message : Utf8.Buffer) : M JsVal :=
  match JSON_parse (toString message) with
  | inl e => throw e
  | inr data => ret data
  end.

(** The body of the try block of ws.on('message'). *)
Definition handshake (message : Utf8.Buffer) : M unit :=
  data <- parse message;;
  nodeName <- prop data "nodeName";;
  nodeIp <- prop data "nodeIp";;
  _ <- prop data "username";;
  nodeKind <- prop data "nodeKind";;
  if is_str nodeKind (lit "linux") then
    spawn (lit "docker")
          [ALit (lit "exec"); ALit (lit "-it"); AVal nodeName;
           ALit (lit "sh")] data
  else if is_str nodeKind (lit "sonic-vm") then
    spawn (lit "ssh")
          [ALit (lit "-o"); ALit (lit "StrictHostKeyChecking=no");
           ALit (lit "-o"); ALit (lit "UserKnownHostsFile=/dev/null");
           AConcat (lit "admin@") nodeName] data
  else connect_device nodeIp.

(** ws.on('message', async (message) => ...) *)
Definition on_message (message : Utf8.Buffer) : M unit :=
  s <- read;;
  match sshStream s with
  | Some st => emit (StreamWrite st (toString message))
  | None =>
      match dockerProcess s with
      | Some p => emit (PtyWrite p (toString message))
      | None =>
          try_catch (handshake message)
                    (fun error => emit (WsSend (error_notice error)))
      end
  end.

(** ws.on('close') and ws.on('error'): the same body. *)
Definition on_ws_down : M unit :=
  s <- read;;
  match sshClient s with
  | Some c => emit (SshEnd c)
  | None =>
      match dockerProcess s with
      | Some p => emit (PtyKill p)
      | None => ret tt
      end
  end.

(** dockerProcess.onData *)
Definition on_pty_data (data : JsString) : M unit := emit (WsSend data).

(** dockerProcess.onExit *)
Definition on_pty_exit : M unit :=
  emit (WsSend closed_notice);; emit WsClose.

(** dockerProcess.on('error') *)
Definition on_pty_error (message : JsString) : M unit :=
  emit (WsSend (error_notice message));; emit WsClose.

(** sshClient.on('keyboard-interactive'): [finish] is the callback the
    event of client [c] carries. *)
Definition on_keyboard_interactive (c : Id) (prompts : list Prompt)
  : M unit :=
  let responses := map (fun _ => admin) prompts in
  emit (SshFinish c responses).

(** [sshClient.m()] on the variable: a TypeError when it is null. *)
Definition with_sshClient (m : Id -> M unit) : M unit :=
  s <- read;;
  match sshClient s with
  | Some c => m c
  | None => throw TypeError_message
  end.

(** sshClient.on('authenticationRequired'): an ssh2 client has no method
    [authPassword], so that the call is a TypeError. *)
Definition on_authentication_required
  (authMethods : option (list JsString)) : M unit :=
  match authMethods with
  | None | Some [] =>
      with_sshClient (fun c => throw NotAFunction_message)
  | Some (_ :: _) => ret tt
  end.

(** sshClient.on('error') *)
Definition on_ssh_error (message : JsString) : M unit :=
  emit (WsSend (error_notice message)).

(** The callback of setTimeout(..., 10000); [sock] is whether
    [sshClient._sock] is set when it runs. *)
Definition on_timeout (sock : bool) : M unit :=
  s <- read;;
  match sshClient s with
  | Some c =>
      if negb sock then
        emit (WsSend timeout_notice);; emit (SshEnd c)
      else ret tt
  | None => ret tt
  end.

(** sshClient.on('ready') of the client created with timer [t]. *)
Definition on_ready (t : Id) : M unit :=
  emit (ClearTimeout t);;
  update (fun s => set_timers (remove t (timers s)) s);;
  with_sshClient (fun c =>
    emit (SshShell c {| term := xterm; shell_cols := None;
                        shell_rows := None |});;
    update (fun s => set_shellReqs (S (shellReqs s)) s)).

(** The callback [(err, stream) => ...] of sshClient.shell. *)
Definition on_shell (err : option JsString) : M unit :=
  match err with
  | Some _ => emit (WsSend shell_failed_notice)
  | None =>
      stream <- new_id;;
      update (set_sshStream (Some stream));;
      update (fun s => set_streams (stream :: streams s) s)
  end.

(** stream.on('data') *)
Definition on_stream_data (data : Utf8.Buffer) : M unit :=
  let output := toString data in
  emit (WsSend output).

(** stream.on('close') *)
Definition on_stream_close : M unit :=
  with_sshClient (fun c => emit (SshEnd c));;
  update (set_sshStream None).

(** An event runs the callback registered for it, if there is one. *)
Definition dispatch (ev : Event) : M unit :=
  s <- read;;
  match ev with
  | WsMessage message => on_message message
  | WsClosed => on_ws_down
  | WsError _ => on_ws_down
  | PtyData p data => when (mem p (ptys s)) (on_pty_data data)
  | PtyExit p _ _ => when (mem p (ptys s)) on_pty_exit
  | PtyError p message => when (mem p (ptys s)) (on_pty_error message)
  | KeyboardInteractive c prompts =>
      when (mem c (clients s)) (on_keyboard_interactive c prompts)
  | AuthenticationRequired c authMethods =>
      when (mem c (clients s)) (on_authentication_required authMethods)
  | SshError c message => when (mem c (clients s)) (on_ssh_error message)
  | SshReady c => when (mem c (clients s)) (on_ready c)
  | ShellCallback err =>
      match shellReqs s with
      | O => ret tt
      | S n => update (set_shellReqs n);; on_shell err
      end
  | StreamData st data => when (mem st (streams s)) (on_stream_data data)
  | StreamClose st => when (mem st (streams s)) on_stream_close
  | Timeout t sock =>
      when (mem t (timers s))
           (update (fun s => set_timers (remove t (timers s)) s);;
            on_timeout sock)
  end.

(** One event: the session afterwards and the effects of the callback. *)
Definition step (s : Session) (ev : Event) : Session * list Effect :=
  let '(_, s', out) := dispatch ev s in (s', out).

(** The callback of the event fails and nothing catches the failure: the
    server installs no handler for uncaught exceptions, so that the process
    ends. *)
Definition fatal (s : Session) (ev : Event) : bool :=
  match fst (fst (dispatch ev s)) with
  | inl _ => true
  | inr _ => false
  end.

(** A sequence of events, from session [s]; no event is delivered after a
    fatal one. *)
Fixpoint run (s : Session) (evs : list Event) : Session * list Effect :=
  match evs with
  | [] => (s, [])
  | ev :: rest =>
      let '(s1, o1) := step s ev in
      if fatal s ev then (s1, o1)
      else let '(s2, o2) := run s1 rest in (s2, o1 ++ o2)
  end.

End Handlers.

End Bridge.

(* ===================================================================== *)
(** ** The reference runtime, and what is observed of a run *)
(* ===================================================================== *)

Module Node.

(** The message V8 gives the TypeError of destructuring null. *)
Definition TypeError_message : JsString :=
  lit "Cannot destructure property 'nodeName' of 'data' as it is null.".

(** The message of the TypeError of calling [sshClient.authPassword]. *)
Definition NotAFunction_message : JsString :=
  lit "sshClient.authPassword is not a function".

(** [typeof v] of a value that is not a number. *)
Definition type_of (v : JsVal) : JsString :=
  match v with
  | JUndefined => lit "undefined"
  | JBool _ => lit "boolean"
  | JNum _ => lit "number"
  | JStr _ => lit "string"
  | JNull | JArr _ | JObj _ => lit "object"
  end.

Definition is_number (v : JsVal) : bool :=
  match v with JNum _ => true | _ => false end.

Definition is_text (a : Bridge.Arg) : bool :=
  match a with
  | Bridge.AVal (JStr _) | Bridge.ALit _ | Bridge.AConcat _ _ => true
  | Bridge.AVal _ => false
  end.

(** node-pty: cols and rows must be numbers, and the native fork takes
    strings as arguments. *)
Definition pty_spawn (file : JsString) (args : list Bridge.Arg)
  (opts : Bridge.PtyOptions) : Bridge.Attempt :=
  if negb (is_number (Bridge.pty_cols opts)) then
    Bridge.Throws (lit "cols must be a number (not a "
                   ++ type_of (Bridge.pty_cols opts) ++ lit ")")
  else if negb (is_number (Bridge.pty_rows opts)) then
    Bridge.Throws (lit "rows must be a number (not a "
                   ++ type_of (Bridge.pty_rows opts) ++ lit ")")
  else if forallb is_text args then Bridge.Returns
  else Bridge.Aborts.

(** ssh2: the host is [cfg.host || 'localhost'], and it must be a string. *)
Definition ssh_connect (cfg : Bridge.ConnectConfig) : Bridge.Attempt :=
  match Bridge.host cfg with
  | JStr _ => Bridge.Returns
  | v => if truthy v
         then Bridge.Throws (lit "The host must be of type string")
         else Bridge.Returns
  end.

Definition step :=
  Bridge.step Utf8.decode Json.parse TypeError_message NotAFunction_message
    pty_spawn ssh_connect.
Definition run :=
  Bridge.run Utf8.decode Json.parse TypeError_message NotAFunction_message
    pty_spawn ssh_connect.

(** A fresh connection fed the events [evs]. *)
Definition session_after (evs : list Bridge.Event) : Bridge.Session :=
  fst (run Bridge.init evs).
Definition effects_of (evs : list Bridge.Event) : list Bridge.Effect :=
  snd (run Bridge.init evs).

End Node.

Module Trace.

Import Bridge.

(** The driver's stop operation: process kill or SSH client end. *)
Definition is_stop (e : Effect) : bool :=
  match e with PtyKill _ | SshEnd _ => true | _ => false end.

Definition is_close (e : Effect) : bool :=
  match e with WsClose => true | _ => false end.

(** A driver is constructed by pty.spawn or by new Client + connect. *)
Definition is_start (e : Effect) : bool :=
  match e with PtySpawn _ _ _ _ | SshConnect _ _ => true | _ => false end.

Definition stops (out : list Effect) : nat := length (filter is_stop out).
Definition closes (out : list Effect) : nat := length (filter is_close out).
Definition starts (out : list Effect) : nat := length (filter is_start out).

(** The payloads sent to the client, in order. *)
Definition sent (out : list Effect) : list JsString :=
  flat_map (fun e => match e with WsSend d => [d] | _ => [] end) out.


(** The events whose callbacks stop a driver, and those whose callbacks
    close the client connection. *)
Definition stop_trigger (ev : Event) : bool :=
  match ev with
  | WsClosed | WsError _ | StreamClose _ | Timeout _ _ => true
  | _ => false
  end.

Definition close_trigger (ev : Event) : bool :=
  match ev with PtyExit _ _ _ | PtyError _ _ => true | _ => false end.

(** The session relays (the ACTIVE state): client messages go to a
    driver's write and are not parsed. *)
Definition relaying (s : Session) : bool :=
  match sshStream s, dockerProcess s with
  | None, None => false
  | _, _ => true
  end.




(** [data.k] of a value that is not null. *)
Definition field (data : JsVal) (k : string) : JsVal :=
  match Js.get data (lit k) with Some v => v | None => JUndefined end.

Definition nullish (data : JsVal) : bool :=
  match data with JUndefined | JNull => true | _ => false end.

(** The handshake is routed to the else branch of the kind test. *)
Definition device_kind (kind : JsVal) : bool :=
  negb (is_str kind (lit "linux")) && negb (is_str kind (lit "sonic-vm")).

(** The session after the else branch of the handshake has run. *)
Definition connected (s : Session) : Session :=
  let c := nextId s in
  set_timers (c :: timers s)
    (set_clients (c :: clients s)
       (set_sshClient (Some c) (set_nextId (S c) s))).

(** The session after the else branch of the handshake has failed in
    [connect]: the new client is in [sshClient], without a callback. *)
Definition created (s : Session) : Session :=
  let c := nextId s in set_sshClient (Some c) (set_nextId (S c) s).

(** The session after one of the two pty.spawn branches has run. *)
Definition spawned (s : Session) : Session :=
  let p := nextId s in
  set_ptys (p :: ptys s) (set_dockerProcess (Some p) (set_nextId (S p) s)).

(** What a pty.spawn branch makes of a session, by what [pty.spawn] does
    with its arguments: a pty, a diagnostic, or the end of the process. *)
Definition spawn_result
  (pty_spawn : JsString -> list Arg -> PtyOptions -> Attempt)
  (s : Session) (file : JsString) (args : list Arg) (opts : PtyOptions)
  : Session * list Effect :=
  match pty_spawn file args opts with
  | Returns => (spawned s, [PtySpawn (nextId s) file args opts])
  | Throws e => (s, [WsSend (error_notice e)])
  | Aborts => (s, [])
  end.

Definition device_config (nodeIp : JsVal) : ConnectConfig :=
  {| host := nodeIp; username := lit "admin"; tryKeyboard := true;
     readyTimeout := 10000 |}.

Definition pty_options (data : JsVal) : PtyOptions :=
  {| pty_name := lit "xterm-256color";
     pty_cols := or_else (field data "cols") (JNum 80);
     pty_rows := or_else (field data "rows") (JNum 24) |}.

Definition docker_args (nodeName : JsVal) : list Arg :=
  [ALit (lit "exec"); ALit (lit "-it"); AVal nodeName; ALit (lit "sh")].

Definition ssh_args (nodeName : JsVal) : list Arg :=
  [ALit (lit "-o"); ALit (lit "StrictHostKeyChecking=no");
   ALit (lit "-o"); ALit (lit "UserKnownHostsFile=/dev/null");
   AConcat (lit "admin@") nodeName].

End Trace.

(* ===================================================================== *)
(** ** The requirements on a session, as predicates on its runs *)
(* ===================================================================== *)

Module Sample.

Import Bridge.

(** The payload and the parsed value of a device handshake, and of a
    handshake that names no kind. *)
Definition device_payload : Utf8.Buffer :=
  text "{'nodeKind':'device','nodeIp':'10.0.0.5'}".
Definition device_data : JsVal :=
  JObj [(lit "nodeKind", JStr (lit "device"));
        (lit "nodeIp", JStr (lit "10.0.0.5"))].
Definition no_kind_payload : Utf8.Buffer := text "{'nodeName':'r1'}".

(** Two handshakes for the same container that differ in the username. *)
Definition user_payload_1 : Utf8.Buffer :=
  text "{'nodeKind':'linux','nodeName':'r1','username':'alice','cols':132}".
Definition user_data_1 : JsVal :=
  JObj [(lit "nodeKind", JStr (lit "linux")); (lit "nodeName", JStr (lit "r1"));
        (lit "username", JStr (lit "alice")); (lit "cols", JNum 132)].
Definition user_payload_2 : Utf8.Buffer :=
  text "{'nodeKind':'linux','nodeName':'r1','username':'root','cols':132}".
Definition user_data_2 : JsVal :=
  JObj [(lit "nodeKind", JStr (lit "linux")); (lit "nodeName", JStr (lit "r1"));
        (lit "username", JStr (lit "root")); (lit "cols", JNum 132)].

(** A handshake that asks for 120 columns as a text. *)
Definition text_cols_payload : Utf8.Buffer :=
  text "{'nodeKind':'linux','nodeName':'r1','cols':'120'}".
Definition text_cols_data : JsVal :=
  JObj [(lit "nodeKind", JStr (lit "linux")); (lit "nodeName", JStr (lit "r1"));
        (lit "cols", JStr (lit "120"))].

(** Handshakes a client sends as the first message of a connection. *)
Definition hs_linux : Event :=
  WsMessage (text "{'nodeKind':'linux','nodeName':'r1','cols':80,'rows':24}").
Definition hs_device : Event := WsMessage device_payload.
Definition hs_device_no_address : Event :=
  WsMessage (text "{'nodeKind':'device','nodeName':'r1'}").
Definition hs_device_sized : Event :=
  WsMessage (text "{'nodeKind':'device','nodeIp':'10.0.0.5','cols':120,'rows':40}").
Definition hs_no_kind : Event := WsMessage no_kind_payload.

(** A container session and a device session that have reached the relay. *)
Definition container_session : Session := Node.session_after [hs_linux].
Definition device_session : Session :=
  Node.session_after [hs_device; SshReady 0; ShellCallback None].

End Sample.

Module Required.

Import Bridge Trace.



(** Teardown idempotence over a whole connection. *)
Definition teardown_once (evs : list Event) : Prop :=
  stops (Node.effects_of evs) <= 1 /\ closes (Node.effects_of evs) <= 1.

(** A handshake is rejected: one diagnostic, no driver, and the session
    still waits for a handshake. *)
Definition rejected (handshake : Event) : Prop :=
  exists d, Node.effects_of [handshake] = [WsSend d]
            /\ Node.session_after [handshake] = init.

End Required.

(* ===================================================================== *)
(** ** String methods used by the HTTP routes *)
(* ===================================================================== *)

Module Str.

(** [s.startsWith(p)] *)
Fixpoint starts_with (p s : JsString) : bool :=
  match p, s with
  | [], _ => true
  | x :: p', y :: s' => N.eqb x y && starts_with p' s'
  | _ :: _, [] => false
  end.

(** [s.endsWith(p)] *)
Definition ends_with (p s : JsString) : bool := starts_with (rev p) (rev s).

(** [s.split(c)] for a one-character separator: never empty, and [['']]
    for the empty string. *)
Fixpoint split (sep : N) (s : JsString) : list JsString :=
  match s with
  | [] => [[]]
  | c :: r =>
      if N.eqb c sep then [] :: split sep r
      else match split sep r with
           | x :: xs => (c :: x) :: xs
           | [] => [[c]]
           end
  end.

(** [parts.join(sep)] of an array of strings. *)
Fixpoint join (sep : JsString) (parts : list JsString) : JsString :=
  match parts with
  | [] => []
  | x :: rest =>
      match rest with
      | [] => x
      | _ :: _ => x ++ sep ++ join sep rest
      end
  end.

(** [parts.pop()], for its effect on the array: nothing on an empty one. *)
Definition pop (parts : list JsString) : list JsString := removelast parts.

Definition slash : N := 47.

(** [s.replace(pat, '')] for a string [pat]: the first occurrence of [pat]
    is removed. *)
Fixpoint remove_first (pat s : JsString) : JsString :=
  if starts_with pat s then skipn (length pat) s
  else match s with
       | [] => []
       | c :: r => c :: remove_first pat r
       end.

(** [s.includes(pat)] *)
Fixpoint includes (pat s : JsString) : bool :=
  starts_with pat s
  || match s with
     | [] => false
     | _ :: r => includes pat r
     end.

(** White space and line terminators: what [trim()] strips and the regular
    expression [\s] matches. *)
Definition is_space (c : N) : bool :=
  Utf8.between 9 13 c || N.eqb c 32 || N.eqb c 160 || N.eqb c 5760
  || Utf8.between 8192 8202 c || N.eqb c 8232 || N.eqb c 8233
  || N.eqb c 8239 || N.eqb c 8287 || N.eqb c 12288 || N.eqb c 65279.

Fixpoint trim_start (s : JsString) : JsString :=
  match s with
  | c :: r => if is_space c then trim_start r else s
  | [] => []
  end.

(** [s.trim()] *)
Definition trim (s : JsString) : JsString :=
  rev (trim_start (rev (trim_start s))).

(** [parts.pop()], for its value, of an array that is not empty. *)
Definition last_part (parts : list JsString) : JsString := last parts [].

End Str.

(* ===================================================================== *)
(** ** [resolvePath] *)
(* ===================================================================== *)

Module Path.

Import Str.

(** The body of the loop [for (const part of parts)]. *)
Definition visit (baseParts : list JsString) (part : JsString)
  : list JsString :=
  if str_eqb part (lit "..") then pop baseParts
  else if negb (str_eqb part (lit ".")) then baseParts ++ [part]
  else baseParts.

(** [baseParts] when the loop is over. *)
Definition segments (relativePath basePath : JsString) : list JsString :=
  fold_left visit (split slash relativePath) (split slash basePath).

(** [resolvePath(relativePath, basePath = '/opt')]; [None] is an argument
    left out. *)
Definition resolvePath (relativePath : JsString) (basePath : option JsString)
  : JsString :=
  let basePath := match basePath with Some b => b | None => lit "/opt" end in
  if starts_with (lit "/") relativePath then relativePath
  else join (lit "/") (segments relativePath basePath).

(** A path segment that the loop pushes. *)
Definition plain (part : JsString) : bool :=
  negb (str_eqb part (lit "..")) && negb (str_eqb part (lit ".")).

Definition not_up (part : JsString) : bool := negb (str_eqb part (lit "..")).

(** [n] times ['../']. *)
Fixpoint ups (n : nat) : JsString :=
  match n with O => [] | S k => lit "../" ++ ups k end.

(** The segments other than ['.']. *)
Definition kept (parts : list JsString) : list JsString :=
  filter (fun part => negb (str_eqb part (lit "."))) parts.

(** Each segment after a ['/']. *)
Definition below (parts : list JsString) : JsString :=
  flat_map (fun part => lit "/" ++ part) parts.

End Path.

(* ===================================================================== *)
(** ** [GET /api/containerlab/inspect] *)
(* ===================================================================== *)

Module Inspect.

Import Str Path.

(** The properties every object inherits from Object.prototype:
    [labsByFile[k]] is truthy for these keys although nothing was stored. *)
Definition inherited (k : JsString) : bool :=
  existsb (fun name => str_eqb k (lit name))
    ["constructor"; "hasOwnProperty"; "isPrototypeOf"; "propertyIsEnumerable";
     "toLocaleString"; "toString"; "valueOf"; "__proto__";
     "__defineGetter__"; "__defineSetter__"; "__lookupGetter__";
     "__lookupSetter__"]%string.

(** One element of [topologies].  The same object is the value of
    [labsByFile[labPath]]: the array and the map are one list of objects,
    in the order of their creation, looked up by [labPath]. *)
Record Lab := {
  labPath : JsString;
  lab_name : JsVal;
  lab_owner : JsVal;
  nodes : list JsVal
}.

(** [labsByFile[k]] is an object of ours. *)
Definition has (k : JsString) (labs : list Lab) : bool :=
  existsb (fun l => str_eqb k (labPath l)) labs.

(** [labsByFile[k].nodes.push(node)] *)
Fixpoint push_node (k : JsString) (node : JsVal) (labs : list Lab)
  : list Lab :=
  match labs with
  | [] => []
  | l :: rest =>
      if str_eqb k (labPath l)
      then {| labPath := labPath l; lab_name := lab_name l;
              lab_owner := lab_owner l; nodes := nodes l ++ [node] |} :: rest
      else l :: push_node k node rest
  end.

(** Why the try block is left. *)
Inductive Failure :=
| Syntax (message : JsString)       (* JSON.parse throws *)
| NoContainers (data : JsVal)       (* data.containers.forEach cannot be called *)
| NotAnObject (container : JsVal)   (* container.labPath of null *)
| BadLabPath (value : JsVal)        (* relativePath.startsWith cannot be called *)
| Inherited (k : JsString).         (* labsByFile[k].nodes is undefined *)

(** [{ ...container, labPath: fullLabPath }] *)
Definition with_labPath (fields : list (JsString * JsVal)) (full : JsString)
  : JsVal :=
  JObj (Json.set (lit "labPath") (JStr full) fields).

(** The callback of [data.containers.forEach]. *)
Definition visit (labs : list Lab) (container : JsVal) : Failure + list Lab :=
  match container with
  | JUndefined | JNull => inl (NotAnObject container)
  | JObj fields =>
      match lookup (lit "labPath") fields with
      | JStr relative =>
          let fullLabPath := resolvePath relative None in
          let node := with_labPath fields fullLabPath in
          if has fullLabPath labs then inr (push_node fullLabPath node labs)
          else if inherited fullLabPath then inl (Inherited fullLabPath)
          else inr (labs ++ [{| labPath := fullLabPath;
                                lab_name := lookup (lit "lab_name") fields;
                                lab_owner := lookup (lit "owner") fields;
                                nodes := [node] |}])
      | other => inl (BadLabPath other)
      end
  | _ => inl (BadLabPath JUndefined)
  end.

(** [forEach], left at the first exception. *)
Fixpoint each (labs : list Lab) (containers : list JsVal)
  : Failure + list Lab :=
  match containers with
  | [] => inr labs
  | container :: rest =>
      match visit labs container with
      | inl failure => inl failure
      | inr labs' => each labs' rest
      end
  end.

Definition lab_value (l : Lab) : JsVal :=
  JObj [(lit "labPath", JStr (labPath l)); (lit "lab_name", lab_name l);
        (lit "lab_owner", lab_owner l); (lit "nodes", JArr (nodes l))].

(** [res.status(status).json(body)]; [res.json] is status 200. *)
Inductive Response := Respond (status : Z) (body : JsVal).

Section Route.

(** [JSON.parse], and the message of the error thrown for a failure. *)
Variable JSON_parse : JsString -> JsString + JsVal.
Variable message_of : Failure -> JsString.

(** The try block: the topologies, or the failure that leaves it. *)
Definition topologies (stdout : JsString) : Failure + list Lab :=
  match JSON_parse stdout with
  | inl message => inl (Syntax message)
  | inr data =>
      match data with
      | JObj fields =>
          match lookup (lit "containers") fields with
          | JArr containers => each [] containers
          | _ => inl (NoContainers data)
          end
      | _ => inl (NoContainers data)
      end
  end.

(** The callback of [exec('clab inspect --all --format json', ...)]:
    [inl message] is a non-null [error], [inr stdout] the output. *)
Definition inspect (result : JsString + JsString) : Response :=
  match result with
  | inl message => Respond 500 (JObj [(lit "error", JStr message)])
  | inr stdout =>
      match topologies stdout with
      | inr labs => Respond 200 (JArr (map lab_value labs))
      | inl failure =>
          Respond 500
            (JObj [(lit "error", JStr (lit "Failed to parse JSON output"));
                   (lit "details", JStr (message_of failure));
                   (lit "rawOutput", JStr stdout)])
      end
  end.

End Route.

(** A container the callback accepts: an object whose labPath is a string
    that does not resolve to an inherited property name. *)
Definition path_of (container : JsVal) : option JsString :=
  match container with
  | JObj fields =>
      match lookup (lit "labPath") fields with
      | JStr relative =>
          let full := resolvePath relative None in
          if inherited full then None else Some full
      | _ => None
      end
  | _ => None
  end.

Definition accepted (container : JsVal) : bool :=
  match path_of container with Some _ => true | None => false end.

(** The node pushed for a container. *)
Definition node_of (container : JsVal) : JsVal :=
  match container, path_of container with
  | JObj fields, Some full => with_labPath fields full
  | _, _ => JUndefined
  end.

Definition at_path (k : JsString) (container : JsVal) : bool :=
  match path_of container with
  | Some full => str_eqb full k
  | None => false
  end.

(** The paths of the containers, each at its first occurrence. *)
Definition first_paths (containers : list JsVal) : list JsString :=
  fold_left (fun seen c =>
               match path_of c with
               | Some full => if existsb (str_eqb full) seen then seen
                              else seen ++ [full]
               | None => seen
               end) containers [].

(** No topology is stored under an inherited property name. *)
Definition clean (labs : list Lab) : bool :=
  forallb (fun l => negb (inherited (labPath l))) labs.

(** [container.lab_name] and [container.owner]. *)
Definition name_of (c : JsVal) : JsVal :=
  match c with
  | JObj fields => lookup (lit "lab_name") fields
  | _ => JUndefined
  end.

Definition owner_of (c : JsVal) : JsVal :=
  match c with
  | JObj fields => lookup (lit "owner") fields
  | _ => JUndefined
  end.

(** The topology created for the first container of a path. *)
Definition new_lab (c : JsVal) (full : JsString) : Lab :=
  {| labPath := full; lab_name := name_of c; lab_owner := owner_of c;
     nodes := [node_of c] |}.

(** What the callback does for an accepted container. *)
Definition add (c : JsVal) (full : JsString) (labs : list Lab) : list Lab :=
  if has full labs then push_node full (node_of c) labs
  else labs ++ [new_lab c full].

(** The topology of path [k]: named after the first container at [k], with
    the containers at [k] as its nodes, in their order. *)
Definition lab_for (cs : list JsVal) (k : JsString) : Lab :=
  {| labPath := k;
     lab_name := match find (at_path k) cs with
                 | Some c => name_of c
                 | None => JUndefined
                 end;
     lab_owner := match find (at_path k) cs with
                  | Some c => owner_of c
                  | None => JUndefined
                  end;
     nodes := map node_of (filter (at_path k) cs) |}.

(** An output of [clab inspect] with three containers in two labs, its
    containers, and an output with a container that has no labPath. *)
Definition sample_stdout : JsString :=
  quoted "{'containers':[{'name':'r1','labPath':'lab1/t.yaml','lab_name':'one','owner':'alice'},{'name':'r2','labPath':'/srv/lab2/t.yaml','lab_name':'two','owner':'bob'},{'name':'r3','labPath':'./lab1/t.yaml','lab_name':'uno','owner':'carol'}]}".

Definition sample_containers : list JsVal :=
  [JObj [(lit "name", JStr (lit "r1")); (lit "labPath", JStr (lit "lab1/t.yaml"));
         (lit "lab_name", JStr (lit "one")); (lit "owner", JStr (lit "alice"))];
   JObj [(lit "name", JStr (lit "r2"));
         (lit "labPath", JStr (lit "/srv/lab2/t.yaml"));
         (lit "lab_name", JStr (lit "two")); (lit "owner", JStr (lit "bob"))];
   JObj [(lit "name", JStr (lit "r3"));
         (lit "labPath", JStr (lit "./lab1/t.yaml"));
         (lit "lab_name", JStr (lit "uno")); (lit "owner", JStr (lit "carol"))]].

Definition broken_stdout : JsString :=
  quoted "{'containers':[{'name':'r1','labPath':'lab1/t.yaml'},{'name':'r2'}]}".

Definition broken_containers : list JsVal :=
  [JObj [(lit "name", JStr (lit "r1")); (lit "labPath", JStr (lit "lab1/t.yaml"))];
   JObj [(lit "name", JStr (lit "r2"))]].

(** The runtime's text for a failure, for concrete runs. *)
Definition sample_message (f : Failure) : JsString :=
  match f with
  | Syntax message => message
  | _ => lit "TypeError"
  end.

End Inspect.

(* ===================================================================== *)
(** ** The HTTP routes that run containerlab over SSH *)
(* ===================================================================== *)

Module Http.

Import Str Path.

(** The argument of [ssh.connect]. *)
Record Login := {
  host : JsVal;
  username : JsVal;
  password : JsString;
  tryKeyboard : bool;
  readyTimeout : Z
}.

(** What a route does to the response, to the SSH connection and to the
    uploaded file. *)
Inductive Effect :=
| Respond (status : Z) (body : JsVal)    (* res.status(s).json(body), res.json(body) *)
| SetHeader (name value : JsString)
| Write (chunk : JsString)
| Log (message : JsString)               (* the log helper of the clone route *)
| End (body : option JsVal)              (* res.end(), res.end(JSON.stringify(body)) *)
| Connect (login : Login)
| Exec (command : JsString) (cwd : option JsString)
| PutFile (localPath remotePath : JsString)
| Unlink (path : JsString)
| Dispose.

(** [req.file], as multer leaves it. *)
Record File := { originalname : JsString; path : JsString }.

(** The result of [ssh.execCommand]. *)
Record ExecResult := { code : option Z; stdout : JsString; stderr : JsString }.

(** A run of a remote command: the chunks given to onStdout ([false]) and
    onStderr ([true]) in their order, then the result or the message of the
    error it rejects with. *)
Record Outcome := {
  chunks : list (bool * Utf8.Buffer);
  result : JsString + ExecResult
}.

(** The remote side: [Some message] is a rejection.  Every call settles:
    a promise that stays pending leaves the route waiting and is not a run
    of this model. *)
Record World := {
  connect : Login -> option JsString;
  exec : JsString -> Outcome;
  putFile : JsString -> JsString -> option JsString
}.

(** The uploaded file is on disk; the response has begun. *)
Record State := { present : bool; headersSent : bool }.

Definition R (A : Type) : Type :=
  State -> (JsString + A) * State * list Effect.

Definition ret {A} (a : A) : R A := fun s => (inr a, s, []).

Definition bind {A B} (m : R A) (k : A -> R B) : R B :=
  fun s =>
    match m s with
    | (inl e, s1, o1) => (inl e, s1, o1)
    | (inr a, s1, o1) => let '(r, s2, o2) := k a s1 in (r, s2, o1 ++ o2)
    end.

Definition throw {A} (e : JsString) : R A := fun s => (inl e, s, []).

(** [try { m } catch (error) { h error.message }] *)
Definition try_catch {A} (m : R A) (h : JsString -> R A) : R A :=
  fun s =>
    match m s with
    | (inl e, s1, o1) => let '(r, s2, o2) := h e s1 in (r, s2, o1 ++ o2)
    | (inr a, s1, o1) => (inr a, s1, o1)
    end.

(** [try { m } finally { f }] *)
Definition finally {A} (m : R A) (f : R unit) : R A :=
  fun s =>
    let '(r, s1, o1) := m s in
    let '(r', s2, o2) := f s1 in
    (match r' with inl e => inl e | inr _ => r end, s2, o1 ++ o2).

Definition emit (e : Effect) : R unit := fun s => (inr tt, s, [e]).

(** An effect on the response that sends its head. *)
Definition send (e : Effect) : R unit :=
  fun s => (inr tt, {| present := present s; headersSent := true |}, [e]).

Definition read : R State := fun s => (inr s, s, []).

Declare Scope route_scope.
Delimit Scope route_scope with route.
Notation "x <- m ;; k" := (bind m (fun x => k))
  (at level 61, m at next level, right associativity) : route_scope.
Notation "m ;; k" := (bind m (fun _ => k))
  (at level 61, right associativity) : route_scope.
Local Open Scope route_scope.

Definition nl : JsString := [10%N].

(** [const sshConfig], spread into most logins and then overridden. *)
Definition login (serverIp user : JsVal) (timeout : Z) : Login :=
  {| host := serverIp; username := user; password := lit "ul678clab";
     tryKeyboard := true; readyTimeout := timeout |}.

Definition topologies_dir : JsString :=
  lit "/home/clab_nfs_share/containerlab_topologies/".

Definition event_stream_headers : R unit :=
  emit (SetHeader (lit "Content-Type") (lit "text/event-stream"));;
  emit (SetHeader (lit "Cache-Control") (lit "no-cache"));;
  emit (SetHeader (lit "Connection") (lit "keep-alive")).

Section Routes.

(** The runtime: [Buffer.prototype.toString], ToString of a value that is
    not a string, the message of a TypeError, and the message of the error
    of unlinking a missing file. *)
Variable toString : Utf8.Buffer -> JsString.
Variable ToString : JsVal -> JsString.
Variable TypeError_message : JsString.
Variable ENOENT : JsString -> JsString.

Variable world : World.

(** [`${v}`] *)
Definition text_of (v : JsVal) : JsString :=
  match v with
  | JStr s => s
  | _ => ToString v
  end.

(** [body.k] of the destructuring of [req.body]. *)
Definition prop (body : JsVal) (k : string) : R JsVal :=
  match Js.get body (lit k) with
  | Some v => ret v
  | None => throw TypeError_message
  end.

(** [await ssh.connect(login)] *)
Definition ssh_connect (l : Login) : R unit :=
  emit (Connect l);;
  match connect world l with
  | Some e => throw e
  | None => ret tt
  end.

Fixpoint deliver (on_chunk : bool -> Utf8.Buffer -> R unit)
  (cs : list (bool * Utf8.Buffer)) : R unit :=
  match cs with
  | [] => ret tt
  | (err, chunk) :: rest => on_chunk err chunk;; deliver on_chunk rest
  end.

(** [await ssh.execCommand(command, { cwd, onStdout, onStderr })] *)
Definition ssh_exec (command : JsString) (cwd : option JsString)
  (on_chunk : bool -> Utf8.Buffer -> R unit) : R ExecResult :=
  emit (Exec command cwd);;
  deliver on_chunk (chunks (exec world command));;
  match result (exec world command) with
  | inl e => throw e
  | inr r => ret r
  end.

(** No onStdout and no onStderr. *)
Definition silent (err : bool) (chunk : Utf8.Buffer) : R unit := ret tt.

(** The onStdout and onStderr of the four containerlab routes. *)
Definition echo (err : bool) (chunk : Utf8.Buffer) : R unit :=
  send (Write ((if err then lit "stderr: " else lit "stdout: ")
               ++ toString chunk ++ nl)).

(** [await ssh.putFile(localPath, remotePath)] *)
Definition ssh_putFile (localPath remotePath : JsString) : R unit :=
  emit (PutFile localPath remotePath);;
  match putFile world localPath remotePath with
  | Some e => throw e
  | None => ret tt
  end.

(** [fs.unlinkSync(req.file.path)] *)
Definition unlinkSync (p : JsString) : R unit :=
  s <- read;;
  if present s
  then fun s => (inr tt, {| present := false; headersSent := headersSent s |},
                 [Unlink p])
  else throw (ENOENT p).

(** [if (fs.existsSync(req.file.path)) fs.unlinkSync(req.file.path)] *)
Definition unlink_if_present (p : JsString) : R unit :=
  s <- read;;
  if present s then unlinkSync p else ret tt.

(** The first inner try of the containerlab routes: [true] when the
    connection is made; on a rejection the response is ended and the route
    returns. *)
Definition connect_or_end (l : Login) : R bool :=
  try_catch
    (send (Write (lit "Connecting to server..." ++ nl));;
     ssh_connect l;;
     send (Write (lit "Connected successfully" ++ nl));;
     ret true)
    (fun e =>
       send (Write (lit "Failed to connect to server: " ++ e ++ nl));;
       send (End None);;
       ret false).

(** The end of the second inner try: the answer for an exit code. *)
Definition report (r : ExecResult) (done failed : string)
  (extra : list (JsString * JsVal)) : R unit :=
  match code r with
  | Some 0%Z =>
      send (Write (lit "Operation completed successfully" ++ nl));;
      send (End (Some (JObj ([(lit "success", JBool true);
                              (lit "message", JStr (lit done))] ++ extra))))
  | _ =>
      send (Write (lit "Operation failed: " ++ stderr r ++ nl));;
      send (End (Some (JObj [(lit "success", JBool false);
                             (lit "message", JStr (lit failed));
                             (lit "error", JStr (stderr r))])))
  end.

(** The catch of the second inner try. *)
Definition report_error (prefix : string) (e : JsString) : R unit :=
  send (Write (lit "Operation failed: " ++ e ++ nl));;
  send (End (Some (JObj [(lit "error", JStr (lit prefix ++ e))]))).

(** The catch of the outer try. *)
Definition server_error (e : JsString) : R unit :=
  send (Write (lit "Server error: " ++ e ++ nl));;
  send (End (Some (JObj [(lit "error", JStr (lit "Server error: " ++ e))]))).

(** [resolvePath(topoFile)]: a TypeError unless [topoFile] is a string. *)
Definition resolve (topoFile : JsVal) : R JsString :=
  match topoFile with
  | JStr relative => ret (resolvePath relative None)
  | _ => throw TypeError_message
  end.

(** The routes destroy and save, which differ in their texts only:
    [app.post('/api/containerlab/destroy')] is
    [on_topology "..." "clab destroy --topo " ...]. *)
Definition on_topology (required command action done failed prefix : string)
  (body : JsVal) : R unit :=
  try_catch
    (serverIp <- prop body "serverIp";;
     topoFile <- prop body "topoFile";;
     user <- prop body "username";;
     if negb (truthy serverIp) || negb (truthy topoFile) || negb (truthy user)
     then send (Respond 400 (JObj [(lit "error", JStr (lit required))]))
     else
       event_stream_headers;;
       connected <- connect_or_end (login serverIp user 5000);;
       if connected then
         finally
           (try_catch
              (send (Write (lit action ++ nl));;
               absoluteTopoPath <- resolve topoFile;;
               r <- ssh_exec (lit command ++ absoluteTopoPath)
                      (Some (lit "/")) echo;;
               report r done failed [])
              (report_error prefix))
           (emit Dispose)
       else ret tt)
    server_error.

(** app.post('/api/containerlab/destroy') *)
Definition destroy : JsVal -> R unit :=
  on_topology "Server IP, topology file path, and username are required"
    "clab destroy --topo " "Executing containerlab destroy command..."
    "Topology destroyed successfully" "Destroy operation failed"
    "Destroy operation failed: ".

(** app.post('/api/containerlab/save') *)
Definition save : JsVal -> R unit :=
  on_topology "Server IP and topology file path are required"
    "clab save -t " "Executing containerlab save command..."
    "Topology saved successfully" "Save operation failed"
    "Save operation failed: ".

(** The routes deploy and reconfigure, which differ in their texts and in
    the flag of the command. *)
Definition on_upload (uploading action flag done failed prefix : string)
  (file : option File) (body : JsVal) : R unit :=
  try_catch
    (match file with
     | None =>
         send (Respond 400 (JObj [(lit "error", JStr (lit "No file uploaded"))]))
     | Some f =>
         serverIp <- prop body "serverIp";;
         user <- prop body "username";;
         if negb (truthy serverIp) then
           send (Respond 400
                   (JObj [(lit "error", JStr (lit "Server IP is required"))]))
         else if negb (truthy user) then
           send (Respond 400
                   (JObj [(lit "error", JStr (lit "Username is required"))]))
         else
           event_stream_headers;;
           connected <- connect_or_end (login serverIp user 5000);;
           if connected then
             let topologyName := remove_first (lit ".yaml") (originalname f) in
             let userDir :=
               topologies_dir ++ text_of user ++ lit "/" ++ topologyName in
             let remoteFilePath := userDir ++ lit "/" ++ originalname f in
             finally
               (try_catch
                  (send (Write (lit "Ensuring containerlab_topologies directory exists at "
                                ++ userDir ++ lit "..." ++ nl));;
                   _ <- ssh_exec (lit "mkdir -p " ++ userDir)
                          (Some (lit "/")) silent;;
                   send (Write (lit uploading ++ remoteFilePath
                                ++ lit "..." ++ nl));;
                   ssh_putFile (path f) remoteFilePath;;
                   send (Write (lit "File uploaded successfully" ++ nl));;
                   send (Write (lit action ++ nl));;
                   r <- ssh_exec (lit "clab deploy --topo " ++ remoteFilePath
                                  ++ lit flag)
                          (Some (lit "/")) echo;;
                   unlinkSync (path f);;
                   report r done failed
                     [(lit "filePath", JStr remoteFilePath)])
                  (fun e =>
                     unlink_if_present (path f);;
                     report_error prefix e))
               (emit Dispose)
           else ret tt
     end)
    (fun e =>
       match file with
       | Some f => unlink_if_present (path f)
       | None => ret tt
       end;;
       server_error e).

(** app.post('/api/containerlab/deploy', upload.single('file')) *)
Definition deploy : option File -> JsVal -> R unit :=
  on_upload "Uploading file to " "Executing containerlab deploy command..."
    "" "Topology deployed successfully" "Deployment failed"
    "Deployment failed: ".

(** app.post('/api/containerlab/reconfigure', upload.single('file')) *)
Definition reconfigure : option File -> JsVal -> R unit :=
  on_upload "Uploading updated file to "
    "Executing containerlab reconfigure command..."
    " --reconfigure" "Topology reconfigured successfully"
    "Reconfigure operation failed" "Reconfigure operation failed: ".

(** *** app.post('/api/git/clone') *)

(** The log helper: [res.write] of the message after the time of day. *)
Definition log (message : JsString) : R unit := send (Log message).

(** onStdout and onStderr of the git clone command. *)
Definition clone_chunk (err : bool) (chunk : Utf8.Buffer) : R unit :=
  let text := trim (toString chunk) in
  if err then
    match text with
    | [] => ret tt
    | _ :: _ =>
        if negb (includes (lit "Cloning into") text)
        then log (lit "WARNING: " ++ text)
        else log text
    end
  else log text.

(** [gitRepoUrl.split('/').pop().replace('.git', '')]: a TypeError unless
    [gitRepoUrl] is a string. *)
Definition repo_name (gitRepoUrl : JsVal) : R JsString :=
  match gitRepoUrl with
  | JStr url => ret (remove_first (lit ".git") (last_part (split slash url)))
  | _ => throw TypeError_message
  end.

Definition dq : JsString := [34%N].

Definition clone_server : JsVal := JStr (lit "10.83.12.237").

(** The command that tests for the target directory, and the one that
    removes it: the target between double quotes. *)
Definition check_dir (targetDir : JsString) : JsString :=
  lit "[ -d " ++ dq ++ targetDir ++ dq ++ lit " ] && echo "
  ++ dq ++ lit "exists" ++ dq ++ lit " || echo "
  ++ dq ++ lit "not exists" ++ dq.

Definition rm_rf (targetDir : JsString) : JsString :=
  lit "rm -rf " ++ dq ++ targetDir ++ dq.

Definition clone (body : JsVal) : R unit :=
  try_catch
    (gitRepoUrl <- prop body "gitRepoUrl";;
     user <- prop body "username";;
     if negb (truthy gitRepoUrl) || negb (truthy user) then
       send (Respond 400
               (JObj [(lit "success", JBool false);
                      (lit "error",
                       JStr (lit "Git repository URL and username are required"))]))
     else
       emit (SetHeader (lit "Content-Type") (lit "text/plain"));;
       emit (SetHeader (lit "Transfer-Encoding") (lit "chunked"));;
       log (lit "Starting git clone operation for " ++ text_of gitRepoUrl
            ++ lit "...");;
       log (lit "Target server: " ++ text_of clone_server);;
       log (lit "Username: " ++ text_of user);;
       repoName <- repo_name gitRepoUrl;;
       let targetDir :=
         topologies_dir ++ text_of user ++ lit "/" ++ repoName in
       log (lit "Repository will be cloned to: " ++ targetDir);;
       finally
         (try_catch
            (log (lit "Connecting to server...");;
             ssh_connect (login clone_server user 10000);;
             log (lit "Connected successfully");;
             log (lit "Checking if repository directory already exists...");;
             checkDirResult <-
               ssh_exec (check_dir targetDir) (Some (lit "/")) silent;;
             (if str_eqb (trim (stdout checkDirResult)) (lit "exists") then
                log (lit "Repository directory already exists. Removing existing directory...");;
                _ <- ssh_exec (rm_rf targetDir) (Some (lit "/")) silent;;
                log (lit "Existing directory removed")
              else ret tt);;
             let parentDir := topologies_dir ++ text_of user in
             _ <- ssh_exec (lit "mkdir -p " ++ dq ++ parentDir ++ dq)
                    (Some (lit "/")) silent;;
             log (lit "Cloning repository " ++ text_of gitRepoUrl ++ lit " to "
                  ++ targetDir ++ lit "...");;
             cloneResult <-
               ssh_exec (lit "git clone " ++ text_of gitRepoUrl ++ lit " "
                         ++ dq ++ targetDir ++ dq)
                 (Some (lit "/")) clone_chunk;;
             match code cloneResult with
             | Some 0%Z =>
                 log (lit "Repository cloned successfully");;
                 log (lit "Operation completed successfully");;
                 send (End None)
             | _ => throw (lit "Git clone failed: " ++ stderr cloneResult)
             end)
            (fun e => log (lit "ERROR: " ++ e);; send (End None)))
         (emit Dispose))
    (fun e =>
       s <- read;;
       if headersSent s then
         send (Write (nl ++ lit "ERROR: " ++ e ++ nl));;
         send (End None)
       else
         send (Respond 500 (JObj [(lit "success", JBool false);
                                  (lit "error", JStr e)]))).

End Routes.

(** What the onStdout and onStderr of the containerlab routes write. *)
Definition echoed (toString : Utf8.Buffer -> JsString)
  (cs : list (bool * Utf8.Buffer)) : list Effect :=
  map (fun c : bool * Utf8.Buffer =>
         Write ((if fst c then lit "stderr: " else lit "stdout: ")
                ++ toString (snd c) ++ nl)) cs.

(** A login that the remote side accepts. *)
Definition accepted_login (world : World) (e : Effect) : bool :=
  match e with
  | Connect l => match connect world l with None => true | Some _ => false end
  | _ => false
  end.

(** The directory of a topology of a user, the uploaded file in it, and
    the directory of a user. *)
Definition lab_dir (ToString : JsVal -> JsString) (user : JsVal)
  (base : JsString) : JsString :=
  topologies_dir ++ text_of ToString user ++ lit "/" ++ base.

Definition remote_file (ToString : JsVal -> JsString) (user : JsVal)
  (base : JsString) : JsString :=
  lab_dir ToString user base ++ lit "/" ++ base ++ lit ".yaml".

Definition user_dir (ToString : JsVal -> JsString) (user : JsVal)
  : JsString :=
  topologies_dir ++ text_of ToString user ++ lit "/".

(** A request is answered from the state in which the uploaded file, if
    any, is on disk and nothing has been sent. *)
Definition fresh : State := {| present := true; headersSent := false |}.

Definition effects {A} (r : (JsString + A) * State * list Effect)
  : list Effect := snd r.

Definition final {A} (r : (JsString + A) * State * list Effect) : State :=
  snd (fst r).

Definition is_end (e : Effect) : bool :=
  match e with End _ | Respond _ _ => true | _ => false end.
Definition is_dispose (e : Effect) : bool :=
  match e with Dispose => true | _ => false end.
Definition is_connect (e : Effect) : bool :=
  match e with Connect _ => true | _ => false end.
Definition is_exec (e : Effect) : bool :=
  match e with Exec _ _ => true | _ => false end.
Definition is_unlink (e : Effect) : bool :=
  match e with Unlink _ => true | _ => false end.

Definition count (f : Effect -> bool) (out : list Effect) : nat :=
  length (filter f out).

(** The commands run on the remote side, in order. *)
Definition commands (out : list Effect) : list JsString :=
  flat_map (fun e => match e with Exec c _ => [c] | _ => [] end) out.

(** Remote sides and requests for concrete runs. *)
Definition done_ok : Outcome :=
  {| chunks := [];
     result := inr {| code := Some 0%Z; stdout := lit "exists" ++ nl;
                      stderr := [] |} |}.

Definition calm : World :=
  {| connect := fun _ => None; exec := fun _ => done_ok;
     putFile := fun _ _ => None |}.

Definition unreachable : World :=
  {| connect := fun _ => Some (lit "connect ETIMEDOUT");
     exec := fun _ => done_ok; putFile := fun _ _ => None |}.

Definition sample_ToString (v : JsVal) : JsString := lit "[object Object]".
Definition sample_TypeError : JsString :=
  lit "relativePath.startsWith is not a function".
Definition sample_ENOENT (p : JsString) : JsString :=
  lit "ENOENT: no such file or directory, unlink " ++ p.

Definition topology_body : JsVal :=
  JObj [(lit "serverIp", JStr (lit "10.0.0.1"));
        (lit "topoFile", JStr (lit "labs/demo/t.yaml"));
        (lit "username", JStr (lit "alice"))].

Definition numeric_body : JsVal :=
  JObj [(lit "serverIp", JStr (lit "10.0.0.1")); (lit "topoFile", JNum 5);
        (lit "username", JStr (lit "alice"))].

Definition upload_body : JsVal :=
  JObj [(lit "serverIp", JStr (lit "10.0.0.1"));
        (lit "username", JStr (lit "alice"))].

Definition upload_file : File :=
  {| originalname := lit "demo.yaml"; path := lit "uploads/demo.yaml" |}.

Definition clone_body : JsVal :=
  JObj [(lit "gitRepoUrl", JStr (lit "https://git.example.com/labs/"));
        (lit "username", JStr (lit "alice"))].

End Http.

(* ===================================================================== *)
(** ** The file routes, the copy route and the free ports
    ([app.get('/api/files/list')] to [app.post('/api/files/rename')],
    [app.get('/api/ports/free')]) *)
(* ===================================================================== *)

Module Files.

Import Str Path Http.
Local Open Scope route_scope.

(** *** Regular expressions *)

(** A pattern, as the backtracking matcher runs it: the rests of the input
    after each match at its start, in the order in which they are tried. *)
Definition Matcher : Type := JsString -> list JsString.

(** A character class. *)
Definition class (p : N -> bool) : Matcher :=
  fun s =>
    match s with
    | c :: r => if p c then [r] else []
    | [] => []
    end.

Definition cat (a b : Matcher) : Matcher := fun s => flat_map b (a s).

(** [a{n}] *)
Fixpoint times (n : nat) (a : Matcher) : Matcher :=
  match n with
  | O => fun s => [s]
  | S k => cat a (times k a)
  end.

(** [a{0,n}], greedy. *)
Fixpoint upto (n : nat) (a : Matcher) : Matcher :=
  match n with
  | O => fun s => [s]
  | S k => fun s => cat a (upto k a) s ++ [s]
  end.

(** [a{lo,hi}] *)
Definition range (lo hi : nat) (a : Matcher) : Matcher :=
  cat (times lo a) (upto (hi - lo) a).

(** [/^re$/.test(s)] *)
Definition test (re : Matcher) (s : JsString) : bool :=
  existsb (fun rest => match rest with [] => true | _ :: _ => false end)
    (re s).

(** [[0-9]] *)
Definition digit (c : N) : bool := Utf8.between 48 57 c.

Definition dot : N := 46.

(** [(?:[0-9]{1,3}\.){3}[0-9]{1,3}] *)
Definition ipv4 : Matcher :=
  cat (times 3 (cat (range 1 3 (class digit)) (class (N.eqb dot))))
      (range 1 3 (class digit)).

(** [s.split(/\s+/)]: [run] is set after a white space character. *)
Fixpoint split_spaces (run : bool) (s : JsString) : list JsString :=
  match s with
  | [] => [[]]
  | c :: r =>
      if is_space c then
        if run then split_spaces true r else [] :: split_spaces true r
      else match split_spaces false r with
           | x :: xs => (c :: x) :: xs
           | [] => [[c]]
           end
  end.

Definition is_empty (s : JsString) : bool :=
  match s with [] => true | _ :: _ => false end.

(** *** The listing of a directory *)

(** The filter of the lines of [ls -la]. *)
Definition listed (line : JsString) : bool :=
  negb (is_empty (trim line))
  && negb (ends_with (lit ".") line)
  && negb (ends_with (lit "..") line).

(** The entry of a line. *)
Definition entry (dir line : JsString) : JsVal :=
  let parts := split_spaces false line in
  let name := join (lit " ") (skipn 8 parts) in
  let isDirectory := starts_with (lit "d") line in
  JObj [(lit "name", JStr name);
        (lit "type", JStr (if isDirectory then lit "directory" else lit "file"));
        (lit "path", JStr (dir ++ lit "/" ++ name))].

Definition contents (dir stdout : JsString) : list JsVal :=
  map (entry dir) (filter listed (skipn 1 (split 10 stdout))).

(** [res.status(status).json({ success: false, error })] *)
Definition refuse (status : Z) (error : JsString) : R unit :=
  send (Respond status (JObj [(lit "success", JBool false);
                              (lit "error", JStr error)])).

(** [res.json({ success: true, ... })] *)
Definition succeed (fields : list (JsString * JsVal)) : R unit :=
  send (Respond 200 (JObj ((lit "success", JBool true) :: fields))).

(** The script of the free ports, a template literal. *)
Definition findPortsScript : JsString :=
  nl ++ lit "                #!/bin/bash" ++ nl
  ++ lit "                used_ports=$(ss -tuln | awk '{print $5}' | awk -F: '{print $NF}' | sort -nu)"
  ++ nl
  ++ lit "                comm -23 <(seq 1024 65535 | sort) <(echo "
  ++ dq ++ lit "$used_ports" ++ dq ++ lit ") | tr '" ++ nl ++ lit "' ' '"
  ++ nl ++ lit "            ".

Section Routes.

(** The runtime: ToString of a value that is not a string, the message of
    the TypeError of destructuring null or undefined, the message of the
    TypeError of a path function given a value that is not a string, the
    message of the error of unlinking a missing file, [path.basename],
    [path.posix.join] and [Number] of a string. *)
Variable ToString : JsVal -> JsString.
Variable TypeError_message : JsString.
Variable ArgumentError_message : JsVal -> JsString.
Variable ENOENT : JsString -> JsString.
Variable basename : JsString -> JsString.
Variable posix_join : JsString -> JsString -> JsString.
Variable Number : JsString -> JsVal.

Variable world : World.

Local Abbreviation text_of := (Http.text_of ToString).
Local Abbreviation prop := (Http.prop TypeError_message).
Local Abbreviation ssh_connect := (Http.ssh_connect world).
Local Abbreviation ssh_exec := (Http.ssh_exec world).
Local Abbreviation ssh_putFile := (Http.ssh_putFile world).
Local Abbreviation unlink := (Http.unlinkSync ENOENT).

(** [if (file.path && fs.existsSync(file.path)) await fs.promises.unlink(file.path)] *)
Definition unlink_existing (p : JsString) : R unit :=
  if is_empty p then ret tt
  else s <- read;; if present s then unlink p else ret tt.

(** app.get('/api/files/list') *)
Definition files_list (query : JsVal) : R unit :=
  try_catch
    (path <- prop query "path";;
     serverIp <- prop query "serverIp";;
     user <- prop query "username";;
     if negb (truthy serverIp) then refuse 400 (lit "Server IP is required")
     else if negb (truthy user) then refuse 400 (lit "Username is required")
     else
       ssh_connect (login serverIp user 5000);;
       r <- ssh_exec (lit "ls -la " ++ text_of path) (Some (lit "/")) silent;;
       let contents := contents (text_of path) (stdout r) in
       emit Dispose;;
       succeed [(lit "contents", JArr contents)])
    (refuse 500).

(** app.get('/api/files/read') *)
Definition files_read (query : JsVal) : R unit :=
  try_catch
    (path <- prop query "path";;
     serverIp <- prop query "serverIp";;
     user <- prop query "username";;
     if negb (truthy serverIp) then refuse 400 (lit "Server IP is required")
     else if negb (truthy user) then refuse 400 (lit "Username is required")
     else
       ssh_connect (login serverIp user 5000);;
       r <- ssh_exec (lit "cat " ++ text_of path) (Some (lit "/")) silent;;
       emit Dispose;;
       succeed [(lit "content", JStr (stdout r))])
    (refuse 500).

(** app.post('/api/files/save', upload.single('file')) *)
Definition files_save (file : option File) (body : JsVal) : R unit :=
  serverIp <- prop body "serverIp";;
  user <- prop body "username";;
  path <- prop body "path";;
  match file with
  | None => refuse 400 (lit "No file provided")
  | Some f =>
      if negb (truthy user) then refuse 400 (lit "Username is required")
      else
        try_catch
          (ssh_connect (login serverIp user 5000);;
           let targetPath := text_of path ++ lit "/" ++ originalname f in
           ssh_putFile (Http.path f) targetPath;;
           unlink (Http.path f);;
           emit Dispose;;
           succeed [])
          (fun e => unlink_existing (Http.path f);; refuse 500 e)
  end.

(** app.post('/api/files/upload', upload.single('file')) *)
Definition files_upload (file : option File) (body : JsVal) : R unit :=
  serverIp <- prop body "serverIp";;
  targetDirectory <- prop body "targetDirectory";;
  user <- prop body "username";;
  match file with
  | None => refuse 400 (lit "No file provided")
  | Some f =>
      if negb (truthy serverIp) || negb (truthy targetDirectory) then
        refuse 400 (lit "Server IP and target directory are required")
      else
        try_catch
          (if negb (truthy user) then refuse 400 (lit "Username is required")
           else
             ssh_connect (login serverIp user 5000);;
             _ <- ssh_exec (lit "mkdir -p " ++ dq ++ text_of targetDirectory
                            ++ dq) None silent;;
             let targetPath :=
               text_of targetDirectory ++ lit "/" ++ originalname f in
             ssh_putFile (Http.path f) targetPath;;
             unlink (Http.path f);;
             emit Dispose;;
             succeed [(lit "message", JStr (lit "File uploaded successfully"));
                      (lit "path", JStr targetPath)])
          (fun e => unlink_existing (Http.path f);; refuse 500 e)
  end.

(** [if (result.stderr) throw new Error(result.stderr)] *)
Definition fail_on_stderr (r : ExecResult) : R unit :=
  if is_empty (stderr r) then ret tt else throw (stderr r).

(** app.delete('/api/files/delete') *)
Definition files_delete (body : JsVal) : R unit :=
  serverIp <- prop body "serverIp";;
  path <- prop body "path";;
  isDirectory <- prop body "isDirectory";;
  user <- prop body "username";;
  if negb (truthy serverIp) || negb (truthy path) then
    refuse 400 (lit "Server IP and path are required")
  else
    try_catch
      (if negb (truthy user) then refuse 400 (lit "Username is required")
       else
         ssh_connect (login serverIp user 5000);;
         let command :=
           if truthy isDirectory
           then lit "rm -rf " ++ dq ++ text_of path ++ dq
           else lit "rm " ++ dq ++ text_of path ++ dq in
         result <- ssh_exec command None silent;;
         fail_on_stderr result;;
         emit Dispose;;
         succeed [(lit "message",
                   JStr ((if truthy isDirectory then lit "Directory"
                          else lit "File") ++ lit " deleted successfully"))])
      (refuse 500).

(** app.post('/api/files/createDirectory') *)
Definition files_createDirectory (body : JsVal) : R unit :=
  serverIp <- prop body "serverIp";;
  path <- prop body "path";;
  directoryName <- prop body "directoryName";;
  user <- prop body "username";;
  if negb (truthy serverIp) || negb (truthy path)
     || negb (truthy directoryName) then
    refuse 400 (lit "Server IP, path, and directory name are required")
  else
    try_catch
      (if negb (truthy user) then refuse 400 (lit "Username is required")
       else
         ssh_connect (login serverIp user 5000);;
         _ <- ssh_exec (lit "whoami") None silent;;
         let newDirectoryPath :=
           text_of path ++ lit "/" ++ text_of directoryName in
         result <- ssh_exec (lit "mkdir -p " ++ dq ++ newDirectoryPath ++ dq)
                     None silent;;
         fail_on_stderr result;;
         emit Dispose;;
         succeed [(lit "message", JStr (lit "Directory created successfully"));
                  (lit "path", JStr newDirectoryPath)])
      (refuse 500).

(** app.post('/api/files/createFile'); [content] is [''] when absent. *)
Definition files_createFile (body : JsVal) : R unit :=
  serverIp <- prop body "serverIp";;
  path <- prop body "path";;
  fileName <- prop body "fileName";;
  given <- prop body "content";;
  let content := match given with JUndefined => JStr [] | _ => given end in
  user <- prop body "username";;
  if negb (truthy serverIp) || negb (truthy path) || negb (truthy fileName)
  then refuse 400 (lit "Server IP, path, and file name are required")
  else
    try_catch
      (if negb (truthy user) then refuse 400 (lit "Username is required")
       else
         ssh_connect (login serverIp user 5000);;
         let newFilePath := text_of path ++ lit "/" ++ text_of fileName in
         let writeCommand :=
           lit "cat > " ++ dq ++ newFilePath ++ dq ++ lit " << 'EOF'" ++ nl
           ++ text_of content ++ nl ++ lit "EOF" in
         result <- ssh_exec writeCommand None silent;;
         fail_on_stderr result;;
         emit Dispose;;
         succeed [(lit "message", JStr (lit "File created successfully"));
                  (lit "path", JStr newFilePath)])
      (refuse 500).

(** app.post('/api/files/rename') *)
Definition files_rename (body : JsVal) : R unit :=
  serverIp <- prop body "serverIp";;
  oldPath <- prop body "oldPath";;
  newPath <- prop body "newPath";;
  user <- prop body "username";;
  if negb (truthy serverIp) || negb (truthy oldPath) || negb (truthy newPath)
     || negb (truthy user)
  then refuse 400 (lit "Server IP, old path, new path, and username are required")
  else
    try_catch
      (ssh_connect (login serverIp user 5000);;
       let command :=
         lit "mv " ++ dq ++ text_of oldPath ++ dq ++ lit " "
         ++ dq ++ text_of newPath ++ dq in
       result <- ssh_exec command None silent;;
       fail_on_stderr result;;
       emit Dispose;;
       succeed [(lit "message", JStr (lit "Item renamed successfully"))])
      (refuse 500).

(** The argument of a path function: a TypeError unless it is a string. *)
Definition path_argument (v : JsVal) : R JsString :=
  match v with
  | JStr s => ret s
  | _ => throw (ArgumentError_message v)
  end.

(** app.post('/api/files/copyPaste') *)
Definition files_copyPaste (body : JsVal) : R unit :=
  try_catch
    (sourceServerIp <- prop body "sourceServerIp";;
     sourcePath <- prop body "sourcePath";;
     isDirectory <- prop body "isDirectory";;
     destinationServerIp <- prop body "destinationServerIp";;
     destinationPath <- prop body "destinationPath";;
     user <- prop body "username";;
     if negb (truthy sourceServerIp) || negb (truthy sourcePath)
        || negb (truthy destinationServerIp) || negb (truthy destinationPath)
        || negb (truthy user)
     then send (Respond 400
                  (JObj [(lit "error", JStr (lit "Missing required parameters"))]))
     else
       connected <-
         try_catch
           (ssh_connect (login sourceServerIp user 5000);; ret true)
           (fun e =>
              send (Respond 500
                      (JObj [(lit "error",
                              JStr (lit "Failed to connect to server: " ++ e))]));;
              ret false);;
       if connected then
         source <- path_argument sourcePath;;
         let itemName := basename source in
         destination <- path_argument destinationPath;;
         let targetPath := posix_join destination itemName in
         let command :=
           if truthy isDirectory
           then lit "cp -r " ++ dq ++ text_of sourcePath ++ dq ++ lit " "
                ++ dq ++ targetPath ++ dq
           else lit "cp " ++ dq ++ text_of sourcePath ++ dq ++ lit " "
                ++ dq ++ targetPath ++ dq in
         finally
           (try_catch
              (result <- ssh_exec command (Some (lit "/")) silent;;
               match code result with
               | Some 0%Z =>
                   succeed [(lit "message", JStr (lit "Item copied successfully"));
                            (lit "newPath", JStr targetPath)]
               | _ =>
                   refuse 500 (if is_empty (stderr result)
                               then lit "Failed to copy item"
                               else stderr result)
               end)
              (fun e =>
                 send (Respond 500
                         (JObj [(lit "error",
                                 JStr (lit "Error executing copy command: "
                                       ++ e))]))))
           (emit Dispose)
       else ret tt)
    (fun e =>
       send (Respond 500 (JObj [(lit "error", JStr (lit "Server error: " ++ e))]))).

(** app.get('/api/ports/free') *)
Definition ports_free (query : JsVal) : R unit :=
  try_catch
    (serverIp <- prop query "serverIp";;
     if negb (truthy serverIp) || negb (test ipv4 (text_of serverIp)) then
       refuse 400 (lit "Valid IPv4 address required")
     else
       finally
         (try_catch
            (ssh_connect (login serverIp (JStr (lit "kishore")) 5000);;
             result <- ssh_exec findPortsScript None silent;;
             match code result with
             | Some 0%Z =>
                 let freePorts :=
                   map Number
                     (filter (fun t => negb (is_empty t))
                        (split_spaces false (trim (stdout result)))) in
                 succeed [(lit "freePorts", JArr freePorts);
                          (lit "count", JNum (Z.of_nat (length freePorts)))]
             | _ =>
                 refuse 500
                   (lit "Port scan failed: "
                    ++ (if is_empty (stderr result) then lit "Unknown error"
                        else stderr result))
             end)
            (fun e => refuse 500 (lit "SSH connection failed: " ++ e)))
         (emit Dispose))
    (fun e => refuse 500 (lit "Server error: " ++ e)).

End Routes.

(** The routes that dispose the connection on the way to their answer
    only: each as a function of the uploaded file and of the body (of the
    query, for list and read). *)
Definition plain_routes (ToString : JsVal -> JsString)
  (TypeError_message : JsString) (ENOENT : JsString -> JsString)
  (world : World) : list (option File -> JsVal -> R unit) :=
  [fun _ => files_list ToString TypeError_message world;
   fun _ => files_read ToString TypeError_message world;
   files_save ToString TypeError_message ENOENT world;
   files_upload ToString TypeError_message ENOENT world;
   fun _ => files_delete ToString TypeError_message world;
   fun _ => files_createDirectory ToString TypeError_message world;
   fun _ => files_createFile ToString TypeError_message world;
   fun _ => files_rename ToString TypeError_message world].

(** A 200 answer; a 400 answer. *)
Definition is_success (e : Effect) : bool :=
  match e with Respond 200 _ => true | _ => false end.

Definition is_refusal (e : Effect) : bool :=
  match e with Respond 400 _ => true | _ => false end.

(** Two runs of a command that reject with the same message, or resolve
    with the same stdout and the same stderr: they differ in the exit code
    and in the chunks at most. *)
Definition same_but_code (a b : Outcome) : Prop :=
  match result a, result b with
  | inl e, inl e' => e = e'
  | inr r, inr r' => stdout r = stdout r' /\ stderr r = stderr r'
  | _, _ => False
  end.

(** A line of [ls -la]: fields, each followed by a gap, and a last field. *)
Fixpoint weave (fields : list (JsString * JsString)) (last : JsString)
  : JsString :=
  match fields with
  | [] => last
  | (field, gap) :: rest => field ++ gap ++ weave rest last
  end.

(** A field: not empty, no white space; a gap: not empty, white space. *)
Definition is_field (s : JsString) : bool :=
  negb (is_empty s) && forallb (fun c => negb (is_space c)) s.

Definition is_gap (s : JsString) : bool :=
  negb (is_empty s) && forallb is_space s.

(** A group of an address: one to three digits. *)
Definition is_group (s : JsString) : bool :=
  (1 <=? length s)%nat && (length s <=? 3)%nat && forallb digit s.

(** Stand-ins of the runtime and a remote side for concrete runs. *)
Definition sample_basename (p : JsString) : JsString :=
  last_part (split slash p).

Definition sample_join (a b : JsString) : JsString := a ++ lit "/" ++ b.

Definition sample_Number (t : JsString) : JsVal :=
  JNum (fold_left (fun n c => (10 * n + (Z.of_N c - 48))%Z) t 0%Z).

Definition sample_ArgumentError (v : JsVal) : JsString :=
  lit "The path argument must be of type string".

(** A remote side whose commands exit with 1. *)
Definition failing : World :=
  {| connect := fun _ => None;
     exec := fun _ =>
       {| chunks := [];
          result := inr {| code := Some 1%Z; stdout := lit "exists" ++ nl;
                           stderr := [] |} |};
     putFile := fun _ _ => None |}.

Definition rename_body : JsVal :=
  JObj [(lit "serverIp", JStr (lit "10.0.0.1"));
        (lit "oldPath", JStr (lit "/home/alice/a.yaml"));
        (lit "newPath", JStr (lit "/home/alice/b.yaml"));
        (lit "username", JStr (lit "alice"))].

Definition copy_body : JsVal :=
  JObj [(lit "sourceServerIp", JStr (lit "10.0.0.1"));
        (lit "sourcePath",
         JArr [JStr (lit "/home/alice/a"); JStr (lit "/home/alice/b")]);
        (lit "destinationServerIp", JStr (lit "10.0.0.1"));
        (lit "destinationPath", JStr (lit "/home/alice/c"));
        (lit "username", JStr (lit "alice"))].

Definition ports_query : JsVal :=
  JObj [(lit "serverIp", JStr (lit "999.999.999.999"))].

Definition listing_line : JsString :=
  lit "-rw-r--r-- 1 alice alice 12 Jan  1 10:00 my  lab.yaml".

Definition listing_stdout : JsString :=
  lit "total 8" ++ nl
  ++ lit "drwxr-xr-x 2 alice alice 4096 Jan  1 10:00 ." ++ nl
  ++ lit "-rw-r--r-- 1 alice alice 12 Jan  1 10:00 notes." ++ nl
  ++ listing_line.

Definition listing_fields : list (JsString * JsString) :=
  [(lit "-rw-r--r--", lit " "); (lit "1", lit " "); (lit "alice", lit " ");
   (lit "alice", lit " "); (lit "12", lit " "); (lit "Jan", lit "  ");
   (lit "1", lit " "); (lit "10:00", lit " "); (lit "my", lit "  ")].

End Files.

(* ===================================================================== *)
(** ** Further observations of a session *)
(* ===================================================================== *)

Module Observe.

Import Bridge.

(** The variables of a session are consistent: callbacks that read
    [sshClient] are attached only once it has been assigned. *)
Definition consistent (s : Session) : bool :=
  match sshClient s with
  | Some _ => true
  | None =>
      match clients s, streams s, shellReqs s with
      | [], [], O => true
      | _, _, _ => false
      end
  end.

(** The callback that the event runs in session [s] calls a method of
    the variable [sshClient] without testing it: [sshClient.shell] in the
    'ready' callback, [sshClient.authPassword] in 'authenticationRequired'
    and [sshClient.end] in the 'close' callback of the shell channel. *)
Definition reads_sshClient (s : Session) (ev : Event) : bool :=
  match ev with
  | SshReady c => mem c (clients s)
  | AuthenticationRequired c authMethods =>
      mem c (clients s)
      && match authMethods with
         | None | Some [] => true
         | Some (_ :: _) => false
         end
  | StreamClose st => mem st (streams s)
  | _ => false
  end.

Definition is_kill (e : Effect) : bool :=
  match e with PtyKill _ => true | _ => false end.

Definition kills (out : list Effect) : nat := length (filter is_kill out).

(** ws 'close' and 'error': the client side of the connection is gone. *)
Definition ws_down (ev : Event) : bool :=
  match ev with WsClosed | WsError _ => true | _ => false end.

End Observe.

(* ===================================================================== *)
(** ** Properties of the handlers, for every runtime *)
(* ===================================================================== *)

Lemma str_eqb_spec a b : reflect (a = b) (str_eqb a b).
Proof.
  revert b; induction a as [|x a IH]; intros [|y b]; simpl;
    try (constructor; congruence).
  destruct (N.eqb_spec x y) as [->|Hxy]; simpl.
  - destruct (IH b) as [->|Hab]; constructor; congruence.
  - constructor; congruence.
Qed.

Section Runtime.

Import Bridge Trace.

Variable toString : Utf8.Buffer -> JsString.
Variable JSON_parse : JsString -> JsString + JsVal.
Variable TypeError_message : JsString.
Variable NotAFunction_message : JsString.
Variable pty_spawn : JsString -> list Arg -> PtyOptions -> Attempt.
Variable ssh_connect : ConnectConfig -> Attempt.

Local Abbreviation dispatch :=
  (Bridge.dispatch toString JSON_parse TypeError_message NotAFunction_message
     pty_spawn ssh_connect).
Local Abbreviation step :=
  (Bridge.step toString JSON_parse TypeError_message NotAFunction_message
     pty_spawn ssh_connect).
Local Abbreviation fatal :=
  (Bridge.fatal toString JSON_parse TypeError_message NotAFunction_message
     pty_spawn ssh_connect).
Local Abbreviation run :=
  (Bridge.run toString JSON_parse TypeError_message NotAFunction_message
     pty_spawn ssh_connect).

(** Unfolds a callback down to its tests on the session and the event. *)
Ltac handler :=
  unfold Bridge.step, Bridge.fatal, Bridge.dispatch, on_message, handshake,
    parse, spawn, connect_device,
    on_ws_down, on_pty_data, on_pty_exit, on_pty_error,
    on_keyboard_interactive, on_authentication_required, on_ssh_error,
    on_timeout, on_ready, on_shell, on_stream_data, on_stream_close,
    with_sshClient, prop, try_catch, attempt, bind, read, update, emit,
    new_id, when, throw, abort, ret;
  cbv beta iota zeta.

(** Case analysis on whatever test blocks the evaluation of the goal. *)
Ltac cases :=
  repeat (cbv beta iota zeta;
          match goal with
          | |- context [match ?x with _ => _ end] =>
              lazymatch x with
              | context [match _ with _ => _ end] => fail
              | _ => destruct x eqn:?
              end
          end).

(** A run, event by event: it ends with a fatal event. *)
Lemma run_cons s ev evs :
  run s (ev :: evs)
  = if fatal s ev then step s ev
    else (fst (run (fst (step s ev)) evs),
          snd (step s ev) ++ snd (run (fst (step s ev)) evs)).
Proof.
  simpl. destruct (step s ev) as [s1 o1]. destruct (fatal s ev); [reflexivity|].
  simpl. destruct (run s1 evs); reflexivity.
Qed.

(** sshClient.on('error') only reports. *)
Lemma step_ssh_error s c message :
  mem c (clients s) = true ->
  step s (SshError c message) = (s, [WsSend (error_notice message)]).
Proof.
  intros H. handler. rewrite H. reflexivity.
Qed.

(** C7: the keyboard-interactive callback answers every challenge, whatever
    the number and the texts of its prompts, with one response per prompt,
    each of them the fixed password 'admin'; the answer goes to the SSH
    client's finish callback and is the only effect: nothing is sent to the
    WebSocket client and the session is unchanged. *)
Theorem keyboard_interactive_fixed_policy s c prompts :
  mem c (clients s) = true ->
  exists responses,
    step s (KeyboardInteractive c prompts) = (s, [SshFinish c responses])
    /\ length responses = length prompts
    /\ Forall (fun r => r = lit "admin") responses
    /\ sent (snd (step s (KeyboardInteractive c prompts))) = [].
Proof.
  intros H. exists (map (fun _ => admin) prompts).
  assert (E : step s (KeyboardInteractive c prompts)
              = (s, [SshFinish c (map (fun _ => admin) prompts)])).
  { handler. rewrite H. reflexivity. }
  rewrite E. repeat split.
  - apply length_map.
  - apply Forall_forall. intros r Hr.
    apply in_map_iff in Hr. destruct Hr as [_ [<- _]]. reflexivity.
Qed.

(** *** Relay *)




(** *** Teardown *)

Lemma step_teardown s ev :
  stops (snd (step s ev)) <= (if stop_trigger ev then 1 else 0)
  /\ closes (snd (step s ev)) <= (if close_trigger ev then 1 else 0).
Proof.
  unfold stops, closes.
  destruct ev; cbn [stop_trigger close_trigger]; handler; cases; simpl;
    split; lia.
Qed.

Lemma stops_app o1 o2 : stops (o1 ++ o2) = stops o1 + stops o2.
Proof. unfold stops. now rewrite filter_app, length_app. Qed.

Lemma closes_app o1 o2 : closes (o1 ++ o2) = closes o1 + closes o2.
Proof. unfold closes. now rewrite filter_app, length_app. Qed.

Lemma run_teardown s evs :
  stops (snd (run s evs)) <= length (filter stop_trigger evs)
  /\ closes (snd (run s evs)) <= length (filter close_trigger evs).
Proof.
  revert s; induction evs as [|ev evs IH]; intros s.
  - unfold stops, closes; simpl; lia.
  - rewrite run_cons. pose proof (step_teardown s ev) as [H1 H2].
    specialize (IH (fst (step s ev))). destruct IH as [I1 I2].
    cbn [filter].
    destruct (fatal s ev); cbn [snd]; rewrite ?stops_app, ?closes_app;
      destruct (stop_trigger ev), (close_trigger ev); simpl; lia.
Qed.

(** ws.on('close') and ws.on('error') stop the driver each time they run. *)
Lemma step_ws_down_ssh s c ev :
  sshClient s = Some c -> ev = WsClosed \/ (exists e, ev = WsError e) ->
  step s ev = (s, [SshEnd c]).
Proof.
  intros H [->|[e ->]]; handler; rewrite H; reflexivity.
Qed.

Lemma step_ws_down_pty s p ev :
  sshClient s = None -> dockerProcess s = Some p ->
  ev = WsClosed \/ (exists e, ev = WsError e) ->
  step s ev = (s, [PtyKill p]).
Proof.
  intros H1 H2 [->|[e ->]]; handler; rewrite H1, H2; reflexivity.
Qed.

(** *** The handshake *)

Lemma get_field data k :
  nullish data = false -> Js.get data (lit k) = Some (field data k).
Proof. unfold field. destruct data; simpl; intros H; congruence. Qed.

Lemma get_nullish data k : nullish data = true -> Js.get data k = None.
Proof. destruct data; simpl; intros H; congruence. Qed.

Lemma step_handshake_syntax_error s message e :
  relaying s = false ->
  JSON_parse (toString message) = inl e ->
  step s (WsMessage message) = (s, [WsSend (error_notice e)]).
Proof.
  unfold relaying. intros Hs Hp. handler.
  destruct (sshStream s); [discriminate|].
  destruct (dockerProcess s); [discriminate|].
  rewrite Hp. reflexivity.
Qed.

Lemma step_handshake_null s message data :
  relaying s = false ->
  JSON_parse (toString message) = inr data -> nullish data = true ->
  step s (WsMessage message) = (s, [WsSend (error_notice TypeError_message)]).
Proof.
  unfold relaying. intros Hs Hp Hn. handler.
  destruct (sshStream s); [discriminate|].
  destruct (dockerProcess s); [discriminate|].
  rewrite Hp. cbv beta iota zeta. rewrite get_nullish by exact Hn. reflexivity.
Qed.

(** The else branch, by what [connect] does with the configuration. *)
Lemma step_handshake_device s message data :
  relaying s = false ->
  JSON_parse (toString message) = inr data -> nullish data = false ->
  device_kind (field data "nodeKind") = true ->
  step s (WsMessage message)
  = match ssh_connect (device_config (field data "nodeIp")) with
    | Returns =>
        (connected s,
         [SshConnect (nextId s) (device_config (field data "nodeIp"));
          SetTimeout (nextId s) 10000])
    | Throws e =>
        (created s,
         [SshConnect (nextId s) (device_config (field data "nodeIp"));
          WsSend (error_notice e)])
    | Aborts =>
        (created s,
         [SshConnect (nextId s) (device_config (field data "nodeIp"))])
    end.
Proof.
  unfold relaying, device_kind. intros Hs Hp Hn Hk.
  apply andb_prop in Hk. destruct Hk as [Hl Hv].
  apply negb_true_iff in Hl, Hv. handler.
  destruct (sshStream s) eqn:E1; [discriminate|].
  destruct (dockerProcess s) eqn:E2; [discriminate|].
  rewrite Hp. cbv beta iota zeta.
  rewrite !get_field by exact Hn. cbv beta iota zeta.
  rewrite Hl, Hv. cbv beta iota zeta.
  repeat match goal with
         | |- context [ssh_connect ?c] =>
             progress change c with (device_config (field data "nodeIp"))
         end.
  destruct (ssh_connect (device_config (field data "nodeIp"))); reflexivity.
Qed.

(** A pty.spawn branch, by what [pty.spawn] does with its arguments. *)
Lemma step_handshake_linux s message data :
  relaying s = false ->
  JSON_parse (toString message) = inr data -> nullish data = false ->
  is_str (field data "nodeKind") (lit "linux") = true ->
  step s (WsMessage message)
  = spawn_result pty_spawn s (lit "docker")
      (docker_args (field data "nodeName")) (pty_options data).
Proof.
  unfold relaying, spawn_result. intros Hs Hp Hn Hk. handler.
  destruct (sshStream s) eqn:E1; [discriminate|].
  destruct (dockerProcess s) eqn:E2; [discriminate|].
  rewrite Hp. cbv beta iota zeta.
  rewrite !get_field by exact Hn. cbv beta iota zeta.
  rewrite Hk. cbv beta iota zeta.
  repeat match goal with
         | |- context [pty_spawn ?f ?a ?o] =>
             progress change (pty_spawn f a o)
               with (pty_spawn (lit "docker")
                       (docker_args (field data "nodeName")) (pty_options data))
         end.
  destruct (pty_spawn _ _ _); reflexivity.
Qed.

Lemma is_str_sonic_not_linux v :
  is_str v (lit "sonic-vm") = true -> is_str v (lit "linux") = false.
Proof.
  destruct v; try reflexivity. simpl. intros Hk.
  destruct (str_eqb_spec s (lit "linux")) as [->|]; [discriminate|reflexivity].
Qed.

Lemma step_handshake_sonic s message data :
  relaying s = false ->
  JSON_parse (toString message) = inr data -> nullish data = false ->
  is_str (field data "nodeKind") (lit "sonic-vm") = true ->
  step s (WsMessage message)
  = spawn_result pty_spawn s (lit "ssh")
      (ssh_args (field data "nodeName")) (pty_options data).
Proof.
  unfold relaying, spawn_result. intros Hs Hp Hn Hk. handler.
  destruct (sshStream s) eqn:E1; [discriminate|].
  destruct (dockerProcess s) eqn:E2; [discriminate|].
  rewrite Hp. cbv beta iota zeta.
  rewrite !get_field by exact Hn. cbv beta iota zeta.
  rewrite (is_str_sonic_not_linux _ Hk), Hk. cbv beta iota zeta.
  repeat match goal with
         | |- context [pty_spawn ?f ?a ?o] =>
             progress change (pty_spawn f a o)
               with (pty_spawn (lit "ssh")
                       (ssh_args (field data "nodeName")) (pty_options data))
         end.
  destruct (pty_spawn _ _ _); reflexivity.
Qed.

(** The timer callback, in a session whose last handshake took the else
    branch. *)
Lemma step_timeout s t sock :
  mem t (timers s) = true ->
  step s (Timeout t sock)
  = (set_timers (remove t (timers s)) s,
     match sshClient s with
     | Some c => if sock then [] else [WsSend timeout_notice; SshEnd c]
     | None => []
     end).
Proof.
  intros H. handler. rewrite H. cbv beta iota zeta.
  destruct s as [[c|] ? ? ? ? ? ? ? ?]; simpl; [|reflexivity].
  destruct sock; reflexivity.
Qed.

(** The other drivers' callbacks, for comparison with the SSH ones. *)
Lemma step_pty_exit s p exitCode signal :
  mem p (ptys s) = true ->
  step s (PtyExit p exitCode signal) = (s, [WsSend closed_notice; WsClose]).
Proof. intros H. handler. rewrite H. reflexivity. Qed.

Lemma step_pty_error s p message :
  mem p (ptys s) = true ->
  step s (PtyError p message)
  = (s, [WsSend (error_notice message); WsClose]).
Proof. intros H. handler. rewrite H. reflexivity. Qed.

Lemma step_stream_close s st c :
  mem st (streams s) = true -> sshClient s = Some c ->
  step s (StreamClose st) = (set_sshStream None s, [SshEnd c]).
Proof.
  intros H Hc. destruct s; cbn in H, Hc; subst.
  handler. cbn. cbn in H. rewrite H. reflexivity.
Qed.

Lemma step_shell_error s n e :
  shellReqs s = S n ->
  step s (ShellCallback (Some e))
  = (set_shellReqs n s, [WsSend shell_failed_notice]).
Proof. intros H. handler. rewrite H. reflexivity. Qed.

Lemma step_ready s c cur :
  mem c (clients s) = true -> sshClient s = Some cur ->
  snd (step s (SshReady c))
  = [ClearTimeout c;
     SshShell cur {| term := lit "xterm-256color"; shell_cols := None;
                     shell_rows := None |}].
Proof.
  intros H Hc. destruct s; cbn in H, Hc; subst.
  handler. cbn. cbn in H. rewrite H. reflexivity.
Qed.

(** Once a pty driver exists the variable is never cleared: no event
    constructs another driver, whatever the client sends. *)
Lemma step_pty_session s p ev :
  dockerProcess s = Some p ->
  dockerProcess (fst (step s ev)) = Some p /\ starts (snd (step s ev)) = 0.
Proof.
  intros H. destruct s as [c st d cl pt sr tm rq n]; cbn in H; subst d.
  destruct ev; handler; cbn; cases; cbn; split; reflexivity.
Qed.

Lemma starts_app o1 o2 : starts (o1 ++ o2) = starts o1 + starts o2.
Proof. unfold starts. now rewrite filter_app, length_app. Qed.

Lemma run_pty_session s p evs :
  dockerProcess s = Some p ->
  dockerProcess (fst (run s evs)) = Some p /\ starts (snd (run s evs)) = 0.
Proof.
  revert s; induction evs as [|ev evs IH]; intros s H.
  - now split.
  - rewrite run_cons. destruct (step_pty_session s p ev H) as [H1 H2].
    destruct (fatal s ev); [now split|].
    destruct (IH _ H1) as [I1 I2]. cbn [fst snd].
    rewrite starts_app. split; [assumption|lia].
Qed.

(** *** The claims that hold for every runtime *)

(** C2 (amended): there is no guard across teardown triggers.  One run of a
    callback invokes the driver's stop (process kill or SSH client end) at
    most once and the close of the client connection at most once; over a
    whole sequence of events the stop is invoked at most once per event that
    triggers it (client close, client error, shell channel close, timer) and
    the close at most once per pty exit or pty error. *)
Theorem teardown_once_per_trigger s ev evs :
  (stops (snd (step s ev)) <= 1 /\ closes (snd (step s ev)) <= 1)
  /\ stops (snd (run s evs)) <= length (filter stop_trigger evs)
  /\ closes (snd (run s evs)) <= length (filter close_trigger evs).
Proof.
  split.
  - pose proof (step_teardown s ev) as [H1 H2].
    destruct (stop_trigger ev), (close_trigger ev); lia.
  - apply run_teardown.
Qed.

(** C5 (amended): when the first payload does not parse (JSON.parse throws,
    or returns null, which cannot be destructured), the callback sends a
    single diagnostic, constructs no driver, does not close the connection
    and leaves the session as it was, so that the next message is again
    read as a handshake.  Missing fields are not checked. *)
Theorem unparsable_handshake_reported s message :
  relaying s = false ->
  (forall data, JSON_parse (toString message) = inr data ->
                nullish data = true) ->
  exists e,
    step s (WsMessage message) = (s, [WsSend (error_notice e)])
    /\ starts (snd (step s (WsMessage message))) = 0
    /\ closes (snd (step s (WsMessage message))) = 0.
Proof.
  intros Hs Hp. destruct (JSON_parse (toString message)) as [e|data] eqn:E.
  - exists e. rewrite (step_handshake_syntax_error _ _ _ Hs E). now repeat split.
  - exists TypeError_message.
    rewrite (step_handshake_null _ _ _ Hs E (Hp data eq_refl)).
    now repeat split.
Qed.


End Runtime.

(* ===================================================================== *)
(** ** The reference decoder on well-formed text *)
(* ===================================================================== *)

Section Utf8RoundTrip.

Import Utf8.
Local Open Scope N_scope.

Ltac Zify.zify_post_hook ::= Z.to_euclidean_division_equations.














Ltac Zify.zify_post_hook ::= idtac.

End Utf8RoundTrip.

(* ===================================================================== *)
(** ** Sessions on the reference runtime *)
(* ===================================================================== *)

Section Reference.

Import Bridge Trace Sample Required.

Example decode_ascii : Utf8.decode [x6c; x73; x0a]%byte = [108; 115; 10]%N.
Proof. reflexivity. Qed.
Example decode_e_acute : Utf8.decode [xc3; xa9]%byte = [233]%N.
Proof. reflexivity. Qed.
Example decode_euro : Utf8.decode [xe2; x82; xac]%byte = [8364]%N.
Proof. reflexivity. Qed.
Example decode_ff : Utf8.decode [xff]%byte = [65533]%N.
Proof. reflexivity. Qed.
Example decode_text : Utf8.decode (text "{'a': 1}") = quoted "{'a': 1}".
Proof. vm_compute. reflexivity. Qed.

Example parse_object :
  Json.parse (quoted "{ 'nodeKind': 'linux', 'cols': 120, 'x': [1, null] }")
  = inr (JObj [(lit "nodeKind", JStr (lit "linux")); (lit "cols", JNum 120);
               (lit "x", JArr [JNum 1; JNull])]).
Proof. vm_compute. reflexivity. Qed.
Example parse_ls : Json.parse (lit "ls") = inl Json.syntax_error.
Proof. vm_compute. reflexivity. Qed.
Example parse_null : Json.parse (lit "null") = inr JNull.
Proof. vm_compute. reflexivity. Qed.
Example parse_repeated_key :
  Json.parse (quoted "{'a': 1, 'b': 2, 'a': 3}")
  = inr (JObj [(lit "a", JNum 3); (lit "b", JNum 2)]).
Proof. vm_compute. reflexivity. Qed.

Example container_session_relays :
  container_session
  = {| sshClient := None; sshStream := None; dockerProcess := Some 0;
       clients := []; ptys := [0]; streams := []; timers := [];
       shellReqs := 0; nextId := 1 |}.
Proof. vm_compute. reflexivity. Qed.

Example device_session_relays :
  device_session
  = {| sshClient := Some 0; sshStream := Some 1; dockerProcess := None;
       clients := [0]; ptys := []; streams := [1]; timers := [];
       shellReqs := 0; nextId := 2 |}.
Proof. vm_compute. reflexivity. Qed.

(** The scenario of the specification: handshake for container r1, then
    the client sends ls and a newline. *)
Example container_ls :
  Node.effects_of [hs_linux; WsMessage [x6c; x73; x0a]%byte]
  = [PtySpawn 0 (lit "docker") (docker_args (JStr (lit "r1")))
       {| pty_name := lit "xterm-256color"; pty_cols := JNum 80;
          pty_rows := JNum 24 |};
     PtyWrite 0 [108; 115; 10]%N].
Proof. vm_compute. reflexivity. Qed.

(** *** C1 *)




(** *** C2 *)

(** C2 as stated fails: a client error followed by the close of the
    connection kills the pty twice; a pty error followed by its exit closes
    the client connection twice; and in a device session whose shell channel
    has closed, the close of the client connection ends the SSH client a
    second time. *)
Lemma teardown_twice :
  ~ teardown_once [hs_linux; WsError (lit "read ECONNRESET"); WsClosed]
  /\ ~ teardown_once [hs_linux; PtyError 0 (lit "read EIO"); PtyExit 0 1 0]
  /\ ~ teardown_once
        [hs_device; SshReady 0; ShellCallback None; StreamClose 1; WsClosed].
Proof.
  unfold teardown_once. repeat split; intros [H1 H2].
  - vm_compute in H1. lia.
  - vm_compute in H2. lia.
  - vm_compute in H1. lia.
Qed.

(** *** C3 *)

(** C3, at the failing input: an error of the SSH client (here a failed
    authentication) is reported to the client and nothing else happens; the
    client connection is not closed and the SSH client is not ended.  A
    failure to create the shell is reported in the same way. *)
Theorem ssh_error_leaves_session_open :
  Node.effects_of
    [hs_device; SshError 0 (lit "All configured authentication methods failed")]
  = [SshConnect 0 (device_config (JStr (lit "10.0.0.5")));
     SetTimeout 0 10000;
     WsSend (error_notice (lit "All configured authentication methods failed"))]
  /\ closes (Node.effects_of
       [hs_device;
        SshError 0 (lit "All configured authentication methods failed")]) = 0
  /\ stops (Node.effects_of
       [hs_device;
        SshError 0 (lit "All configured authentication methods failed")]) = 0
  /\ Node.effects_of
       [hs_device; SshReady 0; ShellCallback (Some (lit "Channel open failure"))]
     = [SshConnect 0 (device_config (JStr (lit "10.0.0.5")));
        SetTimeout 0 10000; ClearTimeout 0;
        SshShell 0 {| term := lit "xterm-256color"; shell_cols := None;
                      shell_rows := None |};
        WsSend shell_failed_notice].
Proof. vm_compute. repeat split. Qed.

(** *** C4 *)

(** C4, at the failing input: a device handshake whose endpoint never
    answers.  After the 10 seconds of readyTimeout the SSH client gives up
    and emits 'error' (Timed out while waiting for handshake), which is sent
    to the client as a diagnostic; the timer of the handler finds the socket
    that connect has created and does nothing.  The client connection is
    not closed and the SSH client is not ended, so that the session does not
    reach CLOSED.  Whether the socket is there or not when the timer fires,
    its callback does not close the client connection. *)
Theorem timeout_leaves_session_open :
  Node.effects_of
    [hs_device; SshError 0 (lit "Timed out while waiting for handshake");
     Timeout 0 true]
  = [SshConnect 0 (device_config (JStr (lit "10.0.0.5")));
     SetTimeout 0 10000;
     WsSend (error_notice (lit "Timed out while waiting for handshake"))]
  /\ closes (Node.effects_of
       [hs_device; SshError 0 (lit "Timed out while waiting for handshake");
        Timeout 0 true]) = 0
  /\ stops (Node.effects_of
       [hs_device; SshError 0 (lit "Timed out while waiting for handshake");
        Timeout 0 true]) = 0
  /\ relaying (Node.session_after
       [hs_device; SshError 0 (lit "Timed out while waiting for handshake");
        Timeout 0 true]) = false
  /\ (forall sock, closes (Node.effects_of [hs_device; Timeout 0 sock]) = 0).
Proof.
  split; [vm_compute; reflexivity|]. split; [vm_compute; reflexivity|].
  split; [vm_compute; reflexivity|]. split; [vm_compute; reflexivity|].
  intros [|]; vm_compute; reflexivity.
Qed.

(** *** C5 *)

Lemma unparsable_handshake_reported_witness :
  relaying init = false
  /\ (forall data, Json.parse (Utf8.decode [x6c; x73]%byte) = inr data ->
                   nullish data = true)
  /\ exists e,
       Node.step init (WsMessage [x6c; x73]%byte)
       = (init, [WsSend (error_notice e)])
       /\ starts (snd (Node.step init (WsMessage [x6c; x73]%byte))) = 0
       /\ closes (snd (Node.step init (WsMessage [x6c; x73]%byte))) = 0.
Proof.
  assert (Hp : forall data,
             Json.parse (Utf8.decode [x6c; x73]%byte) = inr data ->
             nullish data = true)
    by (intros data H; vm_compute in H; discriminate).
  split; [reflexivity|]. split; [exact Hp|].
  exact (unparsable_handshake_reported Utf8.decode Json.parse
           Node.TypeError_message Node.NotAFunction_message
           Node.pty_spawn Node.ssh_connect init [x6c; x73]%byte eq_refl Hp).
Defined.

(** C5 as stated fails: a handshake of kind device without an address is
    not rejected; an SSH client is created and connected to an undefined
    host, and no diagnostic is sent. *)
Lemma missing_address_not_rejected :
  ~ rejected hs_device_no_address
  /\ Node.effects_of [hs_device_no_address]
     = [SshConnect 0 (device_config JUndefined); SetTimeout 0 10000].
Proof.
  split; [|vm_compute; reflexivity].
  intros [d [H _]]. vm_compute in H. discriminate.
Qed.

(** *** C6 *)

(** C6, at the failing input: when the shell channel of a relaying device
    session closes, the SSH client is ended and the stream variable reset;
    no notice is sent and the client connection is not closed. *)
Theorem stream_close_sends_no_notice :
  relaying device_session = true
  /\ Node.step device_session (StreamClose 1)
     = (set_sshStream None device_session, [SshEnd 0])
  /\ sent (snd (Node.step device_session (StreamClose 1))) = []
  /\ closes (snd (Node.step device_session (StreamClose 1))) = 0.
Proof. vm_compute. repeat split. Qed.

(** *** C7 *)

Lemma keyboard_interactive_fixed_policy_witness :
  mem 0 (clients (Node.session_after [hs_device])) = true
  /\ exists responses,
       Node.step (Node.session_after [hs_device])
         (KeyboardInteractive 0
            [{| prompt := lit "Password: "; echo := false |};
             {| prompt := lit "Verification code: "; echo := true |}])
       = (Node.session_after [hs_device], [SshFinish 0 responses])
       /\ length responses = 2
       /\ Forall (fun r => r = lit "admin") responses
       /\ sent (snd (Node.step (Node.session_after [hs_device])
            (KeyboardInteractive 0
               [{| prompt := lit "Password: "; echo := false |};
                {| prompt := lit "Verification code: "; echo := true |}])))
          = [].
Proof.
  split; [reflexivity|].
  exact (keyboard_interactive_fixed_policy Utf8.decode Json.parse
           Node.TypeError_message Node.NotAFunction_message
           Node.pty_spawn Node.ssh_connect (Node.session_after [hs_device]) 0
           [{| prompt := lit "Password: "; echo := false |};
            {| prompt := lit "Verification code: "; echo := true |}]
           eq_refl).
Defined.

(** *** C8 *)

(** C8, at the failing input: while the SSH client of a device handshake is
    still connecting, a second message is parsed as a handshake and a second
    driver is constructed; and after the shell channel of a device session
    has closed, client input is parsed as a handshake again. *)
Theorem second_handshake_accepted :
  Node.effects_of [hs_device; hs_linux]
  = [SshConnect 0 (device_config (JStr (lit "10.0.0.5")));
     SetTimeout 0 10000;
     PtySpawn 1 (lit "docker") (docker_args (JStr (lit "r1")))
       {| pty_name := lit "xterm-256color"; pty_cols := JNum 80;
          pty_rows := JNum 24 |}]
  /\ starts (Node.effects_of [hs_device; hs_linux]) = 2
  /\ (forall JSON_parse e,
        JSON_parse (Utf8.decode [x6c; x73; x0a]%byte) = inl e ->
        snd (Bridge.run Utf8.decode JSON_parse Node.TypeError_message
               Node.NotAFunction_message Node.pty_spawn Node.ssh_connect
               device_session
               [StreamClose 1; WsMessage [x6c; x73; x0a]%byte])
        = [SshEnd 0; WsSend (error_notice e)]).
Proof.
  split; [vm_compute; reflexivity|]. split; [vm_compute; reflexivity|].
  intros JSON_parse e H. vm_compute in H. vm_compute. rewrite H. reflexivity.
Qed.

(** *** C9 *)

(** C9, at the failing input: for a device handshake asking for 120 columns
    and 40 rows, the shell channel is requested with the terminal type only;
    no columns and no rows are passed. *)
Theorem device_shell_ignores_geometry :
  Node.effects_of [hs_device_sized; SshReady 0]
  = [SshConnect 0 (device_config (JStr (lit "10.0.0.5")));
     SetTimeout 0 10000; ClearTimeout 0;
     SshShell 0 {| term := lit "xterm-256color"; shell_cols := None;
                   shell_rows := None |}].
Proof. vm_compute. reflexivity. Qed.

(** The geometry of the two pty drivers: the requested one, 80 by 24 when
    the handshake has none. *)
Lemma pty_geometry_default data :
  field data "cols" = JUndefined -> field data "rows" = JUndefined ->
  pty_options data
  = {| pty_name := lit "xterm-256color"; pty_cols := JNum 80;
       pty_rows := JNum 24 |}.
Proof. intros Hc Hr. unfold pty_options. now rewrite Hc, Hr. Qed.

Lemma pty_geometry_requested data c r :
  field data "cols" = JNum c -> field data "rows" = JNum r ->
  c <> 0%Z -> r <> 0%Z ->
  pty_options data
  = {| pty_name := lit "xterm-256color"; pty_cols := JNum c;
       pty_rows := JNum r |}.
Proof.
  intros Hc Hr Hc0 Hr0. unfold pty_options, or_else. rewrite Hc, Hr. simpl.
  destruct (Z.eqb_spec c 0); [contradiction|].
  destruct (Z.eqb_spec r 0); [contradiction|]. reflexivity.
Qed.

(** *** C10 *)


End Reference.

(* ===================================================================== *)
(** ** Invariants of a session *)
(* ===================================================================== *)

Section Invariants.

Import Bridge Trace Observe Sample.

Variable toString : Utf8.Buffer -> JsString.
Variable JSON_parse : JsString -> JsString + JsVal.
Variable TypeError_message : JsString.
Variable NotAFunction_message : JsString.
Variable pty_spawn : JsString -> list Arg -> PtyOptions -> Attempt.
Variable ssh_connect : ConnectConfig -> Attempt.

Local Abbreviation dispatch :=
  (Bridge.dispatch toString JSON_parse TypeError_message NotAFunction_message
     pty_spawn ssh_connect).
Local Abbreviation step :=
  (Bridge.step toString JSON_parse TypeError_message NotAFunction_message
     pty_spawn ssh_connect).
Local Abbreviation fatal :=
  (Bridge.fatal toString JSON_parse TypeError_message NotAFunction_message
     pty_spawn ssh_connect).
Local Abbreviation run :=
  (Bridge.run toString JSON_parse TypeError_message NotAFunction_message
     pty_spawn ssh_connect).

Ltac callbacks :=
  unfold Bridge.step, Bridge.fatal, Bridge.dispatch, on_message, handshake,
    parse, spawn,
    connect_device, on_ws_down, on_pty_data, on_pty_exit, on_pty_error,
    on_keyboard_interactive, on_authentication_required, on_ssh_error,
    on_timeout, on_ready, on_shell, on_stream_data, on_stream_close,
    with_sshClient, prop, try_catch, attempt, bind, read, update, emit,
    new_id, when, throw, abort, ret;
  cbv beta iota zeta.

Ltac branches :=
  repeat (cbn;
          match goal with
          | |- context [match ?x with _ => _ end] =>
              lazymatch x with
              | context [match _ with _ => _ end] => fail
              | _ => destruct x eqn:?
              end
          end).

Lemma mem_nonempty x l : mem x l = true -> l <> [].
Proof. destruct l; [discriminate|congruence]. Qed.

Lemma step_consistent s ev :
  consistent s = true -> consistent (fst (step s ev)) = true.
Proof.
  unfold consistent.
  destruct s as [c st d cl pt sr tm rq n]; cbn [sshClient clients streams shellReqs].
  intros H.
  destruct c as [c|].
  - destruct ev; callbacks; cbn; branches; cbn; reflexivity.
  - destruct cl; [|discriminate]. destruct sr; [|discriminate].
    destruct rq; [|discriminate].
    destruct ev; callbacks; cbn; branches; cbn; reflexivity.
Qed.

Lemma run_consistent s evs :
  consistent s = true -> consistent (fst (run s evs)) = true.
Proof.
  revert s; induction evs as [|ev evs IH]; intros s H; [exact H|].
  rewrite (run_cons toString JSON_parse TypeError_message NotAFunction_message
             pty_spawn ssh_connect).
  pose proof (step_consistent s ev H) as H1.
  destruct (fatal s ev); [exact H1|]. cbn [fst]. exact (IH _ H1).
Qed.

(** X1: [sshClient] is not dereferenced while it is null.  The callbacks
    that call a method of the variable without testing it ('ready',
    'authenticationRequired', and 'close' of the shell channel) belong to a
    client or to a channel of the connection, and those exist only once the
    variable has been assigned; it is never reset.  So whatever events
    arrive on a connection and in whatever order, the variable holds a
    client whenever such a callback runs. *)
Theorem sshClient_set_when_dereferenced evs ev :
  reads_sshClient (fst (run init evs)) ev = true ->
  exists c, sshClient (fst (run init evs)) = Some c.
Proof.
  pose proof (run_consistent init evs eq_refl) as H.
  unfold consistent, reads_sshClient in *.
  destruct (sshClient (fst (run init evs))) as [c|]; [eauto|].
  destruct (clients (fst (run init evs))); [|discriminate].
  destruct (streams (fst (run init evs))); [|discriminate].
  destruct ev; simpl; try discriminate.
Qed.

Lemma step_keeps_sshClient s c ev :
  sshClient s = Some c ->
  (exists c', sshClient (fst (step s ev)) = Some c')
  /\ kills (snd (step s ev)) = 0.
Proof.
  destruct s as [c0 st d cl pt sr tm rq n]; cbn [sshClient]. intros ->.
  destruct ev; callbacks; cbn; branches; cbn; split; eauto.
Qed.

Lemma kills_app o1 o2 : kills (o1 ++ o2) = kills o1 + kills o2.
Proof. unfold kills. now rewrite filter_app, length_app. Qed.

(** X2: once an SSH client has been created on a connection, no pty of that
    connection is ever killed: ws 'close' and ws 'error' test [sshClient]
    first, and it is never reset.  A pty spawned by a later handshake of the
    same connection therefore outlives the connection. *)
Theorem pty_never_killed_beside_ssh s c evs :
  sshClient s = Some c ->
  kills (snd (run s evs)) = 0
  /\ exists c', sshClient (fst (run s evs)) = Some c'.
Proof.
  revert s c; induction evs as [|ev evs IH]; intros s c H.
  - split; [reflexivity|eauto].
  - rewrite (run_cons toString JSON_parse TypeError_message
               NotAFunction_message pty_spawn ssh_connect).
    destruct (step_keeps_sshClient s c ev H) as [[c1 H1] H2].
    destruct (fatal s ev); [split; [exact H2|eauto]|].
    destruct (IH _ c1 H1) as [I1 I2]. cbn [fst snd].
    rewrite kills_app. split; [lia|exact I2].
Qed.

(** X3: the relay is entered only by a handshake that spawns a pty or by the
    shell callback delivering a stream; no other event, and no handshake of
    the device kind, puts a waiting session into the relay. *)
Theorem relay_entered_only_by s ev :
  relaying s = false -> relaying (fst (step s ev)) = true ->
  (exists message p, ev = WsMessage message
                     /\ dockerProcess (fst (step s ev)) = Some p)
  \/ (exists st, ev = ShellCallback None
                 /\ sshStream (fst (step s ev)) = Some st).
Proof.
  unfold relaying.
  destruct s as [c st d cl pt sr tm rq n]; cbn [sshStream dockerProcess].
  destruct st; [discriminate|]. destruct d; [discriminate|]. intros _.
  destruct ev; callbacks; cbn; branches; cbn; intros H;
    try discriminate; eauto.
Qed.

(** X4: the relay is left only by the close of the shell channel of a
    session that has no pty: a session with a pty relays for the rest of the
    connection, and the exit of the pty itself does not end the relay. *)
Theorem relay_left_only_by s ev :
  relaying s = true -> relaying (fst (step s ev)) = false ->
  (exists st, ev = StreamClose st) /\ dockerProcess s = None.
Proof.
  unfold relaying.
  destruct s as [c st d cl pt sr tm rq n]; cbn [sshStream dockerProcess].
  intros Hs.
  destruct ev; callbacks; cbn; branches; cbn; intros H;
    try discriminate; try (subst; discriminate); eauto.
Qed.

(** X5: the username of a handshake has no effect.  Two handshakes that
    agree on nodeKind, nodeName, nodeIp, cols and rows are handled in the
    same way, whatever else they carry: the pty is started as the server's
    own user, and the device login is always admin. *)
Theorem handshake_ignores_username s m1 m2 d1 d2 :
  relaying s = false ->
  JSON_parse (toString m1) = inr d1 -> JSON_parse (toString m2) = inr d2 ->
  nullish d1 = false -> nullish d2 = false ->
  field d1 "nodeKind" = field d2 "nodeKind" ->
  field d1 "nodeName" = field d2 "nodeName" ->
  field d1 "nodeIp" = field d2 "nodeIp" ->
  field d1 "cols" = field d2 "cols" ->
  field d1 "rows" = field d2 "rows" ->
  step s (WsMessage m1) = step s (WsMessage m2).
Proof.
  intros Hs P1 P2 N1 N2 Hk Hn Hi Hc Hr.
  assert (Ho : pty_options d1 = pty_options d2)
    by (unfold pty_options; now rewrite Hc, Hr).
  destruct (is_str (field d1 "nodeKind") (lit "linux")) eqn:El.
  { rewrite (step_handshake_linux _ _ _ _ _ _ _ _ _ Hs P1 N1 El).
    rewrite Hk in El.
    rewrite (step_handshake_linux _ _ _ _ _ _ _ _ _ Hs P2 N2 El).
    now rewrite Hn, Ho. }
  destruct (is_str (field d1 "nodeKind") (lit "sonic-vm")) eqn:Ev.
  { rewrite (step_handshake_sonic _ _ _ _ _ _ _ _ _ Hs P1 N1 Ev).
    rewrite Hk in Ev.
    rewrite (step_handshake_sonic _ _ _ _ _ _ _ _ _ Hs P2 N2 Ev).
    now rewrite Hn, Ho. }
  assert (K1 : device_kind (field d1 "nodeKind") = true)
    by (unfold device_kind; now rewrite El, Ev).
  rewrite (step_handshake_device _ _ _ _ _ _ _ _ _ Hs P1 N1 K1).
  rewrite Hk in K1.
  rewrite (step_handshake_device _ _ _ _ _ _ _ _ _ Hs P2 N2 K1).
  now rewrite Hi.
Qed.


End Invariants.

Section InvariantWitnesses.

Import Bridge Trace Observe Sample.

Lemma pty_never_killed_beside_ssh_witness :
  sshClient (Node.session_after [hs_device; hs_linux]) = Some 0
  /\ (kills (snd (Node.run (Node.session_after [hs_device; hs_linux])
                    [WsError (lit "read ECONNRESET"); WsClosed])) = 0
      /\ exists c',
           sshClient
             (fst (Node.run (Node.session_after [hs_device; hs_linux])
                     [WsError (lit "read ECONNRESET"); WsClosed]))
           = Some c').
Proof.
  split; [reflexivity|].
  exact (pty_never_killed_beside_ssh Utf8.decode Json.parse
           Node.TypeError_message Node.NotAFunction_message
           Node.pty_spawn Node.ssh_connect
           (Node.session_after [hs_device; hs_linux]) 0
           [WsError (lit "read ECONNRESET"); WsClosed] eq_refl).
Defined.

Lemma relay_entered_only_by_witness :
  relaying init = false
  /\ relaying (fst (Node.step init hs_linux)) = true
  /\ ((exists message p, hs_linux = WsMessage message
                         /\ dockerProcess (fst (Node.step init hs_linux))
                            = Some p)
      \/ (exists st, hs_linux = ShellCallback None
                     /\ sshStream (fst (Node.step init hs_linux)) = Some st)).
Proof.
  assert (H : relaying (fst (Node.step init hs_linux)) = true)
    by (vm_compute; reflexivity).
  split; [reflexivity|]. split; [exact H|].
  exact (relay_entered_only_by Utf8.decode Json.parse Node.TypeError_message Node.NotAFunction_message Node.pty_spawn Node.ssh_connect
           init hs_linux eq_refl H).
Defined.

Lemma relay_left_only_by_witness :
  relaying device_session = true
  /\ relaying (fst (Node.step device_session (StreamClose 1))) = false
  /\ ((exists st, StreamClose 1 = StreamClose st)
      /\ dockerProcess device_session = None).
Proof.
  assert (H : relaying (fst (Node.step device_session (StreamClose 1)))
              = false) by (vm_compute; reflexivity).
  split; [reflexivity|]. split; [exact H|].
  exact (relay_left_only_by Utf8.decode Json.parse Node.TypeError_message Node.NotAFunction_message Node.pty_spawn Node.ssh_connect
           device_session (StreamClose 1) eq_refl H).
Defined.

Lemma handshake_ignores_username_witness :
  relaying init = false
  /\ Json.parse (Utf8.decode user_payload_1) = inr user_data_1
  /\ Json.parse (Utf8.decode user_payload_2) = inr user_data_2
  /\ nullish user_data_1 = false /\ nullish user_data_2 = false
  /\ field user_data_1 "nodeKind" = field user_data_2 "nodeKind"
  /\ field user_data_1 "nodeName" = field user_data_2 "nodeName"
  /\ field user_data_1 "nodeIp" = field user_data_2 "nodeIp"
  /\ field user_data_1 "cols" = field user_data_2 "cols"
  /\ field user_data_1 "rows" = field user_data_2 "rows"
  /\ Node.step init (WsMessage user_payload_1)
     = Node.step init (WsMessage user_payload_2).
Proof.
  assert (P1 : Json.parse (Utf8.decode user_payload_1) = inr user_data_1)
    by (vm_compute; reflexivity).
  assert (P2 : Json.parse (Utf8.decode user_payload_2) = inr user_data_2)
    by (vm_compute; reflexivity).
  split; [reflexivity|]. split; [exact P1|]. split; [exact P2|].
  split; [reflexivity|]. split; [reflexivity|]. split; [reflexivity|].
  split; [reflexivity|]. split; [reflexivity|]. split; [reflexivity|].
  split; [reflexivity|].
  exact (handshake_ignores_username Utf8.decode Json.parse
           Node.TypeError_message Node.NotAFunction_message
           Node.pty_spawn Node.ssh_connect init user_payload_1 user_payload_2
           user_data_1 user_data_2 eq_refl P1 P2 eq_refl eq_refl
           eq_refl eq_refl eq_refl eq_refl eq_refl).
Defined.


Lemma sshClient_set_when_dereferenced_witness :
  reads_sshClient (fst (Node.run init [hs_device])) (SshReady 0) = true
  /\ exists c, sshClient (fst (Node.run init [hs_device])) = Some c.
Proof.
  split; [reflexivity|].
  exact (sshClient_set_when_dereferenced Utf8.decode Json.parse
           Node.TypeError_message Node.NotAFunction_message
           Node.pty_spawn Node.ssh_connect [hs_device] (SshReady 0) eq_refl).
Defined.

(** The two geometries on the reference runtime: 132 columns as a number
    are taken, 120 columns as a text make pty.spawn throw. *)
Example pty_takes_numbers :
  Node.step init (WsMessage user_payload_1)
  = (spawned init,
     [PtySpawn 0 (lit "docker") (docker_args (JStr (lit "r1")))
        {| pty_name := lit "xterm-256color"; pty_cols := JNum 132;
           pty_rows := JNum 24 |}]).
Proof. vm_compute. reflexivity. Qed.

Example pty_refuses_text :
  Json.parse (Utf8.decode text_cols_payload) = inr text_cols_data
  /\ exists e, Node.step init (WsMessage text_cols_payload)
               = (init, [WsSend (error_notice e)]).
Proof.
  split; [vm_compute; reflexivity|].
  exists (lit "cols must be a number (not a string)"). vm_compute. reflexivity.
Qed.

(** The 'authenticationRequired' callback with no methods ends the process:
    the call of the missing method is not caught, and no event of the
    connection is delivered after it. *)
Example authentication_required_is_fatal :
  Bridge.fatal Utf8.decode Json.parse Node.TypeError_message
    Node.NotAFunction_message Node.pty_spawn Node.ssh_connect
    (Node.session_after [hs_device]) (AuthenticationRequired 0 None) = true
  /\ Node.effects_of [hs_device; AuthenticationRequired 0 None; WsClosed]
     = [SshConnect 0 (device_config (JStr (lit "10.0.0.5")));
        SetTimeout 0 10000].
Proof. split; vm_compute; reflexivity. Qed.

End InvariantWitnesses.

(* ===================================================================== *)
(** ** [resolvePath] *)
(* ===================================================================== *)

Section PathFacts.

Import Str Path.

Lemma split_nonempty sep s : split sep s <> [].
Proof.
  destruct s as [|c r]; simpl; [discriminate|].
  destruct (N.eqb c sep); [discriminate|].
  destruct (split sep r); discriminate.
Qed.

Lemma join_split sep s : join [sep] (split sep s) = s.
Proof.
  induction s as [|c r IH]; [reflexivity|]. simpl split.
  destruct (N.eqb_spec c sep) as [->|Hc].
  - pose proof (split_nonempty sep r) as Hn.
    simpl. destruct (split sep r) eqn:E; [contradiction|].
    rewrite IH. reflexivity.
  - pose proof (split_nonempty sep r) as Hn.
    destruct (split sep r) as [|x xs] eqn:E; [contradiction|].
    simpl in IH |- *. destruct xs; rewrite <- IH; reflexivity.
Qed.

Lemma split_app sep a b :
  split sep (a ++ sep :: b) = split sep a ++ split sep b.
Proof.
  induction a as [|c a IH]; simpl.
  - now rewrite N.eqb_refl.
  - destruct (N.eqb c sep); [now rewrite IH|].
    rewrite IH.
    pose proof (split_nonempty sep a) as Hn.
    destruct (split sep a); [contradiction|]. reflexivity.
Qed.

Lemma split_no_sep sep s : Forall (fun part => ~ In sep part) (split sep s).
Proof.
  induction s as [|c r IH]; simpl.
  - constructor; [intros []|constructor].
  - destruct (N.eqb_spec c sep) as [->|Hc].
    + constructor; [intros []|exact IH].
    + destruct (split sep r) as [|x xs]; [repeat constructor; intros [H|[]]; congruence|].
      inversion IH; subst. constructor; [|assumption].
      intros [H|H]; [congruence|contradiction].
Qed.

Lemma split_part sep part : ~ In sep part -> split sep part = [part].
Proof.
  induction part as [|c r IH]; simpl; intros H; [reflexivity|].
  destruct (N.eqb_spec c sep) as [->|Hc]; [exfalso; apply H; now left|].
  rewrite IH by (intros Hr; apply H; now right). reflexivity.
Qed.

Lemma split_join sep parts :
  parts <> [] -> Forall (fun part => ~ In sep part) parts ->
  split sep (join [sep] parts) = parts.
Proof.
  induction parts as [|x rest IH]; intros Hn Hf; [contradiction|].
  inversion Hf; subst. destruct rest as [|y rest'].
  - simpl. now apply split_part.
  - change (join [sep] (x :: y :: rest')) with (x ++ sep :: join [sep] (y :: rest')).
    rewrite split_app, split_part by assumption.
    rewrite IH by (assumption || discriminate). reflexivity.
Qed.

Lemma join_app sep l1 l2 :
  l1 <> [] -> l2 <> [] ->
  join sep (l1 ++ l2) = join sep l1 ++ sep ++ join sep l2.
Proof.
  induction l1 as [|x rest IH]; intros H1 H2; [contradiction|].
  destruct rest as [|y rest'].
  - simpl. destruct l2; [contradiction|reflexivity].
  - change (join sep ((x :: y :: rest') ++ l2))
      with (x ++ sep ++ join sep ((y :: rest') ++ l2)).
    rewrite IH by (assumption || discriminate).
    simpl. now rewrite <- !app_assoc.
Qed.

Lemma visit_plain stack parts :
  forallb plain parts = true -> fold_left visit parts stack = stack ++ parts.
Proof.
  revert stack; induction parts as [|x parts IH]; intros stack H; simpl.
  - now rewrite app_nil_r.
  - simpl in H. apply andb_prop in H. destruct H as [Hx Hp].
    unfold plain in Hx. apply andb_prop in Hx. destruct Hx as [H1 H2].
    unfold visit at 2. apply negb_true_iff in H1. rewrite H1, H2.
    rewrite IH by assumption. now rewrite <- app_assoc.
Qed.

Lemma visit_not_up stack parts :
  forallb not_up parts = true ->
  fold_left visit parts stack = stack ++ kept parts.
Proof.
  revert stack; induction parts as [|x parts IH]; intros stack H; simpl.
  - now rewrite app_nil_r.
  - simpl in H. apply andb_prop in H. destruct H as [Hx Hp].
    unfold not_up in Hx. apply negb_true_iff in Hx.
    unfold visit at 2. rewrite Hx.
    destruct (negb (str_eqb x (lit "."))) eqn:E; simpl.
    + rewrite IH by assumption. now rewrite <- app_assoc.
    + now rewrite IH.
Qed.



Lemma join_cons_below y l : join (lit "/") (y :: l) = y ++ below l.
Proof.
  revert y; induction l as [|z l IH]; intros y.
  - simpl. now rewrite app_nil_r.
  - change (join (lit "/") (y :: z :: l))
      with (y ++ lit "/" ++ join (lit "/") (z :: l)).
    rewrite IH. reflexivity.
Qed.

Lemma join_below l1 l2 :
  l1 <> [] -> join (lit "/") (l1 ++ l2) = join (lit "/") l1 ++ below l2.
Proof.
  intros H1. destruct l2 as [|y l2]; [now rewrite !app_nil_r|].
  rewrite join_app by (assumption || discriminate).
  now rewrite join_cons_below.
Qed.

(** X7: a relative path with no ['.'] and no ['..'] segment is appended to
    the base after a ['/'], as it is: an empty segment (a doubled or a
    trailing slash, or the empty path) is kept, so that the empty path
    resolves to the base followed by ['/']. *)
Theorem resolvePath_plain rel base :
  starts_with (lit "/") rel = false ->
  forallb plain (split slash rel) = true ->
  resolvePath rel (Some base) = base ++ lit "/" ++ rel.
Proof.
  intros Hr Hp. unfold resolvePath, segments. rewrite Hr.
  rewrite visit_plain by assumption.
  rewrite join_app by apply split_nonempty.
  change (lit "/") with [slash]. now rewrite !join_split.
Qed.

(** X8: a relative path with no ['..'] segment resolves below the base: the
    result is the base itself followed by the segments of the path other
    than ['.'], each after a ['/']. *)
Theorem resolvePath_stays_below rel base :
  starts_with (lit "/") rel = false ->
  forallb not_up (split slash rel) = true ->
  resolvePath rel (Some base) = base ++ below (kept (split slash rel)).
Proof.
  intros Hr Hp. unfold resolvePath, segments. rewrite Hr.
  rewrite visit_not_up by assumption.
  rewrite join_below by apply split_nonempty.
  change (lit "/") with [slash]. now rewrite join_split.
Qed.

Lemma starts_with_app_slash a b :
  starts_with (lit "/") (a ++ slash :: b) = starts_with (lit "/") a
  \/ a = [].
Proof. destruct a; [now right|now left]. Qed.

Lemma visit_no_slash stack part :
  Forall (fun p => ~ In slash p) stack -> ~ In slash part ->
  Forall (fun p => ~ In slash p) (visit stack part).
Proof.
  intros Hs Hp. unfold visit.
  destruct (str_eqb part (lit "..")).
  - unfold pop. apply Forall_forall. intros x Hx.
    rewrite Forall_forall in Hs. apply Hs.
    clear -Hx. induction stack as [|y st IH]; [contradiction|].
    simpl in Hx. destruct st; [contradiction|].
    destruct Hx as [->|Hx]; [now left|right; now apply IH].
  - destruct (negb (str_eqb part (lit "."))); [|assumption].
    apply Forall_app; split; [assumption|now constructor].
Qed.

Lemma fold_visit_no_slash parts stack :
  Forall (fun p => ~ In slash p) stack ->
  Forall (fun p => ~ In slash p) parts ->
  Forall (fun p => ~ In slash p) (fold_left visit parts stack).
Proof.
  revert stack; induction parts as [|x parts IH]; intros stack Hs Hp; simpl.
  - assumption.
  - inversion Hp; subst. apply IH; [now apply visit_no_slash|assumption].
Qed.

(** X9: resolving composes.  For relative paths a and b, a not empty,
    resolving a/b against a base is resolving b against the resolution of
    a, as long as a does not pop every segment of the base. *)
Theorem resolvePath_compose a b base :
  starts_with (lit "/") a = false -> a <> [] ->
  starts_with (lit "/") b = false ->
  segments a base <> [] ->
  resolvePath (a ++ lit "/" ++ b) (Some base)
  = resolvePath b (Some (resolvePath a (Some base))).
Proof.
  intros Ha Hne Hb Hs. unfold resolvePath.
  assert (Hab : starts_with (lit "/") (a ++ lit "/" ++ b) = false).
  { destruct a; [contradiction|exact Ha]. }
  rewrite Hab, Ha, Hb. f_equal. unfold segments in *.
  change (a ++ lit "/" ++ b) with (a ++ slash :: b).
  rewrite split_app, fold_left_app.
  change (lit "/") with [slash]. rewrite split_join; [reflexivity|assumption|].
  apply fold_visit_no_slash; apply split_no_sep.
Qed.

Lemma visit_plain_stack stack part :
  forallb plain stack = true -> forallb plain (visit stack part) = true.
Proof.
  intros Hs. unfold visit.
  destruct (str_eqb part (lit "..")) eqn:E1.
  - unfold pop. clear -Hs. induction stack as [|y st IH]; [reflexivity|].
    simpl in Hs |- *. apply andb_prop in Hs. destruct Hs as [Hy Hs].
    destruct st; [reflexivity|]. simpl. rewrite Hy. now apply IH.
  - destruct (str_eqb part (lit ".")) eqn:E2; simpl; [assumption|].
    rewrite forallb_app, Hs. simpl. unfold plain. now rewrite E1, E2.
Qed.

Lemma fold_visit_plain parts stack :
  forallb plain stack = true ->
  forallb plain (fold_left visit parts stack) = true.
Proof.
  revert stack; induction parts as [|x parts IH]; intros stack Hs; simpl;
    [assumption|]. apply IH. now apply visit_plain_stack.
Qed.

(** X10: the resolution of a relative path against a base that has no
    ['.'] and no ['..'] segment has none either: every ['..'] has been
    applied and every ['.'] dropped. *)
Theorem resolvePath_normal rel base :
  starts_with (lit "/") rel = false ->
  forallb plain (split slash base) = true ->
  forallb plain (split slash (resolvePath rel (Some base))) = true.
Proof.
  intros Hr Hb. unfold resolvePath. rewrite Hr.
  pose proof (fold_visit_plain (split slash rel) _ Hb) as Hp.
  fold (segments rel base) in Hp.
  destruct (segments rel base) as [|x st] eqn:E; [reflexivity|].
  change (lit "/") with [slash]. rewrite split_join; [assumption|discriminate|].
  rewrite <- E. unfold segments.
  apply fold_visit_no_slash; apply split_no_sep.
Qed.

Lemma split_ups n x :
  split slash (ups n ++ x) = repeat (lit "..") n ++ split slash x.
Proof.
  induction n as [|n IH]; [reflexivity|].
  change (ups (S n) ++ x) with (lit ".." ++ slash :: (ups n ++ x)).
  rewrite split_app, IH. reflexivity.
Qed.

Lemma length_pop (stack : list JsString) :
  length (pop stack) = Nat.pred (length stack).
Proof.
  unfold pop. induction stack as [|y st IH]; [reflexivity|].
  destruct st as [|z st]; [reflexivity|].
  change (removelast (y :: z :: st)) with (y :: removelast (z :: st)).
  simpl length in *. now rewrite IH.
Qed.

Lemma visit_ups n stack :
  length stack <= n -> fold_left visit (repeat (lit "..") n) stack = [].
Proof.
  revert stack; induction n as [|n IH]; intros stack H; simpl.
  - destruct stack; [reflexivity|simpl in H; lia].
  - apply IH. change (visit stack (lit "..")) with (pop stack).
    rewrite length_pop. lia.
Qed.

(** X11: climbing above the root is not an error.  When a relative path
    starts with at least as many ['../'] as the base has segments, the base
    is discarded altogether and what follows, when it has no ['.'] and no
    ['..'] segment, is returned as it is: a relative path, not one below the
    base. *)
Theorem resolvePath_above_root n x base :
  length (split slash base) <= n ->
  forallb plain (split slash x) = true ->
  resolvePath (ups n ++ x) (Some base) = x.
Proof.
  intros Hn Hx. unfold resolvePath, segments.
  assert (Hr : starts_with (lit "/") (ups n ++ x) = false).
  { destruct n; [|reflexivity].
    pose proof (split_nonempty slash base). destruct (split slash base);
      [contradiction|simpl in Hn; lia]. }
  rewrite Hr, split_ups, fold_left_app, visit_ups by assumption.
  rewrite visit_plain by assumption. simpl app.
  change (lit "/") with [slash]. apply join_split.
Qed.

Lemma resolvePath_plain_witness :
  starts_with (lit "/") (lit "labs/demo/topo.yaml") = false
  /\ forallb plain (split slash (lit "labs/demo/topo.yaml")) = true
  /\ resolvePath (lit "labs/demo/topo.yaml") (Some (lit "/opt"))
     = lit "/opt" ++ lit "/" ++ lit "labs/demo/topo.yaml".
Proof.
  split; [reflexivity|]. split; [reflexivity|].
  exact (resolvePath_plain (lit "labs/demo/topo.yaml") (lit "/opt")
           eq_refl eq_refl).
Defined.

Lemma resolvePath_stays_below_witness :
  starts_with (lit "/") (lit "./labs/./topo.yaml") = false
  /\ forallb not_up (split slash (lit "./labs/./topo.yaml")) = true
  /\ resolvePath (lit "./labs/./topo.yaml") (Some (lit "/opt"))
     = lit "/opt" ++ below (kept (split slash (lit "./labs/./topo.yaml"))).
Proof.
  split; [reflexivity|]. split; [reflexivity|].
  exact (resolvePath_stays_below (lit "./labs/./topo.yaml") (lit "/opt")
           eq_refl eq_refl).
Defined.

Lemma resolvePath_compose_witness :
  starts_with (lit "/") (lit "labs/..") = false
  /\ lit "labs/.." <> []
  /\ starts_with (lit "/") (lit "../etc") = false
  /\ segments (lit "labs/..") (lit "/opt") <> []
  /\ resolvePath (lit "labs/.." ++ lit "/" ++ lit "../etc") (Some (lit "/opt"))
     = resolvePath (lit "../etc")
         (Some (resolvePath (lit "labs/..") (Some (lit "/opt")))).
Proof.
  assert (H1 : lit "labs/.." <> []) by discriminate.
  assert (H2 : segments (lit "labs/..") (lit "/opt") <> [])
    by (vm_compute; discriminate).
  split; [reflexivity|]. split; [exact H1|]. split; [reflexivity|].
  split; [exact H2|].
  exact (resolvePath_compose (lit "labs/..") (lit "../etc") (lit "/opt")
           eq_refl H1 eq_refl H2).
Defined.

Lemma resolvePath_normal_witness :
  starts_with (lit "/") (lit "a/./b/../c") = false
  /\ forallb plain (split slash (lit "/opt")) = true
  /\ forallb plain
       (split slash (resolvePath (lit "a/./b/../c") (Some (lit "/opt"))))
     = true.
Proof.
  split; [reflexivity|]. split; [reflexivity|].
  exact (resolvePath_normal (lit "a/./b/../c") (lit "/opt") eq_refl eq_refl).
Defined.

Lemma resolvePath_above_root_witness :
  length (split slash (lit "/opt")) <= 2
  /\ forallb plain (split slash (lit "etc/passwd")) = true
  /\ resolvePath (ups 2 ++ lit "etc/passwd") (Some (lit "/opt"))
     = lit "etc/passwd".
Proof.
  assert (H : length (split slash (lit "/opt")) <= 2) by (vm_compute; lia).
  split; [exact H|]. split; [reflexivity|].
  exact (resolvePath_above_root 2 (lit "etc/passwd") (lit "/opt") H eq_refl).
Defined.

End PathFacts.

(* ===================================================================== *)
(** ** The inspect route *)
(* ===================================================================== *)

Section InspectFacts.

Import Str Path Inspect.

Variable JSON_parse : JsString -> JsString + JsVal.
Variable message_of : Failure -> JsString.

Lemma str_eqb_refl a : str_eqb a a = true.
Proof. now destruct (str_eqb_spec a a). Qed.

Lemma str_eqb_sym a b : str_eqb a b = str_eqb b a.
Proof.
  destruct (str_eqb_spec a b) as [->|H]; [now rewrite str_eqb_refl|].
  destruct (str_eqb_spec b a) as [->|_]; [contradiction|reflexivity].
Qed.

Lemma lookup_set k v fields : lookup k (Json.set k v fields) = v.
Proof.
  induction fields as [|[k' v'] rest IH]; simpl.
  - now rewrite str_eqb_refl.
  - destruct (str_eqb k k') eqn:E; simpl; rewrite E; [reflexivity|exact IH].
Qed.

Lemma each_app labs cs1 cs2 :
  each labs (cs1 ++ cs2)
  = match each labs cs1 with
    | inl failure => inl failure
    | inr labs' => each labs' cs2
    end.
Proof.
  revert labs; induction cs1 as [|c cs1 IH]; intros labs; simpl;
    [reflexivity|].
  destruct (visit labs c); [reflexivity|apply IH].
Qed.

Lemma has_clean k labs : clean labs = true -> has k labs = true -> inherited k = false.
Proof.
  unfold clean, has. induction labs as [|l labs IH]; simpl; [discriminate|].
  intros Hc Hh. apply andb_prop in Hc. destruct Hc as [Hl Hc].
  apply orb_prop in Hh. destruct Hh as [Hh|Hh]; [|now apply IH].
  destruct (str_eqb_spec k (labPath l)) as [->|]; [|discriminate].
  now apply negb_true_iff.
Qed.

Lemma visit_ok labs c full :
  clean labs = true -> path_of c = Some full ->
  visit labs c = inr (add c full labs).
Proof.
  intros Hc Hp. destruct c; try discriminate.
  assert (Hn : node_of (JObj fields) = with_labPath fields full)
    by (unfold node_of; now rewrite Hp).
  unfold add, new_lab, name_of, owner_of. rewrite Hn. clear Hn.
  unfold path_of in Hp. unfold visit.
  destruct (lookup (lit "labPath") fields); try discriminate.
  destruct (inherited (resolvePath s None)) eqn:Ei; [discriminate|].
  injection Hp as <-. cbv zeta.
  destruct (has (resolvePath s None) labs); reflexivity.
Qed.

Lemma visit_fail labs c :
  clean labs = true -> path_of c = None -> exists f, visit labs c = inl f.
Proof.
  intros Hc Hp. unfold path_of in Hp. destruct c; simpl; eauto.
  destruct (lookup (lit "labPath") fields); eauto.
  destruct (inherited (resolvePath s None)) eqn:Ei; [|discriminate].
  cbv zeta. destruct (has (resolvePath s None) labs) eqn:Eh.
  - rewrite (has_clean _ _ Hc Eh) in Ei. discriminate.
  - eauto.
Qed.

Lemma path_not_inherited c full : path_of c = Some full -> inherited full = false.
Proof.
  unfold path_of. destruct c; try discriminate.
  destruct (lookup (lit "labPath") fields); try discriminate.
  destruct (inherited (resolvePath s None)) eqn:E; [discriminate|].
  now intros [= <-].
Qed.

Lemma push_node_paths k n labs :
  map labPath (push_node k n labs) = map labPath labs.
Proof.
  induction labs as [|l labs IH]; simpl; [reflexivity|].
  destruct (str_eqb k (labPath l)); simpl; [reflexivity|now rewrite IH].
Qed.

Lemma has_paths k labs : has k labs = existsb (str_eqb k) (map labPath labs).
Proof. unfold has. induction labs; simpl; [reflexivity|now rewrite IHlabs]. Qed.

Lemma clean_paths labs :
  clean labs = forallb (fun k => negb (inherited k)) (map labPath labs).
Proof. unfold clean. induction labs; simpl; [reflexivity|now rewrite IHlabs]. Qed.

Lemma add_clean c full labs :
  clean labs = true -> path_of c = Some full -> clean (add c full labs) = true.
Proof.
  intros Hc Hp. rewrite clean_paths in *. unfold add.
  destruct (has full labs).
  - now rewrite push_node_paths.
  - rewrite map_app, forallb_app, Hc. simpl.
    now rewrite (path_not_inherited _ _ Hp).
Qed.

(** first_paths *)
Lemma first_paths_snoc cs c :
  first_paths (cs ++ [c])
  = match path_of c with
    | Some full => if existsb (str_eqb full) (first_paths cs) then first_paths cs
                   else first_paths cs ++ [full]
    | None => first_paths cs
    end.
Proof. unfold first_paths. now rewrite fold_left_app. Qed.

Lemma existsb_str_In k l : existsb (str_eqb k) l = true <-> In k l.
Proof.
  rewrite existsb_exists. split.
  - intros [x [Hx He]]. destruct (str_eqb_spec k x); [now subst|discriminate].
  - intros H. exists k. split; [assumption|apply str_eqb_refl].
Qed.

Lemma first_paths_NoDup cs : NoDup (first_paths cs).
Proof.
  induction cs as [|c cs IH] using rev_ind; [constructor|].
  rewrite first_paths_snoc. destruct (path_of c) as [full|]; [|assumption].
  destruct (existsb (str_eqb full) (first_paths cs)) eqn:E; [assumption|].
  apply NoDup_app; [assumption|repeat constructor; intros []|].
  - intros x Hx [<-|[]]. apply existsb_str_In in Hx. congruence.
Qed.

Lemma first_paths_In cs k :
  In k (first_paths cs) <-> existsb (at_path k) cs = true.
Proof.
  induction cs as [|c cs IH] using rev_ind; [simpl; split; [intros []|discriminate]|].
  rewrite first_paths_snoc, existsb_app. simpl. rewrite orb_false_r.
  unfold at_path at 2. destruct (path_of c) as [full|].
  - destruct (existsb (str_eqb full) (first_paths cs)) eqn:E.
    + rewrite IH. split; [intros ->; reflexivity|].
      intros H. apply orb_prop in H. destruct H as [H|H]; [assumption|].
      destruct (str_eqb_spec full k); [subst|discriminate].
      apply IH. now apply existsb_str_In.
    + rewrite in_app_iff, IH. simpl. split.
      * intros [->|[<-|[]]]; [reflexivity|]. rewrite str_eqb_refl. apply orb_true_r.
      * intros H. apply orb_prop in H. destruct H as [H|H]; [now left|].
        destruct (str_eqb_spec full k); [subst; right; now left|discriminate].
  - rewrite orb_false_r. exact IH.
Qed.

Lemma lab_for_snoc_other cs c k :
  at_path k c = false -> existsb (at_path k) cs = true ->
  lab_for (cs ++ [c]) k = lab_for cs k.
Proof.
  intros Hc He. unfold lab_for. rewrite filter_app. simpl. rewrite Hc, app_nil_r.
  assert (Hf : find (at_path k) (cs ++ [c]) = find (at_path k) cs).
  { clear -He. induction cs as [|x cs IH]; simpl in *; [discriminate|].
    destruct (at_path k x); [reflexivity|]. now apply IH. }
  now rewrite Hf.
Qed.

Lemma lab_for_snoc_same cs c k :
  at_path k c = true -> existsb (at_path k) cs = true ->
  lab_for (cs ++ [c]) k
  = {| labPath := k; lab_name := lab_name (lab_for cs k);
       lab_owner := lab_owner (lab_for cs k);
       nodes := nodes (lab_for cs k) ++ [node_of c] |}.
Proof.
  intros Hc He. unfold lab_for. rewrite filter_app. simpl. rewrite Hc, map_app.
  assert (Hf : find (at_path k) (cs ++ [c]) = find (at_path k) cs).
  { clear -He. induction cs as [|x cs IH]; simpl in *; [discriminate|].
    destruct (at_path k x); [reflexivity|]. now apply IH. }
  now rewrite Hf.
Qed.

Lemma lab_for_snoc_new cs c k :
  at_path k c = true -> existsb (at_path k) cs = false ->
  lab_for (cs ++ [c]) k = new_lab c k.
Proof.
  intros Hc He. unfold lab_for, new_lab. rewrite filter_app. simpl. rewrite Hc.
  assert (Hf : filter (at_path k) cs = []).
  { clear -He. induction cs as [|x cs IH]; simpl in *; [reflexivity|].
    apply orb_false_iff in He. destruct He as [-> He]. now apply IH. }
  assert (Hg : find (at_path k) (cs ++ [c]) = Some c).
  { clear -He Hc. induction cs as [|x cs IH]; simpl in *; [now rewrite Hc|].
    apply orb_false_iff in He. destruct He as [-> He]. now apply IH. }
  now rewrite Hf, Hg.
Qed.

Lemma at_path_iff k c : at_path k c = true <-> path_of c = Some k.
Proof.
  unfold at_path. destruct (path_of c) as [full|]; [|split; discriminate].
  destruct (str_eqb_spec full k); split; congruence.
Qed.

Lemma push_node_map cs c full ks :
  path_of c = Some full -> NoDup ks ->
  (forall k, In k ks -> existsb (at_path k) cs = true) ->
  push_node full (node_of c) (map (lab_for cs) ks)
  = map (lab_for (cs ++ [c])) ks.
Proof.
  intros Hp Hn Hk. induction ks as [|k ks IH]; [reflexivity|].
  inversion Hn; subst. simpl.
  destruct (str_eqb_spec full k) as [->|Hne].
  - rewrite lab_for_snoc_same by (try apply at_path_iff; auto with datatypes).
    f_equal.
    apply map_ext_in. intros k' Hk'. symmetry. apply lab_for_snoc_other.
    + destruct (at_path k' c) eqn:E; [|reflexivity].
      apply at_path_iff in E. congruence.
    + apply Hk. now right.
  - rewrite IH by (auto with datatypes). f_equal.
    symmetry. apply lab_for_snoc_other; [|apply Hk; now left].
    destruct (at_path k c) eqn:E; [|reflexivity].
    apply at_path_iff in E. congruence.
Qed.

Lemma each_accepted cs :
  forallb accepted cs = true ->
  each [] cs = inr (map (lab_for cs) (first_paths cs)).
Proof.
  induction cs as [|c cs IH] using rev_ind; intros H; [reflexivity|].
  rewrite forallb_app in H. apply andb_prop in H. destruct H as [Hcs Hc].
  simpl in Hc. rewrite andb_true_r in Hc. unfold accepted in Hc.
  destruct (path_of c) as [full|] eqn:Hp; [clear Hc|discriminate].
  rewrite each_app, (IH Hcs). simpl.
  assert (Hclean : clean (map (lab_for cs) (first_paths cs)) = true).
  { rewrite clean_paths, map_map. simpl. rewrite map_id.
    apply forallb_forall. intros k Hk. apply first_paths_In in Hk.
    apply existsb_exists in Hk. destruct Hk as [x [_ Hx]].
    apply at_path_iff in Hx. now rewrite (path_not_inherited _ _ Hx). }
  rewrite (visit_ok _ _ _ Hclean Hp). f_equal.
  unfold add. rewrite has_paths, map_map. simpl. rewrite map_id.
  rewrite first_paths_snoc, Hp.
  destruct (existsb (str_eqb full) (first_paths cs)) eqn:E.
  - apply push_node_map; [assumption|apply first_paths_NoDup|].
    intros k Hk. now apply first_paths_In.
  - rewrite map_app. simpl. f_equal.
    + apply map_ext_in. intros k Hk. symmetry. apply lab_for_snoc_other.
      * destruct (at_path k c) eqn:Ek; [|reflexivity]. apply at_path_iff in Ek.
        assert (k = full) by congruence. subst.
        apply existsb_str_In in Hk. congruence.
      * now apply first_paths_In.
    + f_equal. symmetry. apply lab_for_snoc_new; [now apply at_path_iff|].
      destruct (existsb (at_path full) cs) eqn:Ex; [|reflexivity].
      apply first_paths_In in Ex. apply existsb_str_In in Ex. congruence.
Qed.


Local Abbreviation inspect := (Inspect.inspect JSON_parse message_of).

Lemma topologies_accepted stdout fields cs :
  JSON_parse stdout = inr (JObj fields) ->
  lookup (lit "containers") fields = JArr cs ->
  topologies JSON_parse stdout = each [] cs.
Proof. intros Hp Hc. unfold topologies. now rewrite Hp, Hc. Qed.

(** X12: the answer of the inspect route.  When every container of the
    output is an object with a string labPath (whose resolution is not the
    name of an inherited property of objects), the route answers with one
    topology per distinct resolved path, in the order in which the paths
    first occur; a topology carries the lab name and the owner of the first
    container at its path, and as nodes the containers at that path, in
    their order, each with its labPath replaced by the resolved one. *)
Theorem inspect_groups_by_path stdout fields cs :
  JSON_parse stdout = inr (JObj fields) ->
  lookup (lit "containers") fields = JArr cs ->
  forallb accepted cs = true ->
  inspect (inr stdout)
  = Respond 200 (JArr (map lab_value (map (lab_for cs) (first_paths cs))))
  /\ NoDup (first_paths cs).
Proof.
  intros Hp Hc Ha. split; [|apply first_paths_NoDup].
  unfold Inspect.inspect.
  rewrite (topologies_accepted _ _ _ Hp Hc), (each_accepted _ Ha).
  reflexivity.
Qed.

Lemma push_node_perm k n labs :
  has k labs = true ->
  Permutation (flat_map nodes (push_node k n labs))
              (flat_map nodes labs ++ [n]).
Proof.
  unfold has. induction labs as [|l labs IH]; simpl; [discriminate|].
  destruct (str_eqb k (labPath l)); simpl; intros H.
  - rewrite <- !app_assoc. apply Permutation_app_head.
    apply Permutation_app_comm.
  - rewrite <- app_assoc. apply Permutation_app_head. now apply IH.
Qed.

Lemma add_perm c full labs :
  Permutation (flat_map nodes (add c full labs))
              (flat_map nodes labs ++ [node_of c]).
Proof.
  unfold add. destruct (has full labs) eqn:E.
  - now apply push_node_perm.
  - rewrite flat_map_app. reflexivity.
Qed.

Lemma each_perm cs labs labs' :
  clean labs = true -> each labs cs = inr labs' ->
  Permutation (flat_map nodes labs') (flat_map nodes labs ++ map node_of cs).
Proof.
  revert labs; induction cs as [|c cs IH]; intros labs Hc H; simpl in *.
  - injection H as <-. now rewrite app_nil_r.
  - destruct (path_of c) as [full|] eqn:Hp.
    + rewrite (visit_ok _ _ _ Hc Hp) in H.
      rewrite (IH _ (add_clean _ _ _ Hc Hp) H).
      rewrite (add_perm c full labs), <- app_assoc. reflexivity.
    + destruct (visit_fail _ _ Hc Hp) as [f Hf]. rewrite Hf in H.
      discriminate.
Qed.

Lemma node_of_labPath c k :
  path_of c = Some k -> Js.get (node_of c) (lit "labPath") = Some (JStr k).
Proof.
  intros Hp. destruct c; try discriminate.
  unfold node_of. rewrite Hp.
  unfold with_labPath. simpl. now rewrite lookup_set.
Qed.

(** X13: every container is listed exactly once.  In a 200 answer of the
    inspect route the nodes of all topologies together are the containers of
    the output (each with its resolved labPath), none lost and none twice,
    and every node carries the labPath of the topology it is listed under. *)
Theorem inspect_lists_each_container_once stdout fields cs :
  JSON_parse stdout = inr (JObj fields) ->
  lookup (lit "containers") fields = JArr cs ->
  forallb accepted cs = true ->
  exists labs,
    inspect (inr stdout) = Respond 200 (JArr (map lab_value labs))
    /\ Permutation (flat_map nodes labs) (map node_of cs)
    /\ length (flat_map nodes labs) = length cs
    /\ forall l n, In l labs -> In n (nodes l) ->
         Js.get n (lit "labPath") = Some (JStr (labPath l)).
Proof.
  intros Hp Hc Ha. exists (map (lab_for cs) (first_paths cs)).
  destruct (inspect_groups_by_path _ _ _ Hp Hc Ha) as [Hi _].
  pose proof (each_perm cs [] _ eq_refl (each_accepted _ Ha)) as Hperm.
  simpl in Hperm. repeat split; [exact Hi|exact Hperm| |].
  - rewrite (Permutation_length Hperm). apply length_map.
  - intros l n Hl Hn. apply in_map_iff in Hl. destruct Hl as [k [<- Hk]].
    simpl in Hn |- *. apply in_map_iff in Hn. destruct Hn as [c [<- Hc']].
    apply filter_In in Hc'. destruct Hc' as [_ Hat].
    apply node_of_labPath. now apply at_path_iff.
Qed.

Lemma each_rejected cs labs :
  clean labs = true -> forallb accepted cs = false ->
  exists failure, each labs cs = inl failure.
Proof.
  revert labs; induction cs as [|c cs IH]; intros labs Hc H; simpl in *;
    [discriminate|].
  unfold accepted in H at 1. destruct (path_of c) as [full|] eqn:Hp.
  - rewrite (visit_ok _ _ _ Hc Hp). apply IH; [|exact H].
    now apply add_clean.
  - destruct (visit_fail _ _ Hc Hp) as [f ->]. eauto.
Qed.

(** X14: one bad container fails the whole answer.  When the output parses
    but some container is not an object with a string labPath (or its path
    resolves to the name of an inherited property), the route answers 500
    with the error 'Failed to parse JSON output' and the raw output; the
    topologies collected up to that container are dropped. *)
Theorem inspect_all_or_nothing stdout fields cs :
  JSON_parse stdout = inr (JObj fields) ->
  lookup (lit "containers") fields = JArr cs ->
  forallb accepted cs = false ->
  exists failure,
    inspect (inr stdout)
    = Respond 500
        (JObj [(lit "error", JStr (lit "Failed to parse JSON output"));
               (lit "details", JStr (message_of failure));
               (lit "rawOutput", JStr stdout)]).
Proof.
  intros Hp Hc Ha. destruct (each_rejected cs [] eq_refl Ha) as [f Hf].
  exists f. unfold Inspect.inspect.
  now rewrite (topologies_accepted _ _ _ Hp Hc), Hf.
Qed.

End InspectFacts.

Section InspectWitnesses.

Import Inspect.

Lemma inspect_groups_by_path_witness :
  Json.parse sample_stdout
  = inr (JObj [(lit "containers", JArr sample_containers)])
  /\ lookup (lit "containers") [(lit "containers", JArr sample_containers)]
     = JArr sample_containers
  /\ forallb accepted sample_containers = true
  /\ (Inspect.inspect Json.parse sample_message (inr sample_stdout)
      = Respond 200
          (JArr (map lab_value
                   (map (lab_for sample_containers)
                      (first_paths sample_containers))))
      /\ NoDup (first_paths sample_containers)).
Proof.
  assert (Hp : Json.parse sample_stdout
               = inr (JObj [(lit "containers", JArr sample_containers)]))
    by (vm_compute; reflexivity).
  split; [exact Hp|]. split; [reflexivity|]. split; [reflexivity|].
  exact (inspect_groups_by_path Json.parse sample_message sample_stdout
           [(lit "containers", JArr sample_containers)] sample_containers
           Hp eq_refl eq_refl).
Defined.

Lemma inspect_lists_each_container_once_witness :
  Json.parse sample_stdout
  = inr (JObj [(lit "containers", JArr sample_containers)])
  /\ lookup (lit "containers") [(lit "containers", JArr sample_containers)]
     = JArr sample_containers
  /\ forallb accepted sample_containers = true
  /\ exists labs,
       Inspect.inspect Json.parse sample_message (inr sample_stdout)
       = Respond 200 (JArr (map lab_value labs))
       /\ Permutation (flat_map nodes labs) (map node_of sample_containers)
       /\ length (flat_map nodes labs) = length sample_containers
       /\ forall l n, In l labs -> In n (nodes l) ->
            Js.get n (lit "labPath") = Some (JStr (labPath l)).
Proof.
  assert (Hp : Json.parse sample_stdout
               = inr (JObj [(lit "containers", JArr sample_containers)]))
    by (vm_compute; reflexivity).
  split; [exact Hp|]. split; [reflexivity|]. split; [reflexivity|].
  exact (inspect_lists_each_container_once Json.parse sample_message
           sample_stdout [(lit "containers", JArr sample_containers)]
           sample_containers Hp eq_refl eq_refl).
Defined.

Lemma inspect_all_or_nothing_witness :
  Json.parse broken_stdout
  = inr (JObj [(lit "containers", JArr broken_containers)])
  /\ lookup (lit "containers") [(lit "containers", JArr broken_containers)]
     = JArr broken_containers
  /\ forallb accepted broken_containers = false
  /\ exists failure,
       Inspect.inspect Json.parse sample_message (inr broken_stdout)
       = Respond 500
           (JObj [(lit "error", JStr (lit "Failed to parse JSON output"));
                  (lit "details", JStr (sample_message failure));
                  (lit "rawOutput", JStr broken_stdout)]).
Proof.
  assert (Hp : Json.parse broken_stdout
               = inr (JObj [(lit "containers", JArr broken_containers)]))
    by (vm_compute; reflexivity).
  split; [exact Hp|]. split; [reflexivity|]. split; [reflexivity|].
  exact (inspect_all_or_nothing Json.parse sample_message broken_stdout
           [(lit "containers", JArr broken_containers)] broken_containers
           Hp eq_refl eq_refl).
Defined.

Example inspect_sample :
  Inspect.inspect Json.parse sample_message (inr sample_stdout)
  = Respond 200
      (JArr [lab_value
               {| labPath := lit "/opt/lab1/t.yaml";
                  lab_name := JStr (lit "one");
                  lab_owner := JStr (lit "alice");
                  nodes := [node_of (nth 0 sample_containers JNull);
                            node_of (nth 2 sample_containers JNull)] |};
             lab_value
               {| labPath := lit "/srv/lab2/t.yaml";
                  lab_name := JStr (lit "two");
                  lab_owner := JStr (lit "bob");
                  nodes := [node_of (nth 1 sample_containers JNull)] |}]).
Proof. vm_compute. reflexivity. Qed.

End InspectWitnesses.

(* ===================================================================== *)
(** ** The routes that run containerlab and git over SSH *)
(* ===================================================================== *)

Section HttpFacts.

Import Str Path Http.

Variable toString : Utf8.Buffer -> JsString.
Variable ToString : JsVal -> JsString.
Variable TypeError_message : JsString.
Variable ENOENT : JsString -> JsString.
Variable world : World.

Local Abbreviation destroy := (Http.destroy toString TypeError_message world).
Local Abbreviation save := (Http.save toString TypeError_message world).
Local Abbreviation on_upload := (Http.on_upload toString ToString TypeError_message ENOENT world).
Local Abbreviation on_topology := (Http.on_topology toString TypeError_message world).

Local Abbreviation echoed := (Http.echoed toString).
Local Abbreviation lab_dir := (Http.lab_dir ToString).
Local Abbreviation remote_file := (Http.remote_file ToString).
Local Abbreviation user_dir := (Http.user_dir ToString).
Local Abbreviation deploy := (Http.deploy toString ToString TypeError_message ENOENT world).
Local Abbreviation reconfigure := (Http.reconfigure toString ToString TypeError_message ENOENT world).
Local Abbreviation accepted_login := (Http.accepted_login world).
Local Abbreviation clone := (Http.clone toString ToString TypeError_message world).

Lemma deliver_echo cs s :
  headersSent s = true ->
  deliver (echo toString) cs s = (inr tt, s, echoed cs).
Proof.
  revert s; induction cs as [|[err chunk] cs IH]; intros s H; [reflexivity|].
  simpl. unfold bind, echo at 1, send.
  rewrite IH by reflexivity.
  destruct s as [p h]; simpl in *; subst. reflexivity.
Qed.

Lemma deliver_silent cs s : deliver silent cs s = (inr tt, s, []).
Proof.
  revert s; induction cs as [|[err chunk] cs IH]; intros s; [reflexivity|].
  simpl. unfold bind, silent at 1, ret. now rewrite IH.
Qed.

Lemma ssh_exec_echo command cwd s :
  headersSent s = true ->
  ssh_exec world command cwd (echo toString) s
  = (match result (exec world command) with inl e => inl e | inr r => inr r end,
     s, Exec command cwd :: echoed (chunks (exec world command))).
Proof.
  intros H. unfold ssh_exec, bind, emit. rewrite deliver_echo by exact H.
  destruct (result (exec world command)); unfold throw, ret; simpl;
    now rewrite app_nil_r.
Qed.

Lemma ssh_exec_silent command cwd s :
  ssh_exec world command cwd silent s
  = (match result (exec world command) with inl e => inl e | inr r => inr r end,
     s, [Exec command cwd]).
Proof.
  unfold ssh_exec, bind, emit. rewrite deliver_silent.
  destruct (result (exec world command)); reflexivity.
Qed.

Lemma count_echoed f cs :
  f (Write []) = false -> (forall c, f (Write c) = f (Write [])) ->
  count f (echoed cs) = 0.
Proof.
  intros H0 H. unfold count, Http.echoed. induction cs as [|c cs IH]; [reflexivity|].
  simpl. rewrite H, H0. exact IH.
Qed.


Lemma filter_echoed f cs :
  (forall c, f (Write c) = false) -> filter f (echoed cs) = [].
Proof.
  intros H. unfold Http.echoed. induction cs as [|c cs IH]; [reflexivity|].
  simpl. now rewrite H.
Qed.

Ltac route :=
  unfold Http.destroy, Http.save, Http.on_topology, connect_or_end, event_stream_headers,
    report, report_error, server_error, resolve, ssh_connect, prop,
    try_catch, finally, bind, send, emit, read, throw, ret;
  cbv beta iota zeta.

Ltac tally :=
  unfold effects, count; cbn [snd fst];
  repeat (cbn;
          first [rewrite filter_app | rewrite length_app
                | rewrite filter_echoed by reflexivity]);
  cbn.

Ltac split_cases :=
  repeat (cbv beta iota zeta;
          match goal with
          | |- context [match ?x with _ => _ end] =>
              lazymatch x with
              | context [match _ with _ => _ end] => fail
              | _ => destruct x eqn:?
              end
          end).

Lemma on_topology_answers required command action done failed prefix body s :
  let out := effects (on_topology required command action done failed prefix body s) in
  count is_end out = 1
  /\ count is_dispose out = count accepted_login out
  /\ count is_dispose out <= 1.
Proof.
  route.
  destruct (Js.get body (lit "serverIp")) as [ip|]; [|tally; auto].
  destruct (Js.get body (lit "topoFile")) as [topo|]; [|tally; auto].
  destruct (Js.get body (lit "username")) as [user|]; [|tally; auto].
  cbv beta iota zeta.
  destruct (negb (truthy ip) || negb (truthy topo) || negb (truthy user));
    [tally; auto|].
  cbv beta iota zeta.
  destruct (connect world (login ip user 5000)) eqn:Ec;
    [tally; rewrite Ec; auto|].
  cbv beta iota zeta.
  destruct topo; cbv beta iota zeta; try (tally; rewrite Ec; auto).
  rewrite ssh_exec_echo by reflexivity.
  destruct (result (exec world _)) as [e|r]; cbv beta iota zeta.
  - tally. rewrite Ec. auto.
  - destruct (code r) as [[| |]|]; cbv beta iota zeta; tally; rewrite Ec; auto.
Qed.


Lemma commands_echoed cs : commands (echoed cs) = [].
Proof. unfold commands, Http.echoed. induction cs; [reflexivity|exact IHcs]. Qed.

Lemma commands_app o1 o2 : commands (o1 ++ o2) = commands o1 ++ commands o2.
Proof. apply flat_map_app. Qed.

Ltac listing :=
  unfold effects; cbn [snd fst];
  repeat (cbn; first [rewrite commands_app | rewrite commands_echoed]);
  cbn.

Lemma on_topology_command required command action done failed prefix body s
  ip t user :
  Js.get body (lit "serverIp") = Some ip ->
  Js.get body (lit "topoFile") = Some (JStr t) ->
  Js.get body (lit "username") = Some user ->
  truthy ip = true -> t <> [] -> truthy user = true ->
  connect world (login ip user 5000) = None ->
  commands (effects (on_topology required command action done failed prefix body s))
  = [lit command ++ resolvePath t None].
Proof.
  intros Hi Ht Hu Ti Tt Tu Hc. route. rewrite Hi, Ht, Hu. cbv beta iota zeta.
  rewrite Ti, Tu. destruct t as [|c t]; [contradiction|]. cbn [truthy negb orb].
  cbv beta iota zeta. rewrite Hc. cbv beta iota zeta.
  rewrite ssh_exec_echo by reflexivity.
  destruct (result (exec world _)) as [e|r]; cbv beta iota zeta.
  - listing. reflexivity.
  - destruct (code r) as [[| |]|]; cbv beta iota zeta; listing; reflexivity.
Qed.

Lemma on_topology_not_a_path required command action done failed prefix body s
  ip topo user :
  Js.get body (lit "serverIp") = Some ip ->
  Js.get body (lit "topoFile") = Some topo ->
  Js.get body (lit "username") = Some user ->
  truthy ip = true -> truthy topo = true -> truthy user = true ->
  (forall t, topo <> JStr t) ->
  connect world (login ip user 5000) = None ->
  effects (on_topology required command action done failed prefix body s)
  = [SetHeader (lit "Content-Type") (lit "text/event-stream");
     SetHeader (lit "Cache-Control") (lit "no-cache");
     SetHeader (lit "Connection") (lit "keep-alive");
     Write (lit "Connecting to server..." ++ nl);
     Connect (login ip user 5000);
     Write (lit "Connected successfully" ++ nl);
     Write (lit action ++ nl);
     Write (lit "Operation failed: " ++ TypeError_message ++ nl);
     End (Some (JObj [(lit "error", JStr (lit prefix ++ TypeError_message))]));
     Dispose].
Proof.
  intros Hi Ht Hu Ti Tt Tu Hn Hc. route. rewrite Hi, Ht, Hu. cbv beta iota zeta.
  rewrite Ti, Tt, Tu. cbn [negb orb]. cbv beta iota zeta. rewrite Hc.
  cbv beta iota zeta.
  destruct topo; try reflexivity. exfalso. now apply (Hn s0).
Qed.


Ltac upload :=
  unfold Http.deploy, Http.reconfigure, Http.on_upload, connect_or_end,
    event_stream_headers, report, report_error, server_error, ssh_connect,
    ssh_putFile, unlink_if_present, unlinkSync, prop,
    try_catch, finally, bind, send, emit, read, throw, ret;
  cbv beta iota zeta.

Ltac tally_upload Ec :=
  unfold effects, final, count; cbn [snd fst];
  repeat (cbn;
          first [rewrite filter_app | rewrite length_app
                | rewrite filter_echoed by reflexivity]);
  cbn; rewrite ?Ec; auto.

Lemma on_upload_outcome uploading action flag done failed prefix file body :
  let run := on_upload uploading action flag done failed prefix file body fresh in
  count is_end (effects run) = 1
  /\ count is_dispose (effects run) = count accepted_login (effects run)
  /\ count is_dispose (effects run) <= 1
  /\ (Trace.nullish body = false ->
      count is_unlink (effects run) = count accepted_login (effects run)
      /\ present (final run) = Nat.eqb (count accepted_login (effects run)) 0).
Proof.
  upload. destruct file as [f|]; [|solve [tally_upload I; repeat split; auto]].
  destruct (Js.get body (lit "serverIp")) as [ip|] eqn:Hi.
  2:{ destruct body; try discriminate;
      tally_upload I; repeat split; auto; discriminate. }
  destruct (Js.get body (lit "username")) as [user|] eqn:Hu.
  2:{ destruct body; discriminate. }
  cbv beta iota zeta.
  destruct (truthy ip); cbn [negb]; cbv beta iota zeta;
    [|solve [tally_upload I; repeat split; auto]].
  destruct (truthy user); cbn [negb]; cbv beta iota zeta;
    [|solve [tally_upload I; repeat split; auto]].
  destruct (connect world (login ip user 5000)) eqn:Ec; cbv beta iota zeta;
    [solve [tally_upload Ec; repeat split; auto]|].
  rewrite ssh_exec_silent.
  destruct (result (exec world _)); cbv beta iota zeta;
    [solve [tally_upload Ec; repeat split; auto]|].
  destruct (putFile world _ _); cbv beta iota zeta;
    [solve [tally_upload Ec; repeat split; auto]|].
  rewrite ssh_exec_echo by reflexivity.
  destruct (result (exec world _)) as [?|r]; cbv beta iota zeta;
    [solve [tally_upload Ec; repeat split; auto]|].
  destruct (code r) as [[| |]|]; cbv beta iota zeta;
    tally_upload Ec; repeat split; auto.
Qed.


Lemma deliver_clone cs s :
  headersSent s = true ->
  exists logs,
    deliver (clone_chunk toString) cs s = (inr tt, s, logs)
    /\ forall e, In e logs -> exists m, e = Log m.
Proof.
  revert s; induction cs as [|[err chunk] cs IH]; intros s H.
  - exists []. split; [reflexivity|intros e []].
  - destruct (IH s H) as [logs [Hd Hl]].
    assert (Hs : {| present := present s; headersSent := true |} = s)
      by (destruct s; simpl in *; now subst).
    simpl. unfold bind, clone_chunk at 1, log, send, ret.
    destruct err.
    + destruct (trim (toString chunk)) as [|c t].
      * rewrite Hd. exists logs. split; [reflexivity|exact Hl].
      * destruct (negb (includes (lit "Cloning into") (c :: t)));
          rewrite Hs, Hd; eexists; (split; [reflexivity|]);
          intros e [<-|He]; eauto.
    + rewrite Hs, Hd. eexists. split; [reflexivity|].
      intros e [<-|He]; eauto.
Qed.

Lemma filter_logs f logs :
  (forall m, f (Log m) = false) ->
  (forall e, In e logs -> exists m, e = Log m) -> filter f logs = [].
Proof.
  intros Hf. induction logs as [|e logs IH]; intros H; [reflexivity|].
  simpl. destruct (H e (or_introl eq_refl)) as [m ->]. rewrite Hf.
  apply IH. intros e' He'. apply H. now right.
Qed.

Ltac cloning :=
  unfold Http.clone, repo_name, log, ssh_connect, prop,
    try_catch, finally, bind, send, emit, read, throw, ret;
  cbv beta iota zeta.

Lemma clone_outcome body :
  let out := effects (clone body fresh) in
  count is_end out = 1
  /\ count is_dispose out = count is_connect out
  /\ count is_dispose out <= 1.
Proof.
  cloning.
  destruct (Js.get body (lit "gitRepoUrl")) as [url|];
    [|solve [unfold effects, count; cbn; auto]].
  destruct (Js.get body (lit "username")) as [user|];
    [|solve [unfold effects, count; cbn; auto]].
  cbv beta iota zeta.
  destruct (negb (truthy url) || negb (truthy user));
    [solve [unfold effects, count; cbn; auto]|].
  cbv beta iota zeta.
  destruct url; cbv beta iota zeta;
    try solve [unfold effects, count; cbn; auto].
  destruct (connect world _); cbv beta iota zeta;
    [solve [unfold effects, count; cbn; auto]|].
  rewrite ssh_exec_silent.
  destruct (result (exec world _)) as [?|check]; cbv beta iota zeta;
    [solve [unfold effects, count; cbn; auto]|].
  destruct (str_eqb (trim (stdout check)) (lit "exists")); cbv beta iota zeta.
  - rewrite ssh_exec_silent.
    destruct (result (exec world _)); cbv beta iota zeta;
      [solve [unfold effects, count; cbn; auto]|].
    rewrite ssh_exec_silent.
    destruct (result (exec world _)); cbv beta iota zeta;
      [solve [unfold effects, count; cbn; auto]|].
    unfold ssh_exec, bind, emit.
    match goal with
    | |- context [deliver _ ?cs ?st] =>
        destruct (deliver_clone cs st eq_refl) as [logs [-> Hl]]
    end.
    destruct (result (exec world _)) as [?|r]; unfold throw, ret;
      cbv beta iota zeta;
      [|destruct (code r) as [[| |]|]; cbv beta iota zeta];
      unfold effects, count; cbn [snd fst];
      repeat (cbn; first [rewrite filter_app | rewrite length_app
                         | rewrite (filter_logs _ logs) by (auto || reflexivity)]);
      cbn; auto.
  - rewrite ssh_exec_silent.
    destruct (result (exec world _)); cbv beta iota zeta;
      [solve [unfold effects, count; cbn; auto]|].
    unfold ssh_exec, bind, emit.
    match goal with
    | |- context [deliver _ ?cs ?st] =>
        destruct (deliver_clone cs st eq_refl) as [logs [-> Hl]]
    end.
    destruct (result (exec world _)) as [?|r]; unfold throw, ret;
      cbv beta iota zeta;
      [|destruct (code r) as [[| |]|]; cbv beta iota zeta];
      unfold effects, count; cbn [snd fst];
      repeat (cbn; first [rewrite filter_app | rewrite length_app
                         | rewrite (filter_logs _ logs) by (auto || reflexivity)]);
      cbn; auto.
Qed.


Lemma starts_with_yaml_app a :
  a <> [] -> starts_with (lit ".yaml") a = false ->
  starts_with (lit ".yaml") (a ++ lit ".yaml") = false.
Proof.
  intros Hn H.
  destruct a as [|c1 [|c2 [|c3 [|c4 [|c5 a]]]]]; [contradiction|..];
    cbn in H |- *;
    repeat match goal with
           | |- context [N.eqb ?x ?y] => destruct (N.eqb x y)
           | H : context [N.eqb ?x ?y] |- _ => destruct (N.eqb x y)
           end; cbn in *; congruence.
Qed.

Lemma remove_first_yaml base :
  includes (lit ".yaml") base = false ->
  remove_first (lit ".yaml") (base ++ lit ".yaml") = base.
Proof.
  induction base as [|c base IH]; intros H; [reflexivity|].
  change (includes (lit ".yaml") (c :: base))
    with (starts_with (lit ".yaml") (c :: base) || includes (lit ".yaml") base)
    in H.
  apply orb_false_iff in H. destruct H as [H1 H2].
  change ((c :: base) ++ lit ".yaml") with (c :: (base ++ lit ".yaml")).
  cbn [remove_first].
  change (c :: (base ++ lit ".yaml")) with ((c :: base) ++ lit ".yaml").
  rewrite starts_with_yaml_app by (assumption || discriminate).
  cbn [app]. now rewrite IH.
Qed.

Lemma on_upload_paths uploading action flag done failed prefix f body
  ip user base :
  Js.get body (lit "serverIp") = Some ip ->
  Js.get body (lit "username") = Some user ->
  truthy ip = true -> truthy user = true ->
  originalname f = base ++ lit ".yaml" ->
  includes (lit ".yaml") base = false ->
  connect world (login ip user 5000) = None ->
  (exists r, result (exec world (lit "mkdir -p " ++ lab_dir user base)) = inr r) ->
  putFile world (path f) (remote_file user base) = None ->
  let out := effects (on_upload uploading action flag done failed prefix (Some f) body fresh) in
  commands out
  = [lit "mkdir -p " ++ lab_dir user base;
     lit "clab deploy --topo " ++ remote_file user base ++ lit flag]
  /\ In (PutFile (path f) (remote_file user base)) out.
Proof.
  intros Hi Hu Ti Tu Hname Hbase Hc [r0 Hmk] Hput.
  upload. rewrite Hi, Hu. cbv beta iota zeta. rewrite Ti, Tu. cbn [negb].
  cbv beta iota zeta. rewrite Hc. cbv beta iota zeta.
  rewrite Hname, (remove_first_yaml _ Hbase).
  fold (Http.lab_dir ToString user base).
  fold (Http.remote_file ToString user base).
  rewrite ssh_exec_silent. rewrite Hmk. cbv beta iota zeta.
  rewrite Hput. cbv beta iota zeta.
  rewrite ssh_exec_echo by reflexivity.
  generalize (remote_file user base) (lab_dir user base). intros remote dir.
  match goal with
  | |- context [result (exec world ?c)] =>
      destruct (result (exec world c)) as [?|r]
  end; cbv beta iota zeta.
  - split; [listing; reflexivity|]. unfold effects. cbn. auto 20.
  - destruct (code r) as [[| |]|]; cbv beta iota zeta;
      (split; [listing; reflexivity|unfold effects; cbn; auto 20]).
Qed.

Lemma last_part_trailing prefix :
  last_part (split slash (prefix ++ lit "/")) = [].
Proof.
  unfold last_part. change (prefix ++ lit "/") with (prefix ++ slash :: []).
  rewrite split_app. apply last_last.
Qed.

Lemma clone_trailing_slash body prefix user check :
  Js.get body (lit "gitRepoUrl") = Some (JStr (prefix ++ lit "/")) ->
  Js.get body (lit "username") = Some user ->
  truthy user = true ->
  connect world (login clone_server user 10000) = None ->
  result (exec world (check_dir (user_dir user))) = inr check ->
  trim (stdout check) = lit "exists" ->
  exists before after,
    commands (effects (clone body fresh))
    = before ++ rm_rf (user_dir user) :: after.
Proof.
  intros Hg Hu Tu Hc Hr Ht. cloning. rewrite Hg, Hu. cbv beta iota zeta.
  rewrite Tu.
  assert (Tg : truthy (JStr (prefix ++ lit "/")) = true)
    by (destruct prefix; reflexivity).
  rewrite Tg. cbn [negb orb]. cbv beta iota zeta.
  rewrite last_part_trailing. cbn [remove_first starts_with skipn length].
  rewrite app_nil_r. fold (Http.user_dir ToString user).
  rewrite Hc. cbv beta iota zeta.
  rewrite ssh_exec_silent, Hr. cbv beta iota zeta. rewrite Ht.
  cbn [str_eqb]. change (str_eqb (lit "exists") (lit "exists")) with true.
  cbv beta iota zeta. rewrite ssh_exec_silent.
  exists [check_dir (user_dir user)].
  destruct (result (exec world (rm_rf (user_dir user)))); cbv beta iota zeta;
    [eexists; unfold effects; cbn; reflexivity|].
  rewrite ssh_exec_silent.
  match goal with
  | |- context [result (exec world ?c)] => destruct (result (exec world c))
  end; cbv beta iota zeta;
    [eexists; unfold effects; cbn; reflexivity|].
  unfold ssh_exec, bind, emit.
  match goal with
  | |- context [deliver _ ?cs ?st] =>
      destruct (deliver_clone cs st eq_refl) as [logs [-> Hl]]
  end.
  assert (Hlogs : commands logs = []).
  { clear -Hl. unfold commands. induction logs as [|e logs IH]; [reflexivity|].
    simpl. destruct (Hl e (or_introl eq_refl)) as [m ->]. simpl.
    apply IH. intros e' He'. apply Hl. now right. }
  match goal with
  | |- context [result (exec world ?c)] =>
      destruct (result (exec world c)) as [?|r]
  end; unfold throw, ret;
    cbv beta iota zeta;
    [|destruct (code r) as [[| |]|]; cbv beta iota zeta];
    eexists; unfold effects; cbn [snd fst];
    repeat (cbn; first [rewrite commands_app | rewrite Hlogs]); cbn;
    reflexivity.
Qed.


(** *** The routes *)

(** X15: destroy and save answer every request exactly once (a 400, or one
    end of the streamed response), whatever the body and whatever the remote
    side does, as long as each of its calls settles (resolves or rejects);
    the SSH connection is disposed once when the login was accepted and
    never otherwise. *)
Theorem topology_routes_answer_once body s :
  (count is_end (effects (destroy body s)) = 1
   /\ count is_dispose (effects (destroy body s))
      = count accepted_login (effects (destroy body s))
   /\ count is_dispose (effects (destroy body s)) <= 1)
  /\ (count is_end (effects (save body s)) = 1
      /\ count is_dispose (effects (save body s))
         = count accepted_login (effects (save body s))
      /\ count is_dispose (effects (save body s)) <= 1).
Proof. split; apply on_topology_answers. Qed.

(** X16: the topology file of destroy and save goes through resolvePath.
    With a server, a user and a string topoFile, once the login is accepted
    exactly one command is run: clab destroy --topo (clab save -t) followed
    by the resolution of topoFile against the default base; the path is
    not quoted. *)
Theorem topology_routes_resolve_path body s ip t user :
  Js.get body (lit "serverIp") = Some ip ->
  Js.get body (lit "topoFile") = Some (JStr t) ->
  Js.get body (lit "username") = Some user ->
  truthy ip = true -> t <> [] -> truthy user = true ->
  connect world (login ip user 5000) = None ->
  commands (effects (destroy body s))
  = [lit "clab destroy --topo " ++ resolvePath t None]
  /\ commands (effects (save body s))
     = [lit "clab save -t " ++ resolvePath t None].
Proof.
  intros Hi Ht Hu Ti Tt Tu Hc. split.
  - exact (on_topology_command _ _ _ _ _ _ _ _ _ _ _ Hi Ht Hu Ti Tt Tu Hc).
  - exact (on_topology_command _ _ _ _ _ _ _ _ _ _ _ Hi Ht Hu Ti Tt Tu Hc).
Qed.

(** X17: a topoFile that is truthy but not a string (a number, an array,
    an object) passes the validation of destroy and of save; after the
    login no command is run: the TypeError of resolvePath is reported as a
    failed operation, of either route, and the connection is disposed. *)
Theorem topology_routes_reject_late body s ip topo user :
  Js.get body (lit "serverIp") = Some ip ->
  Js.get body (lit "topoFile") = Some topo ->
  Js.get body (lit "username") = Some user ->
  truthy ip = true -> truthy topo = true -> truthy user = true ->
  (forall t, topo <> JStr t) ->
  connect world (login ip user 5000) = None ->
  commands (effects (destroy body s)) = []
  /\ commands (effects (save body s)) = []
  /\ In (End (Some (JObj [(lit "error",
                           JStr (lit "Destroy operation failed: "
                                 ++ TypeError_message))])))
        (effects (destroy body s))
  /\ In Dispose (effects (destroy body s))
  /\ In Dispose (effects (save body s))
  /\ In (End (Some (JObj [(lit "error",
                           JStr (lit "Save operation failed: "
                                 ++ TypeError_message))])))
        (effects (save body s)).
Proof.
  intros Hi Ht Hu Ti Tt Tu Hn Hc.
  unfold Http.destroy, Http.save.
  rewrite !(on_topology_not_a_path _ _ _ _ _ _ _ _ _ _ _ Hi Ht Hu Ti Tt Tu Hn Hc).
  cbn. auto 20.
Qed.

(** X18: deploy and reconfigure answer every request exactly once, and
    dispose the SSH connection once when the login was accepted and never
    otherwise, whatever the remote side does afterwards, as long as each of
    its calls settles (resolves or rejects). *)
Theorem upload_routes_answer_once file body :
  (count is_end (effects (deploy file body fresh)) = 1
   /\ count is_dispose (effects (deploy file body fresh))
      = count accepted_login (effects (deploy file body fresh)))
  /\ (count is_end (effects (reconfigure file body fresh)) = 1
      /\ count is_dispose (effects (reconfigure file body fresh))
         = count accepted_login (effects (reconfigure file body fresh))).
Proof.
  split.
  - destruct (on_upload_outcome "Uploading file to "
                "Executing containerlab deploy command..." ""
                "Topology deployed successfully" "Deployment failed"
                "Deployment failed: " file body) as [H1 [H2 _]].
    split; assumption.
  - destruct (on_upload_outcome "Uploading updated file to "
                "Executing containerlab reconfigure command..."
                " --reconfigure" "Topology reconfigured successfully"
                "Reconfigure operation failed"
                "Reconfigure operation failed: " file body) as [H1 [H2 _]].
    split; assumption.
Qed.

(** X19: the uploaded file of deploy and reconfigure is deleted exactly when
    the login was accepted: then it is unlinked once, whether the remote
    commands succeed, fail or reject; a request that is refused by the
    validation, or whose login fails, leaves the file on disk. *)
Theorem upload_routes_delete_file_after_login file body :
  Trace.nullish body = false ->
  (count is_unlink (effects (deploy file body fresh))
   = count accepted_login (effects (deploy file body fresh))
   /\ present (final (deploy file body fresh))
      = Nat.eqb (count accepted_login (effects (deploy file body fresh))) 0)
  /\ (count is_unlink (effects (reconfigure file body fresh))
      = count accepted_login (effects (reconfigure file body fresh))
      /\ present (final (reconfigure file body fresh))
         = Nat.eqb
             (count accepted_login (effects (reconfigure file body fresh))) 0).
Proof.
  intros Hn. split.
  - destruct (on_upload_outcome "Uploading file to "
                "Executing containerlab deploy command..." ""
                "Topology deployed successfully" "Deployment failed"
                "Deployment failed: " file body) as [_ [_ [_ H]]].
    exact (H Hn).
  - destruct (on_upload_outcome "Uploading updated file to "
                "Executing containerlab reconfigure command..."
                " --reconfigure" "Topology reconfigured successfully"
                "Reconfigure operation failed"
                "Reconfigure operation failed: " file body) as [_ [_ [_ H]]].
    exact (H Hn).
Qed.

(** X20: where deploy puts a topology.  For an uploaded file named
    base.yaml, with no other '.yaml' in base, the file is copied to
    /home/clab_nfs_share/containerlab_topologies/user/base/base.yaml and the
    commands run are mkdir -p of that directory and clab deploy --topo of
    that file (with --reconfigure for the reconfigure route). *)
Theorem upload_routes_remote_path f body ip user base :
  Js.get body (lit "serverIp") = Some ip ->
  Js.get body (lit "username") = Some user ->
  truthy ip = true -> truthy user = true ->
  originalname f = base ++ lit ".yaml" ->
  includes (lit ".yaml") base = false ->
  connect world (login ip user 5000) = None ->
  (exists r, result (exec world (lit "mkdir -p " ++ lab_dir user base))
             = inr r) ->
  putFile world (path f) (remote_file user base) = None ->
  (commands (effects (deploy (Some f) body fresh))
   = [lit "mkdir -p " ++ lab_dir user base;
      lit "clab deploy --topo " ++ remote_file user base ++ lit ""]
   /\ In (PutFile (path f) (remote_file user base))
         (effects (deploy (Some f) body fresh)))
  /\ (commands (effects (reconfigure (Some f) body fresh))
      = [lit "mkdir -p " ++ lab_dir user base;
         lit "clab deploy --topo " ++ remote_file user base
           ++ lit " --reconfigure"]
      /\ In (PutFile (path f) (remote_file user base))
            (effects (reconfigure (Some f) body fresh))).
Proof.
  intros Hi Hu Ti Tu Hname Hbase Hc Hmk Hput. split.
  - exact (on_upload_paths _ _ _ _ _ _ _ _ _ _ _
             Hi Hu Ti Tu Hname Hbase Hc Hmk Hput).
  - exact (on_upload_paths _ _ _ _ _ _ _ _ _ _ _
             Hi Hu Ti Tu Hname Hbase Hc Hmk Hput).
Qed.

(** X21: the clone route answers every request exactly once, and disposes
    its SSH connection exactly as often as it tried to connect, that is also
    when the login failed; each call to the remote side is taken to settle
    (to resolve or to reject). *)
Theorem clone_answers_once body :
  count is_end (effects (clone body fresh)) = 1
  /\ count is_dispose (effects (clone body fresh))
     = count is_connect (effects (clone body fresh))
  /\ count is_dispose (effects (clone body fresh)) <= 1.
Proof. apply clone_outcome. Qed.

(** X22: a repository URL that ends with a slash has an empty repository
    name, so that the target of the clone is the directory of the user
    itself: when that directory exists, the route runs rm -rf on it, that
    is on all the topologies of the user, before cloning. *)
Theorem clone_trailing_slash_removes_user_dir body prefix user check :
  Js.get body (lit "gitRepoUrl") = Some (JStr (prefix ++ lit "/")) ->
  Js.get body (lit "username") = Some user ->
  truthy user = true ->
  connect world (login clone_server user 10000) = None ->
  result (exec world (check_dir (user_dir user))) = inr check ->
  trim (stdout check) = lit "exists" ->
  exists before after,
    commands (effects (clone body fresh))
    = before ++ rm_rf (user_dir user) :: after.
Proof. apply clone_trailing_slash. Qed.

End HttpFacts.

Section HttpWitnesses.

Import Str Path Http.

Lemma topology_routes_resolve_path_witness :
  Js.get topology_body (lit "serverIp") = Some (JStr (lit "10.0.0.1"))
  /\ Js.get topology_body (lit "topoFile") = Some (JStr (lit "labs/demo/t.yaml"))
  /\ Js.get topology_body (lit "username") = Some (JStr (lit "alice"))
  /\ truthy (JStr (lit "10.0.0.1")) = true
  /\ lit "labs/demo/t.yaml" <> []
  /\ truthy (JStr (lit "alice")) = true
  /\ connect calm (login (JStr (lit "10.0.0.1")) (JStr (lit "alice")) 5000)
     = None
  /\ commands (effects (Http.destroy Utf8.decode sample_TypeError calm
                          topology_body fresh))
     = [lit "clab destroy --topo " ++ resolvePath (lit "labs/demo/t.yaml") None].
Proof.
  assert (Hn : lit "labs/demo/t.yaml" <> []) by discriminate.
  split; [reflexivity|]. split; [reflexivity|]. split; [reflexivity|].
  split; [reflexivity|]. split; [exact Hn|]. split; [reflexivity|].
  split; [reflexivity|].
  exact (proj1 (topology_routes_resolve_path Utf8.decode sample_TypeError calm
                  topology_body fresh (JStr (lit "10.0.0.1"))
                  (lit "labs/demo/t.yaml") (JStr (lit "alice"))
                  eq_refl eq_refl eq_refl eq_refl Hn eq_refl eq_refl)).
Defined.

Lemma topology_routes_reject_late_witness :
  Js.get numeric_body (lit "serverIp") = Some (JStr (lit "10.0.0.1"))
  /\ Js.get numeric_body (lit "topoFile") = Some (JNum 5)
  /\ Js.get numeric_body (lit "username") = Some (JStr (lit "alice"))
  /\ truthy (JStr (lit "10.0.0.1")) = true /\ truthy (JNum 5) = true
  /\ truthy (JStr (lit "alice")) = true
  /\ (forall t, JNum 5 <> JStr t)
  /\ connect calm (login (JStr (lit "10.0.0.1")) (JStr (lit "alice")) 5000)
     = None
  /\ commands (effects (Http.destroy Utf8.decode sample_TypeError calm
                          numeric_body fresh)) = [].
Proof.
  assert (Hn : forall t, JNum 5 <> JStr t) by discriminate.
  split; [reflexivity|]. split; [reflexivity|]. split; [reflexivity|].
  split; [reflexivity|]. split; [reflexivity|]. split; [reflexivity|].
  split; [exact Hn|]. split; [reflexivity|].
  exact (proj1 (topology_routes_reject_late Utf8.decode sample_TypeError calm
                  numeric_body fresh (JStr (lit "10.0.0.1")) (JNum 5)
                  (JStr (lit "alice"))
                  eq_refl eq_refl eq_refl eq_refl eq_refl eq_refl Hn eq_refl)).
Defined.

Lemma upload_routes_delete_file_after_login_witness :
  Trace.nullish upload_body = false
  /\ count is_unlink
       (effects (Http.deploy Utf8.decode sample_ToString sample_TypeError
                   sample_ENOENT unreachable (Some upload_file) upload_body
                   fresh))
     = count (accepted_login unreachable)
         (effects (Http.deploy Utf8.decode sample_ToString sample_TypeError
                     sample_ENOENT unreachable (Some upload_file) upload_body
                     fresh)).
Proof.
  split; [reflexivity|].
  exact (proj1 (proj1 (upload_routes_delete_file_after_login Utf8.decode
                         sample_ToString sample_TypeError sample_ENOENT
                         unreachable (Some upload_file) upload_body eq_refl))).
Defined.

Lemma upload_routes_remote_path_witness :
  Js.get upload_body (lit "serverIp") = Some (JStr (lit "10.0.0.1"))
  /\ Js.get upload_body (lit "username") = Some (JStr (lit "alice"))
  /\ truthy (JStr (lit "10.0.0.1")) = true
  /\ truthy (JStr (lit "alice")) = true
  /\ originalname upload_file = lit "demo" ++ lit ".yaml"
  /\ includes (lit ".yaml") (lit "demo") = false
  /\ connect calm (login (JStr (lit "10.0.0.1")) (JStr (lit "alice")) 5000)
     = None
  /\ (exists r,
        result (exec calm (lit "mkdir -p "
                           ++ lab_dir sample_ToString (JStr (lit "alice"))
                                (lit "demo"))) = inr r)
  /\ putFile calm (path upload_file)
       (remote_file sample_ToString (JStr (lit "alice")) (lit "demo")) = None
  /\ commands
       (effects (Http.deploy Utf8.decode sample_ToString sample_TypeError
                   sample_ENOENT calm (Some upload_file) upload_body fresh))
     = [lit "mkdir -p "
        ++ lab_dir sample_ToString (JStr (lit "alice")) (lit "demo");
        lit "clab deploy --topo "
        ++ remote_file sample_ToString (JStr (lit "alice")) (lit "demo")
        ++ lit ""].
Proof.
  assert (Hm : exists r,
             result (exec calm (lit "mkdir -p "
                                ++ lab_dir sample_ToString (JStr (lit "alice"))
                                     (lit "demo"))) = inr r)
    by (eexists; reflexivity).
  split; [reflexivity|]. split; [reflexivity|]. split; [reflexivity|].
  split; [reflexivity|]. split; [reflexivity|]. split; [reflexivity|].
  split; [reflexivity|]. split; [exact Hm|]. split; [reflexivity|].
  exact (proj1 (proj1 (upload_routes_remote_path Utf8.decode sample_ToString
                         sample_TypeError sample_ENOENT calm upload_file
                         upload_body (JStr (lit "10.0.0.1"))
                         (JStr (lit "alice")) (lit "demo")
                         eq_refl eq_refl eq_refl eq_refl eq_refl eq_refl
                         eq_refl Hm eq_refl))).
Defined.

Lemma clone_trailing_slash_removes_user_dir_witness :
  Js.get clone_body (lit "gitRepoUrl")
  = Some (JStr (lit "https://git.example.com/labs" ++ lit "/"))
  /\ Js.get clone_body (lit "username") = Some (JStr (lit "alice"))
  /\ truthy (JStr (lit "alice")) = true
  /\ connect calm (login clone_server (JStr (lit "alice")) 10000) = None
  /\ result (exec calm (check_dir (user_dir sample_ToString
                                     (JStr (lit "alice")))))
     = inr {| code := Some 0%Z; stdout := lit "exists" ++ nl; stderr := [] |}
  /\ trim (lit "exists" ++ nl) = lit "exists"
  /\ exists before after,
       commands (effects (Http.clone Utf8.decode sample_ToString
                            sample_TypeError calm clone_body fresh))
       = before
         ++ rm_rf (user_dir sample_ToString (JStr (lit "alice"))) :: after.
Proof.
  split; [reflexivity|]. split; [reflexivity|]. split; [reflexivity|].
  split; [reflexivity|]. split; [reflexivity|]. split; [reflexivity|].
  exact (clone_trailing_slash_removes_user_dir Utf8.decode sample_ToString
           sample_TypeError calm clone_body
           (lit "https://git.example.com/labs") (JStr (lit "alice"))
           {| code := Some 0%Z; stdout := lit "exists" ++ nl; stderr := [] |}
           eq_refl eq_refl eq_refl eq_refl eq_refl eq_refl).
Defined.

Example clone_sample_commands :
  commands (effects (Http.clone Utf8.decode sample_ToString sample_TypeError
                       calm clone_body fresh))
  = [check_dir (lit "/home/clab_nfs_share/containerlab_topologies/alice/");
     rm_rf (lit "/home/clab_nfs_share/containerlab_topologies/alice/");
     lit "mkdir -p " ++ dq
       ++ lit "/home/clab_nfs_share/containerlab_topologies/alice" ++ dq;
     lit "git clone https://git.example.com/labs/ " ++ dq
       ++ lit "/home/clab_nfs_share/containerlab_topologies/alice/" ++ dq].
Proof. vm_compute. reflexivity. Qed.

End HttpWitnesses.

(* ===================================================================== *)
(** ** The file routes, the copy route and the free ports *)
(* ===================================================================== *)

Section FilesFacts.

Import Str Path Http Files.

(** *** The pattern of an address *)

Lemma in_class p s r :
  In r (class p s) <-> exists c, s = c :: r /\ p c = true.
Proof.
  unfold class. destruct s as [|c s']; simpl.
  - split; [tauto|]. intros [c [H _]]. discriminate.
  - destruct (p c) eqn:E; simpl; split.
    + intros [->|[]]. eauto.
    + intros [c' [H _]]. injection H as -> ->. now left.
    + tauto.
    + intros [c' [H Hp]]. injection H as -> ->. congruence.
Qed.

Lemma in_cat a b s r :
  In r (cat a b s) <-> exists m, In m (a s) /\ In r (b m).
Proof. unfold cat. apply in_flat_map. Qed.

Lemma in_upto_here n a s : In s (upto n a s).
Proof. destruct n; simpl; [now left|]. apply in_or_app. right. now left. Qed.

Lemma in_upto_step n a s m r :
  In m (a s) -> In r (upto n a m) -> In r (upto (S n) a s).
Proof.
  intros H1 H2. simpl. apply in_or_app. left. apply in_cat. eauto.
Qed.

Lemma in_times1 (a : Matcher) s m : In m (a s) -> In m (times 1 a s).
Proof. intros H. simpl. apply in_cat. exists m. split; [exact H|now left]. Qed.

Lemma is_group_cases g :
  is_group g = true <->
  (exists a, g = [a] /\ digit a = true)
  \/ (exists a b, g = [a; b] /\ digit a = true /\ digit b = true)
  \/ (exists a b c, g = [a; b; c] /\ digit a = true /\ digit b = true
                    /\ digit c = true).
Proof.
  unfold is_group. split.
  - destruct g as [|a [|b [|c [|d g]]]]; simpl; try discriminate;
      rewrite ?andb_true_r; intros H.
    + left. eauto.
    + apply andb_prop in H as [Ha Hb]. right; left. eauto 6.
    + apply andb_prop in H as [Ha H]. apply andb_prop in H as [Hb Hc].
      right; right. eauto 8.
  - intros [[a [-> Ha]]|[[a [b [-> [Ha Hb]]]]|[a [b [c [-> [Ha [Hb Hc]]]]]]]];
      simpl; now rewrite ?Ha, ?Hb, ?Hc.
Qed.

Lemma in_group s r :
  In r (range 1 3 (class digit) s) <->
  exists g, is_group g = true /\ s = g ++ r.
Proof.
  split.
  - intros H. unfold range in H. apply in_cat in H as [m1 [H1 H]].
    simpl in H1. apply in_cat in H1 as [m0 [H1 H0]].
    apply in_class in H1 as [a [-> Ha]]. destruct H0 as [<-|[]].
    simpl in H. apply in_app_or in H as [H|[<-|[]]].
    + apply in_cat in H as [m2 [H2 H]].
      apply in_class in H2 as [b [-> Hb]].
      apply in_app_or in H as [H|[<-|[]]].
      * apply in_cat in H as [m3 [H3 [<-|[]]]].
        apply in_class in H3 as [c [-> Hc]].
        exists [a; b; c]. split; [|reflexivity].
        apply is_group_cases. right; right. eauto 8.
      * exists [a; b]. split; [|reflexivity].
        apply is_group_cases. right; left. eauto 6.
    + exists [a]. split; [|reflexivity].
      apply is_group_cases. left. eauto.
  - intros [g [Hg ->]]. apply is_group_cases in Hg.
    assert (Hd : forall c t, digit c = true -> In t (class digit (c :: t))).
    { intros c t Hc. apply in_class. eauto. }
    unfold range. apply in_cat. change (3 - 1)%nat with 2%nat.
    destruct Hg as [[a [-> Ha]]|[[a [b [-> [Ha Hb]]]]|[a [b [c [-> [Ha [Hb Hc]]]]]]]].
    + exists r. split; [apply in_times1, Hd, Ha|apply in_upto_here].
    + exists (b :: r). split; [apply in_times1, Hd, Ha|].
      eapply in_upto_step; [apply Hd, Hb|apply in_upto_here].
    + exists (b :: c :: r). split; [apply in_times1, Hd, Ha|].
      eapply in_upto_step; [apply Hd, Hb|].
      eapply in_upto_step; [apply Hd, Hc|apply in_upto_here].
Qed.

Lemma in_group_dot s r :
  In r (cat (range 1 3 (class digit)) (class (N.eqb dot)) s) <->
  exists g, is_group g = true /\ s = g ++ dot :: r.
Proof.
  rewrite in_cat. split.
  - intros [m [H1 H2]]. apply in_group in H1 as [g [Hg ->]].
    apply in_class in H2 as [c [-> Hc]]. apply N.eqb_eq in Hc as <-. eauto.
  - intros [g [Hg ->]]. exists (dot :: r). split.
    + apply in_group. eauto.
    + apply in_class. exists dot. split; [reflexivity|apply N.eqb_refl].
Qed.

Lemma test_ipv4 s :
  test ipv4 s = true <->
  exists a b c d,
    (is_group a = true /\ is_group b = true /\ is_group c = true
     /\ is_group d = true)
    /\ s = a ++ lit "." ++ b ++ lit "." ++ c ++ lit "." ++ d.
Proof.
  unfold test. rewrite existsb_exists. split.
  - intros [r [H Hr]]. destruct r; [|discriminate]. clear Hr.
    unfold ipv4 in H. apply in_cat in H as [m [H Hd]].
    simpl in H. apply in_cat in H as [m1 [Ha H]].
    apply in_cat in H as [m2 [Hb H]]. apply in_cat in H as [m3 [Hc [<-|[]]]].
    apply in_group_dot in Ha as [a [Ga ->]].
    apply in_group_dot in Hb as [b [Gb ->]].
    apply in_group_dot in Hc as [c [Gc ->]].
    apply in_group in Hd as [d [Gd ->]].
    exists a, b, c, d. rewrite app_nil_r. auto.
  - intros [a [b [c [d [[Ga [Gb [Gc Gd]]] ->]]]]]. exists []. split; [|reflexivity].
    unfold ipv4. apply in_cat. exists d. split.
    + simpl. apply in_cat. exists (b ++ lit "." ++ c ++ lit "." ++ d). split.
      { apply in_group_dot. eauto. }
      apply in_cat. exists (c ++ lit "." ++ d). split.
      { apply in_group_dot. eauto. }
      apply in_cat. exists d. split; [|now left].
      apply in_group_dot. eauto.
    + apply in_group. exists d. rewrite app_nil_r. auto.
Qed.

(** *** Lines and fields *)

Lemma split_spaces_cons run s : split_spaces run s <> [].
Proof.
  revert run; induction s as [|c s IH]; intros run; simpl; [discriminate|].
  destruct (is_space c).
  - destruct run; [apply IH|discriminate].
  - destruct (split_spaces false s); discriminate.
Qed.

Lemma split_spaces_field f rest :
  forallb (fun c => negb (is_space c)) f = true ->
  split_spaces false (f ++ rest)
  = match split_spaces false rest with
    | x :: xs => (f ++ x) :: xs
    | [] => []
    end.
Proof.
  induction f as [|c f IH]; simpl; intros H.
  - destruct (split_spaces false rest) eqn:E; [|reflexivity].
    now apply split_spaces_cons in E.
  - apply andb_prop in H as [Hc H]. apply negb_true_iff in Hc. rewrite Hc.
    rewrite (IH H). destruct (split_spaces false rest) eqn:E; [|reflexivity].
    now apply split_spaces_cons in E.
Qed.

Lemma split_spaces_run g rest :
  forallb is_space g = true ->
  split_spaces true (g ++ rest) = split_spaces true rest.
Proof.
  induction g as [|c g IH]; simpl; intros H; [reflexivity|].
  apply andb_prop in H as [Hc H]. rewrite Hc. exact (IH H).
Qed.

Lemma split_spaces_start rest :
  match rest with c :: _ => is_space c = false | [] => True end ->
  split_spaces true rest = split_spaces false rest.
Proof. destruct rest as [|c r]; simpl; [reflexivity|]. now intros ->. Qed.

Lemma split_spaces_gap g rest :
  is_gap g = true ->
  match rest with c :: _ => is_space c = false | [] => True end ->
  split_spaces false (g ++ rest) = [] :: split_spaces false rest.
Proof.
  unfold is_gap. destruct g as [|c g]; [discriminate|]. simpl.
  intros H Hr. apply andb_prop in H as [Hc H]. rewrite Hc.
  now rewrite (split_spaces_run _ _ H), (split_spaces_start _ Hr).
Qed.

Lemma weave_start fields last :
  Forall (fun fg => is_field (fst fg) = true) fields ->
  forallb (fun c => negb (is_space c)) last = true ->
  match weave fields last with c :: _ => is_space c = false | [] => True end.
Proof.
  intros Hf Hl. destruct fields as [|[f g] fields]; simpl.
  - destruct last as [|c l]; [exact I|]. simpl in Hl.
    apply andb_prop in Hl as [Hc _]. now apply negb_true_iff in Hc.
  - inversion Hf as [|? ? H1 _]; subst. simpl in H1. unfold is_field in H1.
    destruct f as [|c f]; [discriminate|]. simpl in *.
    apply andb_prop in H1 as [Hc _]. now apply negb_true_iff in Hc.
Qed.

Lemma split_spaces_weave fields last :
  Forall (fun fg => is_field (fst fg) = true /\ is_gap (snd fg) = true) fields ->
  forallb (fun c => negb (is_space c)) last = true ->
  split_spaces false (weave fields last) = map fst fields ++ [last].
Proof.
  intros Hf Hl. induction fields as [|[f g] fields IH]; simpl.
  - rewrite <- (app_nil_r last) at 1. rewrite (split_spaces_field _ _ Hl).
    simpl. now rewrite app_nil_r.
  - inversion Hf as [|? ? [H1 H2] Hf']; subst. simpl in H1, H2.
    assert (Hfield : forallb (fun c => negb (is_space c)) f = true).
    { unfold is_field in H1. now apply andb_prop in H1 as [_ H1]. }
    rewrite (split_spaces_field _ _ Hfield).
    rewrite (split_spaces_gap _ _ H2).
    + rewrite (IH Hf'). now rewrite app_nil_r.
    + apply weave_start; [|exact Hl].
      eapply Forall_impl; [|exact Hf']. now intros fg [H _].
Qed.

Lemma ends_with_char c s :
  ends_with [c] s = match rev s with x :: _ => N.eqb c x | [] => false end.
Proof.
  unfold ends_with. simpl. destruct (rev s); simpl; [reflexivity|].
  apply andb_true_r.
Qed.

Lemma ends_with_char_app c a b :
  b <> [] -> ends_with [c] (a ++ b) = ends_with [c] b.
Proof.
  intros Hb. rewrite !ends_with_char, rev_app_distr.
  destruct (rev b) eqn:E; [|reflexivity].
  apply (f_equal (@rev N)) in E. rewrite rev_involutive in E. now subst.
Qed.

Lemma last_part_suffix s :
  (exists pre, s = pre ++ last (split_spaces false s) []
               /\ (tl (split_spaces false s) = [] -> pre = []))
  /\ (exists pre, s = pre ++ last (split_spaces true s) []).
Proof.
  induction s as [|c s [[p0 [H0 H0']] [p1 H1]]]; simpl.
  - split; exists []; auto.
  - destruct (is_space c).
    + split.
      * exists (c :: p1). split.
        -- destruct (split_spaces true s) eqn:E;
             [now apply split_spaces_cons in E|].
           simpl. now rewrite H1 at 1.
        -- intros E. now apply split_spaces_cons in E.
      * exists (c :: p1). simpl. now rewrite H1 at 1.
    + assert (H : exists pre,
                 c :: s = pre ++ last match split_spaces false s with
                                      | [] => [[c]]
                                      | x :: xs => (c :: x) :: xs
                                      end []
                 /\ (tl match split_spaces false s with
                        | [] => [[c]]
                        | x :: xs => (c :: x) :: xs
                        end = [] -> pre = [])).
      { destruct (split_spaces false s) as [|x xs] eqn:E;
          [now apply split_spaces_cons in E|].
        destruct xs as [|y ys].
        - exists []. simpl in *. rewrite (H0' eq_refl) in H0. simpl in H0.
          subst. auto.
        - exists (c :: p0). split; [|discriminate].
          simpl in *. now rewrite H0 at 1. }
      split; [exact H|]. destruct H as [pre [H _]]. eauto.
Qed.

Lemma join_end l :
  join (lit " ") l = []
  \/ (exists pre, join (lit " ") l = pre ++ lit " ")
  \/ (exists pre, join (lit " ") l = pre ++ last l [] /\ last l [] <> []).
Proof.
  induction l as [|x rest IH]; [now left|].
  destruct rest as [|y r].
  - simpl. destruct x as [|c x]; [now left|].
    right; right. exists []. split; [reflexivity|discriminate].
  - change (join (lit " ") (x :: y :: r))
      with (x ++ lit " " ++ join (lit " ") (y :: r)).
    change (last (x :: y :: r) []) with (last (y :: r) []).
    destruct IH as [E|[[pre E]|[pre [E N]]]]; rewrite E.
    + right; left. exists x. now rewrite app_nil_r.
    + right; left. exists (x ++ lit " " ++ pre). now rewrite <- !app_assoc.
    + right; right. exists (x ++ lit " " ++ pre).
      split; [now rewrite <- !app_assoc|exact N].
Qed.

Lemma last_skipn {A} n (l : list A) d :
  skipn n l <> [] -> last (skipn n l) d = last l d.
Proof.
  revert l; induction n as [|n IH]; intros l H; [reflexivity|].
  destruct l as [|x l]; [reflexivity|]. cbn [skipn] in *.
  rewrite (IH l H). destruct l; [|reflexivity].
  now rewrite skipn_nil in H.
Qed.

Lemma name_without_dot line :
  ends_with (lit ".") line = false ->
  ends_with (lit ".")
    (join (lit " ") (skipn 8 (split_spaces false line))) = false.
Proof.
  intros Hl. change (lit ".") with [46%N] in *.
  destruct (join_end (skipn 8 (split_spaces false line)))
    as [E|[[pre E]|[pre [E N]]]]; rewrite E.
  - reflexivity.
  - rewrite ends_with_char_app by discriminate. reflexivity.
  - rewrite ends_with_char_app by exact N.
    assert (Hs : skipn 8 (split_spaces false line) <> []).
    { intros Hs. rewrite Hs in N. now apply N. }
    rewrite (last_skipn _ _ _ Hs) in *.
    destruct (last_part_suffix line) as [[p [Hp _]] _].
    rewrite Hp in Hl at 1. now rewrite ends_with_char_app in Hl.
Qed.

(** *** The routes *)

Variable ToString : JsVal -> JsString.
Variable TypeError_message : JsString.
Variable ArgumentError_message : JsVal -> JsString.
Variable ENOENT : JsString -> JsString.
Variable basename : JsString -> JsString.
Variable posix_join : JsString -> JsString -> JsString.
Variable Number : JsString -> JsVal.

Ltac open_route :=
  unfold files_list, files_read, files_save, files_upload, files_delete,
    files_createDirectory, files_createFile, files_rename, files_copyPaste,
    ports_free, refuse, succeed, fail_on_stderr, unlink_existing,
    path_argument, Http.ssh_connect, Http.ssh_putFile, Http.unlinkSync,
    Http.prop, try_catch, finally, bind, send, emit, read, throw, ret;
  cbv beta iota zeta.

Ltac branch :=
  cbv beta iota zeta; cbn [present headersSent];
  first
    [ rewrite ssh_exec_silent
    | match goal with
      | |- context [match ?x with _ => _ end] =>
          lazymatch x with
          | context [match _ with _ => _ end] => fail
          | _ => destruct x eqn:?
          end
      end ].

Ltac total :=
  unfold effects, final, count; cbn [snd fst];
  repeat (cbn; first [rewrite filter_app | rewrite length_app]);
  cbn.

(** X23: the file routes list, read, save, upload, delete, createDirectory,
    createFile and rename answer every request with a body exactly once,
    and dispose the SSH connection exactly when they answer 200: after a
    failure that follows an accepted login (a command or a copy that rejects,
    output on stderr) the connection is left open.  Each call to the remote
    side is taken to settle (to resolve or to reject). *)
Theorem file_routes_dispose_on_success_only world route file body :
  In route (plain_routes ToString TypeError_message ENOENT world) ->
  Trace.nullish body = false ->
  count is_end (effects (route file body fresh)) = 1
  /\ count is_dispose (effects (route file body fresh))
     = count is_success (effects (route file body fresh)).
Proof.
  intros Hin Hn. unfold plain_routes in Hin.
  repeat (destruct Hin as [<-|Hin]; [|]); [..|destruct Hin];
    open_route; rewrite !(get_field _ _ Hn);
    repeat branch; try discriminate; total; auto.
Qed.

(** X24: the file routes never look at an exit code.  On two remote sides
    that accept the same logins and copies and whose commands reject alike
    or resolve with the same stdout and stderr, each of the eight routes
    gives the same answer, the same effects and the same state: a command
    that exits with an error and writes nothing to stderr is answered as a
    success. *)
Theorem file_routes_ignore_exit_code w1 w2 :
  (forall l, connect w1 l = connect w2 l) ->
  (forall a b, putFile w1 a b = putFile w2 a b) ->
  (forall c, same_but_code (exec w1 c) (exec w2 c)) ->
  Forall2 (fun r1 r2 => forall file body s, r1 file body s = r2 file body s)
    (plain_routes ToString TypeError_message ENOENT w1)
    (plain_routes ToString TypeError_message ENOENT w2).
Proof.
  intros Hc Hp He. unfold plain_routes.
  repeat constructor; intros file body s; open_route;
    repeat (cbv beta iota zeta; cbn [present headersSent stdout stderr];
            first
              [ rewrite ssh_exec_silent
              | rewrite Hc
              | rewrite Hp
              | match goal with
                | |- context [result (exec w1 ?c)] =>
                    let H := fresh in
                    pose proof (He c) as H; unfold same_but_code in H;
                    destruct (result (exec w1 c)) as [?|[? ? ?]],
                             (result (exec w2 c)) as [?|[? ? ?]];
                    [subst|contradiction|contradiction
                    |cbn [stdout stderr] in H; destruct H; subst]
                end
              | match goal with
                | |- context [match ?x with _ => _ end] =>
                    lazymatch x with
                    | context [match _ with _ => _ end] => fail
                    | _ => destruct x eqn:?
                    end
                end ]);
    reflexivity.
Qed.

(** X25: the uploaded file of files/save and files/upload is deleted from
    the upload directory on every path except a refusal of the request:
    it is either unlinked once or the answer is a 400, never both and never
    neither, and it is still on disk exactly after a 400. *)
Theorem file_uploads_delete_temporary_file world f body :
  is_empty (path f) = false ->
  Trace.nullish body = false ->
  (count is_unlink
     (effects (files_save ToString TypeError_message ENOENT world
                 (Some f) body fresh))
   + count is_refusal
       (effects (files_save ToString TypeError_message ENOENT world
                   (Some f) body fresh)) = 1
   /\ present (final (files_save ToString TypeError_message ENOENT world
                        (Some f) body fresh))
      = negb (Nat.eqb
                (count is_refusal
                   (effects (files_save ToString TypeError_message ENOENT
                               world (Some f) body fresh))) 0))
  /\ (count is_unlink
        (effects (files_upload ToString TypeError_message ENOENT world
                    (Some f) body fresh))
      + count is_refusal
          (effects (files_upload ToString TypeError_message ENOENT world
                      (Some f) body fresh)) = 1
      /\ present (final (files_upload ToString TypeError_message ENOENT world
                           (Some f) body fresh))
         = negb (Nat.eqb
                   (count is_refusal
                      (effects (files_upload ToString TypeError_message
                                  ENOENT world (Some f) body fresh))) 0)).
Proof.
  intros Hf Hn.
  split; open_route; rewrite !(get_field _ _ Hn); rewrite ?Hf;
    repeat branch; try discriminate; total; auto.
Qed.

(** X26: the two routes with a finally.  copyPaste and ports/free answer
    every request exactly once; copyPaste disposes the connection exactly
    when it has started the copy command, and ports/free exactly when it
    has tried to connect, also when the login failed.  Each call to the
    remote side is taken to settle (to resolve or to reject). *)
Theorem finally_routes_answer_once world body s :
  (count is_end
     (effects (files_copyPaste ToString TypeError_message
                 ArgumentError_message basename posix_join world body s)) = 1
   /\ count is_dispose
        (effects (files_copyPaste ToString TypeError_message
                    ArgumentError_message basename posix_join world body s))
      = count is_exec
          (effects (files_copyPaste ToString TypeError_message
                      ArgumentError_message basename posix_join world body s)))
  /\ (count is_end
        (effects (ports_free ToString TypeError_message Number world body s))
      = 1
      /\ count is_dispose
           (effects (ports_free ToString TypeError_message Number world body s))
         = count is_connect
             (effects (ports_free ToString TypeError_message Number world
                         body s))).
Proof.
  split; open_route; repeat branch; total; auto.
Qed.

(** X27: copyPaste with a source or a destination path that is truthy but
    not a string (an array, a number): the login is made and accepted,
    path.basename or path.posix.join throws outside the try that has the
    finally, so the route answers once (a server error), runs no command
    and never disposes the connection. *)
Theorem copy_of_non_string_path_keeps_connection world body s :
  Trace.nullish body = false ->
  truthy (Trace.field body "sourceServerIp") = true ->
  truthy (Trace.field body "sourcePath") = true ->
  truthy (Trace.field body "destinationServerIp") = true ->
  truthy (Trace.field body "destinationPath") = true ->
  truthy (Trace.field body "username") = true ->
  (forall p, Trace.field body "sourcePath" <> JStr p)
  \/ (forall p, Trace.field body "destinationPath" <> JStr p) ->
  connect world (login (Trace.field body "sourceServerIp")
                   (Trace.field body "username") 5000) = None ->
  count (accepted_login world)
    (effects (files_copyPaste ToString TypeError_message
                ArgumentError_message basename posix_join world body s)) = 1
  /\ count is_exec
       (effects (files_copyPaste ToString TypeError_message
                   ArgumentError_message basename posix_join world body s)) = 0
  /\ count is_dispose
       (effects (files_copyPaste ToString TypeError_message
                   ArgumentError_message basename posix_join world body s)) = 0
  /\ count is_end
       (effects (files_copyPaste ToString TypeError_message
                   ArgumentError_message basename posix_join world body s)) = 1.
Proof.
  intros Hn T1 T2 T3 T4 T5 Hs Hc.
  open_route. rewrite !(get_field _ _ Hn). rewrite T1, T2, T3, T4, T5, Hc.
  cbn [negb orb]. cbv beta iota zeta.
  destruct (Trace.field body "sourcePath") as [| | | |p|?|?] eqn:Ep;
    cbv beta iota zeta;
    try solve [total; rewrite Hc; auto].
  destruct Hs as [Hs|Hs]; [now elim (Hs p)|].
  destruct (Trace.field body "destinationPath") as [| | | |q|?|?] eqn:Eq;
    cbv beta iota zeta;
    try solve [total; rewrite Hc; auto].
  now elim (Hs q).
Qed.

(** X28: the validation of ports/free.  For a string serverIp the route
    tries to connect exactly when the string is four groups of one to three
    decimal digits separated by dots, and nothing else (no sign, no space,
    no newline at the end); the groups are not limited to 255. *)
Theorem ports_free_connects_to_dotted_groups world query s s0 :
  Js.get query (lit "serverIp") = Some (JStr s) ->
  count is_connect
    (effects (ports_free ToString TypeError_message Number world query s0)) = 1
  <-> exists a b c d,
        (is_group a = true /\ is_group b = true /\ is_group c = true
         /\ is_group d = true)
        /\ s = a ++ lit "." ++ b ++ lit "." ++ c ++ lit "." ++ d.
Proof.
  intros Hg. rewrite <- test_ipv4.
  open_route. rewrite Hg. cbv beta iota zeta. cbn [Http.text_of].
  destruct (test ipv4 s) eqn:Et.
  - destruct s as [|c s']; [discriminate|]. cbn [truthy negb orb].
    repeat branch; total; split; auto.
  - rewrite orb_true_r. total. split; discriminate.
Qed.

(** *** The listing *)

(** X29: no entry of a listing has a name that ends with a dot: the filter
    that drops the lines of '.' and '..' drops every line that ends with
    '.', so a file named 'notes.' is never listed. *)
Theorem listing_hides_names_ending_in_dot dir stdout e :
  In e (contents dir stdout) ->
  exists name,
    Js.get e (lit "name") = Some (JStr name)
    /\ ends_with (lit ".") name = false.
Proof.
  unfold contents. intros H. apply in_map_iff in H as [line [<- H]].
  apply filter_In in H as [_ H]. unfold listed in H.
  apply andb_prop in H as [H _]. apply andb_prop in H as [_ H].
  apply negb_true_iff in H.
  eexists. split; [reflexivity|]. now apply name_without_dot.
Qed.

(** X30: the name of an entry.  For a line of fields without white space
    separated by gaps of white space, the name is the ninth and the
    following fields joined by one space each: a file name with a run of
    several spaces, or with a tab, is listed with a single space in its
    place. *)
Theorem listing_joins_fields_by_one_space dir fields final :
  Forall (fun fg => is_field (fst fg) = true /\ is_gap (snd fg) = true) fields ->
  forallb (fun c => negb (is_space c)) final = true ->
  Js.get (entry dir (weave fields final)) (lit "name")
  = Some (JStr (join (lit " ") (skipn 8 (map fst fields ++ [final])))).
Proof.
  intros Hf Hl. unfold entry. rewrite (split_spaces_weave _ _ Hf Hl).
  reflexivity.
Qed.

End FilesFacts.

Section FilesWitnesses.

Import Str Path Http Files.

Lemma file_routes_dispose_on_success_only_witness :
  In (fun _ : option File =>
        files_rename sample_ToString sample_TypeError calm)
     (plain_routes sample_ToString sample_TypeError sample_ENOENT calm)
  /\ Trace.nullish rename_body = false
  /\ count is_end
       (effects (files_rename sample_ToString sample_TypeError calm
                   rename_body fresh)) = 1.
Proof.
  assert (Hin : In (fun _ : option File =>
                      files_rename sample_ToString sample_TypeError calm)
                   (plain_routes sample_ToString sample_TypeError
                      sample_ENOENT calm)).
  { unfold plain_routes. do 7 right. left. reflexivity. }
  split; [exact Hin|]. split; [reflexivity|].
  exact (proj1 (file_routes_dispose_on_success_only sample_ToString
                  sample_TypeError sample_ENOENT calm _ None rename_body
                  Hin eq_refl)).
Defined.

Lemma file_routes_ignore_exit_code_witness :
  (forall l, connect calm l = connect failing l)
  /\ (forall a b, putFile calm a b = putFile failing a b)
  /\ (forall c, same_but_code (exec calm c) (exec failing c))
  /\ Forall2 (fun r1 r2 : option File -> JsVal -> R unit =>
                forall file body s, r1 file body s = r2 file body s)
       (plain_routes sample_ToString sample_TypeError sample_ENOENT calm)
       (plain_routes sample_ToString sample_TypeError sample_ENOENT failing).
Proof.
  assert (Hc : forall l, connect calm l = connect failing l)
    by (intros l; reflexivity).
  assert (Hp : forall a b, putFile calm a b = putFile failing a b)
    by (intros a b; reflexivity).
  assert (He : forall c, same_but_code (exec calm c) (exec failing c))
    by (intros c; split; reflexivity).
  split; [exact Hc|]. split; [exact Hp|]. split; [exact He|].
  exact (file_routes_ignore_exit_code sample_ToString sample_TypeError
           sample_ENOENT calm failing Hc Hp He).
Defined.

Lemma file_uploads_delete_temporary_file_witness :
  is_empty (path Http.upload_file) = false
  /\ Trace.nullish upload_body = false
  /\ count is_unlink
       (effects (files_save sample_ToString sample_TypeError sample_ENOENT
                   unreachable (Some Http.upload_file) upload_body fresh))
     + count is_refusal
         (effects (files_save sample_ToString sample_TypeError sample_ENOENT
                     unreachable (Some Http.upload_file) upload_body fresh))
     = 1.
Proof.
  split; [reflexivity|]. split; [reflexivity|].
  exact (proj1 (proj1 (file_uploads_delete_temporary_file sample_ToString
                         sample_TypeError sample_ENOENT unreachable
                         Http.upload_file upload_body eq_refl eq_refl))).
Defined.

Lemma copy_of_non_string_path_keeps_connection_witness :
  Trace.nullish copy_body = false
  /\ truthy (Trace.field copy_body "sourceServerIp") = true
  /\ truthy (Trace.field copy_body "sourcePath") = true
  /\ truthy (Trace.field copy_body "destinationServerIp") = true
  /\ truthy (Trace.field copy_body "destinationPath") = true
  /\ truthy (Trace.field copy_body "username") = true
  /\ ((forall p, Trace.field copy_body "sourcePath" <> JStr p)
      \/ (forall p, Trace.field copy_body "destinationPath" <> JStr p))
  /\ connect calm (login (Trace.field copy_body "sourceServerIp")
                     (Trace.field copy_body "username") 5000) = None
  /\ count is_dispose
       (effects (files_copyPaste sample_ToString sample_TypeError
                   sample_ArgumentError sample_basename sample_join calm
                   copy_body fresh)) = 0.
Proof.
  assert (Hs : (forall p, Trace.field copy_body "sourcePath" <> JStr p)
               \/ (forall p, Trace.field copy_body "destinationPath" <> JStr p))
    by (left; intros p; discriminate).
  split; [reflexivity|]. split; [reflexivity|]. split; [reflexivity|].
  split; [reflexivity|]. split; [reflexivity|]. split; [reflexivity|].
  split; [exact Hs|]. split; [reflexivity|].
  exact (proj1 (proj2 (proj2 (copy_of_non_string_path_keeps_connection
                                sample_ToString sample_TypeError
                                sample_ArgumentError sample_basename
                                sample_join calm copy_body fresh
                                eq_refl eq_refl eq_refl eq_refl eq_refl
                                eq_refl Hs eq_refl)))).
Defined.

Lemma ports_free_connects_to_dotted_groups_witness :
  Js.get ports_query (lit "serverIp") = Some (JStr (lit "999.999.999.999"))
  /\ (count is_connect
        (effects (ports_free sample_ToString sample_TypeError sample_Number
                    calm ports_query fresh)) = 1
      <-> exists a b c d,
            (is_group a = true /\ is_group b = true /\ is_group c = true
             /\ is_group d = true)
            /\ lit "999.999.999.999"
               = a ++ lit "." ++ b ++ lit "." ++ c ++ lit "." ++ d).
Proof.
  split; [reflexivity|].
  exact (ports_free_connects_to_dotted_groups sample_ToString
           sample_TypeError sample_Number calm ports_query
           (lit "999.999.999.999") fresh eq_refl).
Defined.

Lemma listing_hides_names_ending_in_dot_witness :
  In (entry (lit "/home/alice") listing_line)
     (contents (lit "/home/alice") listing_stdout)
  /\ exists name,
       Js.get (entry (lit "/home/alice") listing_line) (lit "name")
       = Some (JStr name)
       /\ ends_with (lit ".") name = false.
Proof.
  assert (Hin : In (entry (lit "/home/alice") listing_line)
                   (contents (lit "/home/alice") listing_stdout))
    by (left; reflexivity).
  split; [exact Hin|].
  exact (listing_hides_names_ending_in_dot (lit "/home/alice") listing_stdout
           _ Hin).
Defined.

Lemma listing_joins_fields_by_one_space_witness :
  Forall (fun fg => is_field (fst fg) = true /\ is_gap (snd fg) = true)
    listing_fields
  /\ forallb (fun c => negb (is_space c)) (lit "lab.yaml") = true
  /\ Js.get (entry (lit "/home/alice")
               (weave listing_fields (lit "lab.yaml"))) (lit "name")
     = Some (JStr (join (lit " ")
                     (skipn 8 (map fst listing_fields ++ [lit "lab.yaml"])))).
Proof.
  assert (Hf : Forall (fun fg => is_field (fst fg) = true
                                 /\ is_gap (snd fg) = true) listing_fields).
  { unfold listing_fields.
    repeat (constructor; [split; reflexivity|]). constructor. }
  split; [exact Hf|]. split; [reflexivity|].
  exact (listing_joins_fields_by_one_space (lit "/home/alice") listing_fields
           (lit "lab.yaml") Hf eq_refl).
Defined.

Example listing_sample :
  weave listing_fields (lit "lab.yaml") = listing_line
  /\ contents (lit "/home/alice") listing_stdout
     = [JObj [(lit "name", JStr (lit "my lab.yaml"));
              (lit "type", JStr (lit "file"));
              (lit "path", JStr (lit "/home/alice/my lab.yaml"))]].
Proof. split; reflexivity. Qed.

Example ports_sample :
  effects (ports_free sample_ToString sample_TypeError sample_Number
             {| connect := fun _ => None;
                exec := fun _ =>
                  {| chunks := [];
                     result := inr {| code := Some 0%Z;
                                      stdout := lit "1024 1025  1027 ";
                                      stderr := [] |} |};
                putFile := fun _ _ => None |}
             ports_query fresh)
  = [Connect (login (JStr (lit "999.999.999.999")) (JStr (lit "kishore")) 5000);
     Exec findPortsScript None;
     Respond 200 (JObj [(lit "success", JBool true);
                        (lit "freePorts", JArr [JNum 1024; JNum 1025; JNum 1027]);
                        (lit "count", JNum 3)]);
     Dispose].
Proof. reflexivity. Qed.

End FilesWitnesses.
